(** * Rhein Finance backend: the ledger orchestration service

    A shallow embedding of [src/daml/daml.service.ts] (class [DamlService]),
    of the record types of [src/daml/interfaces/index.ts] and of the
    services that call it: [LoansService], [ExplorerService] and
    [WalletService].

    - JavaScript numbers are an interface ([JSNumber]): the service only
      parses, prints, adds, subtracts and compares them, and every theorem
      below holds for any implementation of these operations, IEEE binary64
      included.  The examples run on the kernel's binary64 floats.
    - Untyped JSON data ([any] in the source) is the type [value].
    - A string is the UTF-8 text of the JavaScript string.
    - An [async] method is a computation in the monad [M]: it reads and
      updates a [World] (token cache, clock, the scripted replies of the
      network, the requests sent, the console) and either returns or throws.
    - The choices of the Daml templates run on the ledger, whose code is not
      part of this service; the [Split] choice is modelled from the
      specification in module [Ledger].
    - Not embedded: [listTransfers], whose two wallet requests run
      concurrently ([Promise.all]), and the services that work on the
      database ([UsersService], [AdminService]).
*)

From Stdlib Require Import ZArith String Ascii List Bool Lia.
From Stdlib Require Import NArith PrimFloat FloatOps SpecFloat DecimalString DecimalN DecimalPos.
From stdpp Require Import gmap strings list.

Local Open Scope string_scope.
Local Open Scope list_scope.
Local Set Warnings "-register-all".

(* ====================================================================== *)
(** ** JavaScript numbers *)
(* ====================================================================== *)

(** The operations of the JavaScript [number] type the service uses.  No law
    is assumed about them. *)
Class JSNumber : Type := {
  num : Type;
  (** global [parseFloat], applied to a string *)
  parseFloat : string -> num;
  (** [Number(s)] on a string *)
  Number_of_string : string -> num;
  (** [n.toString()], also the conversion done by a template literal *)
  num_toString : num -> string;
  (** [n.toFixed(4)] *)
  num_toFixed4 : num -> string;
  (** numeric literals *)
  num_of_Z : Z -> num;
  (** the literal [0.01] *)
  num_cent : num;
  num_nan : num;
  num_add : num -> num -> num;
  num_sub : num -> num -> num;
  num_mul : num -> num -> num;
  (** [Math.abs] *)
  num_abs : num -> num;
  (** [===] on numbers *)
  num_eq : num -> num -> bool;
  (** [<], [>], [>=] on numbers *)
  num_lt : num -> num -> bool;
  num_gt : num -> num -> bool;
  num_ge : num -> num -> bool;
  (** ToBoolean: false on [0] and [NaN] *)
  num_truthy : num -> bool;
}.

(* ====================================================================== *)
(** ** Exceptions and results *)
(* ====================================================================== *)

(** A thrown JavaScript error: the constructor's name and the message. *)
Record exn : Type := Exn { exn_name : string; exn_message : string }.

Definition Error (msg : string) : exn := Exn "Error" msg.
Definition TypeError (msg : string) : exn := Exn "TypeError" msg.
Definition SyntaxError (msg : string) : exn := Exn "SyntaxError" msg.
Definition RangeError (msg : string) : exn := Exn "RangeError" msg.

(** [`${err}`]: [Error.prototype.toString]. *)
Definition exn_toString (e : exn) : string :=
  exn_name e ++ ": " ++ exn_message e.

(** [err.message] *)
Definition message (e : exn) : string := exn_message e.

Inductive Res (A : Type) : Type :=
| Ok (a : A)
| Throw (e : exn).
Arguments Ok {A} a.
Arguments Throw {A} e.

Definition res_bind {A B} (r : Res A) (k : A -> Res B) : Res B :=
  match r with
  | Ok a => k a
  | Throw e => Throw e
  end.

(* ====================================================================== *)
(** ** Strings *)
(* ====================================================================== *)

(** [s.split(c)] for a one-character separator. *)
Fixpoint split_go (c : ascii) (cur : string) (s : string) : list string :=
  match s with
  | EmptyString => [String.rev cur]
  | String a s' =>
      if Ascii.eqb a c then String.rev cur :: split_go c EmptyString s'
      else split_go c (String a cur) s'
  end.

Definition split (c : ascii) (s : string) : list string :=
  split_go c EmptyString s.

(** [arr.join(sep)] *)
Fixpoint join (sep : string) (l : list string) : string :=
  match l with
  | [] => ""
  | [x] => x
  | x :: rest => x ++ sep ++ join sep rest
  end.

(** White space removed by [String.prototype.trim].  A string is the
    UTF-8 text of the JavaScript string, so a white-space character is one,
    two or three bytes: tab, line feed, vertical tab, form feed, carriage
    return and space; U+00A0; U+1680, U+2000 to U+200A, U+2028, U+2029,
    U+202F, U+205F, U+3000 and U+FEFF. *)
Definition is_js_space (a : ascii) : bool :=
  let n := nat_of_ascii a in
  ((9 <=? n)%nat && (n <=? 13)%nat) || (n =? 32)%nat.

Definition is_js_space2 (a b : ascii) : bool :=
  (nat_of_ascii a =? 194)%nat && (nat_of_ascii b =? 160)%nat.

Definition is_js_space3 (a b c : ascii) : bool :=
  let x := nat_of_ascii a in
  let y := nat_of_ascii b in
  let z := nat_of_ascii c in
  ((x =? 225) && (y =? 154) && (z =? 128))%nat
  || ((x =? 226) && (y =? 128)
      && (((128 <=? z) && (z <=? 138)) || (z =? 168) || (z =? 169) || (z =? 175)))%nat
  || ((x =? 226) && (y =? 129) && (z =? 159))%nat
  || ((x =? 227) && (y =? 128) && (z =? 128))%nat
  || ((x =? 239) && (y =? 187) && (z =? 191))%nat.

(** Truthiness of [l.trim()]: some character of [l] is not white space. *)
Fixpoint trim_nonempty (s : string) : bool :=
  match s with
  | EmptyString => false
  | String a s1 =>
      if is_js_space a then trim_nonempty s1
      else
        match s1 with
        | String b s2 =>
            if is_js_space2 a b then trim_nonempty s2
            else
              match s2 with
              | String c s3 => if is_js_space3 a b c then trim_nonempty s3 else true
              | EmptyString => true
              end
        | EmptyString => true
        end
  end.

(** [s === t] is [String.eqb]. *)

(* ====================================================================== *)
(** ** Untyped JSON data *)
(* ====================================================================== *)

(** The data is parametrised by the type of numbers alone, not by the
    operations on them. *)
Inductive value_over (T : Type) : Type :=
| VUndef
| VNull
| VBool (b : bool)
| VNum (n : T)
| VStr (s : string)
| VArr (xs : list (value_over T))
| VObj (fields : list (string * value_over T)).
Arguments VUndef {T}.
Arguments VNull {T}.
Arguments VBool {T} b.
Arguments VNum {T} n.
Arguments VStr {T} s.
Arguments VArr {T} xs.
Arguments VObj {T} fields.

Abbreviation value := (value_over num).

Section Values.
Context {N : JSNumber}.

(** ToBoolean *)
Definition truthy (v : value) : bool :=
  match v with
  | VUndef | VNull => false
  | VBool b => b
  | VNum n => num_truthy n
  | VStr s => negb (String.eqb s "")
  | VArr _ | VObj _ => true
  end.

(** [a || b] *)
Definition or_else (a b : value) : value := if truthy a then a else b.

Fixpoint assoc (k : string) (fs : list (string * value)) : value :=
  match fs with
  | [] => VUndef
  | (k', v) :: rest => if String.eqb k k' then v else assoc k rest
  end.

(** [v?.k]: own data property of an object, [undefined] otherwise.  (JSON
    data has no accessors; the properties the service reads are never the
    built-in ones of strings or arrays.) *)
Definition opt_get (v : value) (k : string) : value :=
  match v with
  | VObj fs => assoc k fs
  | _ => VUndef
  end.

(** [v.k]: throws a TypeError on [undefined] and [null]. *)
Definition get (v : value) (k : string) : Res value :=
  match v with
  | VUndef => Throw (TypeError ("Cannot read properties of undefined (reading '" ++ k ++ "')"))
  | VNull => Throw (TypeError ("Cannot read properties of null (reading '" ++ k ++ "')"))
  | _ => Ok (opt_get v k)
  end.

(** ToString, as done by [String(v)] and by template literals. *)
Fixpoint ToString (v : value) : string :=
  match v with
  | VUndef => "undefined"
  | VNull => "null"
  | VBool true => "true"
  | VBool false => "false"
  | VNum n => num_toString n
  | VStr s => s
  | VArr xs =>
      join "," (map (fun x => match x with
                              | VUndef | VNull => ""
                              | _ => ToString x
                              end) xs)
  | VObj _ => "[object Object]"
  end.

(** ToNumber, as done by the arithmetic operators. *)
Definition ToNumber (v : value) : num :=
  match v with
  | VUndef => num_nan
  | VNull => num_of_Z 0
  | VBool true => num_of_Z 1
  | VBool false => num_of_Z 0
  | VNum n => n
  | VStr s => Number_of_string s
  | VArr _ => Number_of_string (ToString v)
  | VObj _ => num_nan
  end.

(** [v === 'lit'] *)
Definition is_str (v : value) (lit : string) : bool :=
  match v with
  | VStr s => String.eqb s lit
  | _ => false
  end.

(** [for (const x of v)]: arrays and strings are iterable. *)
Definition iterate (v : value) : Res (list value) :=
  match v with
  | VArr xs => Ok xs
  | VStr s => Ok (map (fun a => VStr (String a EmptyString)) (list_ascii_of_string s))
  | _ => Throw (TypeError (ToString v ++ " is not iterable"))
  end.

(** The receiver of [.map(f)] / [.filter(f)]: only arrays have them. *)
Definition as_array (v : value) : Res (list value) :=
  match v with
  | VArr xs => Ok xs
  | VUndef | VNull => Throw (TypeError "Cannot read properties of undefined (reading 'map')")
  | _ => Throw (TypeError "map is not a function")
  end.

End Values.

(** The built-in functions the service calls that are not modelled further. *)
Class JSBuiltins {N : JSNumber} : Type := {
  (** [JSON.parse]; a [SyntaxError] on malformed text *)
  JSON_parse : string -> Res value;
  (** [JSON.stringify(v)] and [JSON.stringify(v, null, 2)] *)
  JSON_stringify : value -> string;
  JSON_stringify_pretty : value -> string;
  (** [new Date(s).getTime()], [NaN] on an invalid date *)
  Date_getTime : string -> num;
  (** [new Date(t).toISOString()]; a [RangeError] on an invalid time *)
  Date_toISOString : num -> Res string;
  (** [new URL(s)] accepts [s] *)
  URL_ok : string -> bool;
  (** [parseInt(s)] *)
  parseInt : string -> num;
}.

(* ====================================================================== *)
(** ** The world of an [async] method *)
(* ====================================================================== *)

(** [tokenCache: Map<string, { token: string; expiresAt: number }>].  The
    token is what the token endpoint sent as [access_token], of type [any]. *)
Record CachedToken_over {T : Type} : Type := {
  token : value_over T;
  expiresAt : T;
}.
Abbreviation CachedToken := (@CachedToken_over num).

(** What [customFetch] passes to [client.request]. *)
Record Request : Type := {
  req_url : string;
  req_method : string;
  req_headers : list (string * string);
  req_body : option string;
}.

(** What the network does with one request: it answers with a status code
    and a body, or the request fails ([req.on('error')]).  Either way the
    clock reads [at_time] afterwards. *)
Inductive NetEvent_over {T : Type} : Type :=
| Responds (statusCode : T) (data : string) (at_time : T)
| Fails (error : exn) (at_time : T).
Abbreviation NetEvent := (@NetEvent_over num).

Record World_over {T : Type} : Type := {
  (** [this.tokenCache] *)
  tokenCache : gmap string (@CachedToken_over T);
  (** what [Date.now()] returns *)
  clock : T;
  (** the outcomes of the requests still to come, in order *)
  net : list (@NetEvent_over T);
  (** the requests made so far, in order *)
  sent : list Request;
  (** the lines written by [console.error], in order *)
  console : list string;
  (** the results of the [Math.random().toString(36).slice(2, 8)] still to
      come, in order *)
  random : list string;
}.
Abbreviation World := (@World_over num).

(** An [async] method returning [A]. *)
Definition M_over (T : Type) (A : Type) : Type := @World_over T -> Res A * @World_over T.
Abbreviation M := (M_over num).

Section World.
Context {N : JSNumber}.

Definition set_tokenCache (c : gmap string CachedToken) (w : World) : World :=
  {| tokenCache := c; clock := clock w; net := net w; sent := sent w;
     console := console w; random := random w |}.

Definition set_random (r : list string) (w : World) : World :=
  {| tokenCache := tokenCache w; clock := clock w; net := net w; sent := sent w;
     console := console w; random := r |}.

Definition add_console (line : string) (w : World) : World :=
  {| tokenCache := tokenCache w; clock := clock w; net := net w; sent := sent w;
     console := console w ++ [line]; random := random w |}.

(** One request leaves; [rest] are the outcomes still to come and [t] the
    time at which this one completes. *)
Definition after_request (r : Request) (rest : list NetEvent) (t : num) (w : World) : World :=
  {| tokenCache := tokenCache w; clock := t; net := rest; sent := sent w ++ [r];
     console := console w; random := random w |}.

Definition ret {A} (a : A) : M A := fun w => (Ok a, w).

Definition throw {A} (e : exn) : M A := fun w => (Throw e, w).

Definition bind {A B} (m : M A) (k : A -> M B) : M B :=
  fun w =>
    match m w with
    | (Ok a, w') => k a w'
    | (Throw e, w') => (Throw e, w')
    end.

(** A synchronous computation that may throw. *)
Definition lift {A} (r : Res A) : M A := fun w => (r, w).

(** [try { body } catch (e) { handler }] *)
Definition try_catch {A} (body : M A) (handler : exn -> M A) : M A :=
  fun w =>
    match body w with
    | (Ok a, w') => (Ok a, w')
    | (Throw e, w') => handler e w'
    end.

(** [Date.now()] *)
Definition Date_now : M num := fun w => (Ok (clock w), w).

(** [console.error(line)] *)
Definition console_error (line : string) : M unit :=
  fun w => (Ok tt, add_console line w).

(** [Math.random().toString(36).slice(2, 8)] *)
Definition random_suffix : M string :=
  fun w =>
    match random w with
    | [] => (Ok "", w)
    | r :: rest => (Ok r, set_random rest w)
    end.

End World.

Declare Scope js_scope.
Delimit Scope js_scope with js.
Notation "x <- m ; k" := (bind m (fun x => k))
  (at level 20, m at level 100, k at level 200, only parsing) : js_scope.
Notation "m ;; k" := (bind m (fun _ => k))
  (at level 100, k at level 200, only parsing, right associativity) : js_scope.
Local Open Scope js_scope.

(* ====================================================================== *)
(** ** Contract records ([src/daml/interfaces/index.ts]) *)
(* ====================================================================== *)

(** A contract as [queryContracts] returns it, before the cast to one of the
    interfaces: [{ contractId, templateId, payload }], all three untyped. *)
Record RawContract_over {T : Type} : Type := {
  raw_contractId : value_over T;
  raw_templateId : value_over T;
  raw_payload : value_over T;
}.
Abbreviation RawContract := (@RawContract_over num).

(** [{ contractId, payload }] with a payload of interface [P].  The contract
    id is whatever the ledger sent (a string, for a well-behaved ledger). *)
Record Contract_over {T : Type} (P : Type) : Type := {
  contractId : value_over T;
  payload : P;
}.
Arguments contractId {T P} _.
Arguments payload {T P} _.
Abbreviation Contract := (@Contract_over num).

Module AmuletAmount.
Record t : Type := {
  initialAmount : string;
  createdAt : string;      (* createdAt.number *)
  ratePerRound : string;   (* ratePerRound.rate *)
}.
End AmuletAmount.

Module Amulet.
Record Payload : Type := {
  dso : string;
  owner : string;
  amount : AmuletAmount.t;
}.
End Amulet.

Module LockedAmulet.
Record Lock : Type := {
  holders : list string;
  expiresAt : string;
}.
Record Payload : Type := {
  amulet : Amulet.Payload;
  lock : Lock;
}.
End LockedAmulet.

Module AssetHolding.
Record Payload : Type := {
  issuer : string;
  owner : string;
  custodian : string;
  assetType : string;
  amount : string;
}.
(** [{ ...p, amount: a }] *)
Definition with_amount (p : Payload) (a : string) : Payload :=
  {| issuer := issuer p; owner := owner p; custodian := custodian p;
     assetType := assetType p; amount := a |}.
End AssetHolding.

Module LockedAssetHolding.
Record Payload : Type := {
  issuer : string;
  owner : string;
  custodian : string;
  assetType : string;
  amount : string;
  lockReason : string;
  releaseTo : string;
}.
End LockedAssetHolding.

Inductive OfferType : Type := BorrowerBid | LenderAsk.

Definition OfferType_string (t : OfferType) : string :=
  match t with
  | BorrowerBid => "BorrowerBid"
  | LenderAsk => "LenderAsk"
  end.

Module ActiveLoanHybrid.
Record Payload : Type := {
  borrower : string;
  lender : string;
  ccCollateralReference : string;
  principal : string;
  collateralAmount : string;
  interestRate : string;
  maturityDate : string;
  originationDate : string;
  ccPrice : string;
  stablecoinType : string;
}.
End ActiveLoanHybrid.

Module TokenBalance.
Record t_over {T : Type} : Type := {
  assetType : string;
  available : T;
  locked : T;
  borrowed : T;
  total : T;
}.
Abbreviation t := (@t_over num).
End TokenBalance.

Inductive EventType : Type := created | archived | exercised.

Module TransactionEvent.
(** The optional members [payload?], [choice?], [argument?] are [VUndef]
    when the object literal does not set them. *)
Record t_over {T : Type} : Type := {
  eventType : EventType;
  contractId : value_over T;
  templateId : value_over T;
  eventId : value_over T;
  payload : value_over T;
  choice : value_over T;
  argument : value_over T;
}.
Abbreviation t := (@t_over num).
End TransactionEvent.

Module Transaction.
Record t_over {T : Type} : Type := {
  transactionId : value_over T;
  effectiveAt : value_over T;
  offset : string;
  events : list (@TransactionEvent.t_over T);
}.
Abbreviation t := (@t_over num).
End Transaction.

(** The argument of [createLoanOffer]. *)
Module OfferSpec.
Record t : Type := {
  offerType : OfferType;
  loanAmount : string;
  collateralAmount : string;
  interestRate : string;
  maturityDate : string;
}.
End OfferSpec.

(** The casts of [queryContracts]' untyped result to the interfaces.  A
    member declared [string] is read as the string the ledger sent; any other
    value is read through ToString, [undefined] and [null] as the empty
    string. *)
Section Casts.
Context {N : JSNumber}.

Definition str_of (v : value) : string :=
  match v with
  | VStr s => s
  | VUndef | VNull => ""
  | _ => ToString v
  end.

Definition field (v : value) (k : string) : string := str_of (opt_get v k).

Definition cast {P : Type} (f : value -> P) (c : RawContract) : Contract P :=
  {| contractId := raw_contractId c; payload := f (raw_payload c) |}.

Definition asAmuletAmount (v : value) : AmuletAmount.t :=
  {| AmuletAmount.initialAmount := field v "initialAmount";
     AmuletAmount.createdAt := field (opt_get v "createdAt") "number";
     AmuletAmount.ratePerRound := field (opt_get v "ratePerRound") "rate" |}.

Definition asAmulet (v : value) : Amulet.Payload :=
  {| Amulet.dso := field v "dso";
     Amulet.owner := field v "owner";
     Amulet.amount := asAmuletAmount (opt_get v "amount") |}.

Definition asLockedAmulet (v : value) : LockedAmulet.Payload :=
  {| LockedAmulet.amulet := asAmulet (opt_get v "amulet");
     LockedAmulet.lock :=
       {| LockedAmulet.holders :=
            match opt_get (opt_get v "lock") "holders" with
            | VArr xs => map str_of xs
            | _ => []
            end;
          LockedAmulet.expiresAt := field (opt_get v "lock") "expiresAt" |} |}.

Definition asAssetHolding (v : value) : AssetHolding.Payload :=
  {| AssetHolding.issuer := field v "issuer";
     AssetHolding.owner := field v "owner";
     AssetHolding.custodian := field v "custodian";
     AssetHolding.assetType := field v "assetType";
     AssetHolding.amount := field v "amount" |}.

Definition asLockedAssetHolding (v : value) : LockedAssetHolding.Payload :=
  {| LockedAssetHolding.issuer := field v "issuer";
     LockedAssetHolding.owner := field v "owner";
     LockedAssetHolding.custodian := field v "custodian";
     LockedAssetHolding.assetType := field v "assetType";
     LockedAssetHolding.amount := field v "amount";
     LockedAssetHolding.lockReason := field v "lockReason";
     LockedAssetHolding.releaseTo := field v "releaseTo" |}.

Definition asActiveLoan (v : value) : ActiveLoanHybrid.Payload :=
  {| ActiveLoanHybrid.borrower := field v "borrower";
     ActiveLoanHybrid.lender := field v "lender";
     ActiveLoanHybrid.ccCollateralReference := field v "ccCollateralReference";
     ActiveLoanHybrid.principal := field v "principal";
     ActiveLoanHybrid.collateralAmount := field v "collateralAmount";
     ActiveLoanHybrid.interestRate := field v "interestRate";
     ActiveLoanHybrid.maturityDate := field v "maturityDate";
     ActiveLoanHybrid.originationDate := field v "originationDate";
     ActiveLoanHybrid.ccPrice := field v "ccPrice";
     ActiveLoanHybrid.stablecoinType := field v "stablecoinType" |}.

End Casts.

(* ====================================================================== *)
(** ** The service: configuration and transport *)
(* ====================================================================== *)

(** The fields the constructor of [DamlService] sets. *)
Record Config_over {T : Type} : Type := {
  jsonApiUrl : string;
  packageId : string;
  adminPartyId : string;
  damlUserId : string;
  ccPrice : T;
  defaultLtv : T;
  amuletPackageId : string;
  dsoPartyId : string;
  validatorWalletUrl : string;
  validatorAuthAudience : string;
  auth0TokenUrl : string;
  auth0ClientId : string;
  auth0ClientSecret : string;
  ledgerApiAuthAudience : string;
}.
Abbreviation Config := (@Config_over num).

(** [configService.get(key) || dflt] *)
Definition get_or (configService_get : string -> option string) (key dflt : string) : string :=
  match configService_get key with
  | Some s => if String.eqb s "" then dflt else s
  | None => dflt
  end.

Definition constructor {N : JSNumber} (configService_get : string -> option string) : Config :=
  {| jsonApiUrl := get_or configService_get "JSON_API_URL" "http://172.18.0.5:7575";
     packageId := get_or configService_get "PACKAGE_ID" "";
     adminPartyId := get_or configService_get "ADMIN_PARTY_ID" "";
     damlUserId := get_or configService_get "DAML_USER_ID" "administrator";
     ccPrice := parseFloat (get_or configService_get "CC_PRICE" "0.125");
     defaultLtv := parseFloat (get_or configService_get "DEFAULT_LTV" "0.50");
     amuletPackageId := get_or configService_get "AMULET_PACKAGE_ID" "";
     dsoPartyId := get_or configService_get "DSO_PARTY_ID" "";
     validatorWalletUrl := get_or configService_get "VALIDATOR_WALLET_URL" "http://172.18.0.6:5003";
     validatorAuthAudience :=
       get_or configService_get "VALIDATOR_AUTH_AUDIENCE" "https://validator.rhein.finance";
     auth0TokenUrl := get_or configService_get "AUTH0_TOKEN_URL" "";
     auth0ClientId := get_or configService_get "AUTH0_CLIENT_ID" "";
     auth0ClientSecret := get_or configService_get "AUTH0_CLIENT_SECRET" "";
     ledgerApiAuthAudience :=
       get_or configService_get "LEDGER_API_AUTH_AUDIENCE" "https://canton.network.global" |}.

(** The [options] argument of [customFetch]. *)
Record FetchOptions : Type := {
  method : string;
  headers : list (string * string);
  body : option string;
}.

(** The object [customFetch] resolves to: [text()] is [data] and [json()] is
    [JSON.parse(data)]. *)
Record Response_over {T : Type} : Type := {
  ok : bool;
  status : T;
  data : string;
}.
Abbreviation Response := (@Response_over num).

Section DamlService.
Context {N : JSNumber} {B : JSBuiltins}.
Variable this : Config.

Definition templateId (moduleName : string) : string :=
  packageId this ++ ":" ++ moduleName.

Definition amuletTemplateId (templateName : string) : string :=
  amuletPackageId this ++ ":Splice.Amulet:" ++ templateName.

Definition text (response : Response) : M string := ret (data response).

Definition json (response : Response) : M value := lift (JSON_parse (data response)).

(** The request [customFetch] makes for [options]: the method defaults to
    GET and an empty body is not written. *)
Definition request_of (url : string) (options : FetchOptions) : Request :=
  {| req_url := url;
     req_method := if String.eqb (method options) "" then "GET" else method options;
     req_headers := headers options;
     req_body := match body options with
                 | Some b => if String.eqb b "" then None else Some b
                 | None => None
                 end |}.

(** [customFetch], lines 217-250: [new URL(url)] throws inside the promise
    on a malformed URL; otherwise the request is made and the network
    decides.  A request the script has no outcome for fails to connect. *)
Definition customFetch (url : string) (options : FetchOptions) : M Response :=
  fun w =>
    if negb (URL_ok url) then (Throw (TypeError "Invalid URL"), w)
    else
      let r := request_of url options in
      match net w with
      | [] => (Throw (Error "connect ECONNREFUSED"), after_request r [] (clock w) w)
      | Responds st d t :: rest =>
          (Ok {| ok := num_ge st (num_of_Z 200) && num_lt st (num_of_Z 300);
                 status := st; data := d |},
           after_request r rest t w)
      | Fails e t :: rest => (Throw e, after_request r rest t w)
      end.

(** [this.tokenCache.get(audience)] and [this.tokenCache.set(audience, c)] *)
Definition tokenCache_get (audience : string) : M (option CachedToken) :=
  fun w => (Ok (tokenCache w !! audience), w).

Definition tokenCache_set (audience : string) (c : CachedToken) : M unit :=
  fun w => (Ok tt, set_tokenCache (<[audience := c]> (tokenCache w)) w).

(** [cached && cached.expiresAt > now] *)
Definition still_valid (cached : option CachedToken) (now : num) : option CachedToken :=
  match cached with
  | Some c => if num_gt (expiresAt c) now then Some c else None
  | None => None
  end.

(** The client-credentials request, lines 76-87. *)
Definition tokenRequest (audience : string) : FetchOptions :=
  {| method := "POST";
     headers := [("Content-Type", "application/json")];
     body := Some (JSON_stringify (VObj [("client_id", VStr (auth0ClientId this));
                                         ("client_secret", VStr (auth0ClientSecret this));
                                         ("audience", VStr audience);
                                         ("grant_type", VStr "client_credentials")])) |}.

(** [Date.now() + (expires_in - 60) * 1000] *)
Definition expiry (now : num) (expires_in : value) : num :=
  num_add now (num_mul (num_sub (ToNumber expires_in) (num_of_Z 60)) (num_of_Z 1000)).

(** Lines 70-100. *)
Definition getAuth0Token (audience : string) : M value :=
  cached <- tokenCache_get audience ;
  now <- Date_now ;
  match still_valid cached now with
  | Some c => ret (token c)
  | None =>
      response <- customFetch (auth0TokenUrl this) (tokenRequest audience) ;
      if negb (ok response) then
        errorText <- text response ;
        throw (Error ("Auth0 token request failed (" ++ num_toString (status response)
                      ++ "): " ++ errorText))
      else
        data <- json response ;
        token <- lift (get data "access_token") ;
        now' <- Date_now ;
        expires_in <- lift (get data "expires_in") ;
        tokenCache_set audience {| token := token; expiresAt := expiry now' expires_in |} ;;
        ret token
  end.

Definition getValidatorToken : M value := getAuth0Token (validatorAuthAudience this).

Definition getLedgerApiToken : M value := getAuth0Token (ledgerApiAuthAudience this).

(** [`Bearer ${token}`] *)
Definition bearer (token : value) : string := "Bearer " ++ ToString token.

(** [userToken || await this.getValidatorToken()] *)
Definition userToken_or (userToken : option string) (fallback : M value) : M value :=
  match userToken with
  | Some t => if String.eqb t "" then fallback else ret (VStr t)
  | None => fallback
  end.

(** Lines 184-215.  [body] is [VUndef] when the caller passes none. *)
Definition walletApiFetch (endpoint : string) (method : string) (body : value)
    (userToken : option string) : M value :=
  token <- userToken_or userToken getValidatorToken ;
  let url := (validatorWalletUrl this ++ "/api/validator/v0/wallet/" ++ endpoint)%string in
  let options :=
    {| method := method;
       headers := [("Authorization", bearer token); ("Content-Type", "application/json")];
       body := if truthy body then Some (JSON_stringify body) else None |} in
  response <- customFetch url options ;
  if negb (ok response) then
    errorText <- text response ;
    throw (Error ("Wallet API error (" ++ num_toString (status response) ++ "): " ++ errorText))
  else
    text <- text response ;
    if negb (trim_nonempty text) then ret (VObj [])
    else lift (JSON_parse text).

(** Lines 256-271.  ([console.warn] is not recorded.) *)
Definition getLatestOffset : M value :=
  token <- getLedgerApiToken ;
  response <- customFetch (jsonApiUrl this ++ "/v2/state/ledger-end")
                {| method := "GET"; headers := [("Authorization", bearer token)]; body := None |} ;
  if negb (ok response) then ret (VNum (num_of_Z 999999999))
  else
    data <- json response ;
    offset <- lift (get data "offset") ;
    ret (or_else offset (VNum (num_of_Z 999999999))).

(** The loop body of [queryContracts], lines 330-345: the created event of
    one entry, under any of the four nestings, kept when it has a contract
    id. *)
Definition decodeEntry (entry : value) : Res (option RawContract) :=
  res_bind (get entry "contractEntry") (fun contractEntry =>
  let event :=
    or_else (opt_get (opt_get contractEntry "JsActiveContract") "createdEvent")
      (or_else (opt_get (opt_get contractEntry "activeContract") "createdEvent")
         (or_else (opt_get entry "createdEvent") entry)) in
  if truthy (opt_get event "contractId") then
    Ok (Some {| raw_contractId := opt_get event "contractId";
                raw_templateId := opt_get event "templateId";
                raw_payload := or_else (opt_get event "createArgument")
                                 (or_else (opt_get event "createArguments")
                                    (opt_get event "payload")) |})
  else Ok None).

Fixpoint decodeEntries (entries : list value) : Res (list RawContract) :=
  match entries with
  | [] => Ok []
  | entry :: rest =>
      res_bind (decodeEntry entry) (fun c =>
      res_bind (decodeEntries rest) (fun cs =>
      Ok (match c with Some c => c :: cs | None => cs end)))
  end.

(** Lines 283-349. *)
Definition queryContracts (templateIds : list string) (actAs : list string) : M (list RawContract) :=
  offset <- getLatestOffset ;
  let cumulativeFilters :=
    map (fun id =>
           VObj [("identifierFilter",
                  VObj [("TemplateFilter",
                         VObj [("value", VObj [("templateId", VStr id);
                                               ("includeCreatedEventBlob", VBool false)])])]);
                 ("templateFilters", VArr [])]) templateIds in
  let filtersByParty :=
    VObj (map (fun party => (party, VObj [("cumulative", VArr cumulativeFilters)])) actAs) in
  let body := VObj [("userId", VStr (damlUserId this));
                    ("filter", VObj [("filtersByParty", filtersByParty)]);
                    ("activeAtOffset", offset)] in
  token <- getLedgerApiToken ;
  response <- customFetch (jsonApiUrl this ++ "/v2/state/active-contracts")
                {| method := "POST";
                   headers := [("Content-Type", "application/json");
                               ("Authorization", bearer token)];
                   body := Some (JSON_stringify body) |} ;
  if negb (ok response) then
    errorText <- text response ;
    console_error ("[DAML Query Error] " ++ num_toString (status response) ++ ": " ++ errorText) ;;
    throw (Error ("DAML Query Error (" ++ num_toString (status response) ++ "): " ++ errorText))
  else
    data <- json response ;
    entries <- lift (iterate data) ;
    lift (decodeEntries entries).

(** The body of a submission, lines 360-368. *)
Definition submitBody (commandId : string) (commands : list value) (actAs : list string) : value :=
  VObj [("commands",
         VObj [("userId", VStr (damlUserId this));
               ("commandId", VStr commandId);
               ("commands", VArr commands);
               ("actAs", VArr (map VStr actAs));
               ("readAs", VArr [])])].

(** Lines 358-392. *)
Definition submitCommand (commands : list value) (actAs : list string) : M value :=
  now <- Date_now ;
  suffix <- random_suffix ;
  let commandId := ("rhein-" ++ num_toString now ++ "-" ++ suffix)%string in
  let body := submitBody commandId commands actAs in
  token <- getLedgerApiToken ;
  response <- customFetch (jsonApiUrl this ++ "/v2/commands/submit-and-wait-for-transaction")
                {| method := "POST";
                   headers := [("Content-Type", "application/json");
                               ("Authorization", bearer token)];
                   body := Some (JSON_stringify body) |} ;
  if negb (ok response) then
    errorText <- text response ;
    console_error ("[DAML Command Error] " ++ num_toString (status response) ++ ": " ++ errorText) ;;
    throw (Error ("DAML Command Error (" ++ num_toString (status response) ++ "): " ++ errorText))
  else json response.

Definition createCmd (templateId : string) (createArguments : value) : value :=
  VObj [("CreateCommand",
         VObj [("templateId", VStr templateId); ("createArguments", createArguments)])].

Definition exerciseCmd (templateId : string) (contractId : value) (choice : string)
    (choiceArgument : value) : value :=
  VObj [("ExerciseCommand",
         VObj [("templateId", VStr templateId); ("contractId", contractId);
               ("choice", VStr choice); ("choiceArgument", choiceArgument)])].

(** [result.transaction?.events || []], iterated. *)
Definition transaction_events (result : value) : Res (list value) :=
  res_bind (get result "transaction") (fun transaction =>
  iterate (or_else (opt_get transaction "events") (VArr []))).

Definition is_undefined (v : value) : bool :=
  match v with VUndef => true | _ => false end.

Fixpoint firstExerciseResult (events : list value) : Res value :=
  match events with
  | [] => Ok VUndef
  | event :: rest =>
      res_bind (get event "ExercisedEvent") (fun e1 =>
      if negb (is_undefined (opt_get e1 "exerciseResult")) then Ok (opt_get e1 "exerciseResult")
      else
        let e2 := opt_get event "exercised" in
        if negb (is_undefined (opt_get e2 "exerciseResult")) then Ok (opt_get e2 "exerciseResult")
        else firstExerciseResult rest)
  end.

(** Lines 408-420. *)
Definition getExerciseResult (result : value) : Res value :=
  res_bind (transaction_events result) firstExerciseResult.

Fixpoint firstCreatedContractId (events : list value) : Res value :=
  match events with
  | [] => Ok VUndef
  | event :: rest =>
      res_bind (get event "CreatedEvent") (fun e1 =>
      if truthy (opt_get e1 "contractId") then Ok (opt_get e1 "contractId")
      else
        let e2 := opt_get event "created" in
        if truthy (opt_get e2 "contractId") then Ok (opt_get e2 "contractId")
        else firstCreatedContractId rest)
  end.

(** Lines 423-430. *)
Definition getCreatedContractId (result : value) : Res value :=
  res_bind (transaction_events result) firstCreatedContractId.

(** [x = await q; (x as P[])]: a query followed by the cast to its declared
    result type. *)
Definition query {P : Type} (f : value -> P) (templateIds actAs : list string) : M (list (Contract P)) :=
  cs <- queryContracts templateIds actAs ;
  ret (map (cast f) cs).

Definition queryAssetHoldings (partyId : string) : M (list (Contract AssetHolding.Payload)) :=
  query asAssetHolding [templateId "Holding:AssetHolding"] [partyId].

Definition queryLockedAssetHoldings (partyId : string)
    : M (list (Contract LockedAssetHolding.Payload)) :=
  query asLockedAssetHolding [templateId "Holding:LockedAssetHolding"] [partyId].

Definition calculateAmuletAmount (amount : AmuletAmount.t) : num :=
  parseFloat (AmuletAmount.initialAmount amount).

Definition queryAmulets (partyId : string) : M (list (Contract Amulet.Payload)) :=
  query asAmulet [amuletTemplateId "Amulet"] [partyId].

Definition queryLockedAmulets (partyId : string) : M (list (Contract LockedAmulet.Payload)) :=
  query asLockedAmulet [amuletTemplateId "LockedAmulet"] [partyId].

Definition queryActiveLoans (partyId : string) : M (list (Contract ActiveLoanHybrid.Payload)) :=
  query asActiveLoan [templateId "ActiveLoanHybrid:ActiveLoanHybrid"] [partyId].

(** [xs.reduce((sum, x) => sum + f(x), 0)] *)
Definition sum_by {A : Type} (f : A -> num) (xs : list A) : num :=
  fold_left (fun sum x => num_add sum (f x)) xs (num_of_Z 0).

(** [h.payload.assetType === 'USDC' && h.payload.owner === partyId] *)
Definition is_usdc_of (partyId : string) (h : Contract AssetHolding.Payload) : bool :=
  String.eqb (AssetHolding.assetType (payload h)) "USDC"
  && String.eqb (AssetHolding.owner (payload h)) partyId.

Definition is_locked_usdc_of (partyId : string) (h : Contract LockedAssetHolding.Payload) : bool :=
  String.eqb (LockedAssetHolding.assetType (payload h)) "USDC"
  && String.eqb (LockedAssetHolding.owner (payload h)) partyId.

Definition holding_amount (h : Contract AssetHolding.Payload) : num :=
  parseFloat (AssetHolding.amount (payload h)).

(** Lines 476-522. *)
Definition getTokenBalances (partyId : string) : M (TokenBalance.t * TokenBalance.t) :=
  holdings <- queryAssetHoldings partyId ;
  lockedHoldings <- queryLockedAssetHoldings partyId ;
  activeLoans <- queryActiveLoans partyId ;
  let usdcAvailable := sum_by holding_amount (List.filter (is_usdc_of partyId) holdings) in
  let usdcLocked :=
    sum_by (fun h => parseFloat (LockedAssetHolding.amount (payload h)))
      (List.filter (is_locked_usdc_of partyId) lockedHoldings) in
  let usdcBorrowed :=
    sum_by (fun loan => parseFloat (ActiveLoanHybrid.principal (payload loan)))
      (List.filter (fun loan => String.eqb (ActiveLoanHybrid.borrower (payload loan)) partyId)
         activeLoans) in
  amulets <- queryAmulets partyId ;
  lockedAmulets <- queryLockedAmulets partyId ;
  let ccAvailable := sum_by (fun a => calculateAmuletAmount (Amulet.amount (payload a))) amulets in
  let ccLocked :=
    sum_by (fun a => calculateAmuletAmount (Amulet.amount (LockedAmulet.amulet (payload a))))
      lockedAmulets in
  ret ({| TokenBalance.assetType := "USDC";
          TokenBalance.available := usdcAvailable;
          TokenBalance.locked := usdcLocked;
          TokenBalance.borrowed := usdcBorrowed;
          TokenBalance.total := num_add usdcAvailable usdcLocked |},
       {| TokenBalance.assetType := "CC";
          TokenBalance.available := ccAvailable;
          TokenBalance.locked := ccLocked;
          TokenBalance.borrowed := num_of_Z 0;
          TokenBalance.total := num_add ccAvailable ccLocked |}).

(* ====================================================================== *)
(** ** Holdings: selection, split, lock, transfer *)
(* ====================================================================== *)

(** [r?._1 || (Array.isArray(r) ? r[0] : undefined)
          || (typeof r === 'string' ? r : undefined)] *)
Definition splitAmountCid_of (exerciseResult : value) : value :=
  or_else (opt_get exerciseResult "_1")
    (or_else (match exerciseResult with VArr (x :: _) => x | _ => VUndef end)
       (match exerciseResult with VStr _ => exerciseResult | _ => VUndef end)).

(** [events.map(e => e.CreatedEvent || e.created).filter(e => e?.contractId)] *)
Fixpoint createdEventsOf (events : list value) : Res (list value) :=
  match events with
  | [] => Ok []
  | e :: rest =>
      res_bind (get e "CreatedEvent") (fun c =>
      let ev := or_else c (opt_get e "created") in
      res_bind (createdEventsOf rest) (fun evs =>
      Ok (if truthy (opt_get ev "contractId") then ev :: evs else evs)))
  end.

(** [(splitResult.transaction?.events || [])], as the receiver of [.map]. *)
Definition createdEvents (splitResult : value) : Res (list value) :=
  res_bind (get splitResult "transaction") (fun transaction =>
  res_bind (as_array (or_else (opt_get transaction "events") (VArr []))) createdEventsOf).

Definition splitCmd (holding : Contract AssetHolding.Payload) (amount : num) : value :=
  exerciseCmd (templateId "Holding:AssetHolding") (contractId holding) "Split"
    (VObj [("splitAmount", VStr (num_toString amount))]).

(** The successor a split leaves for the caller, lines 566-595 (and
    1171-1194): the first component of the choice's result, or else the
    first contract the transaction created, carrying the payload of the
    holding that was split with [amount] in place of its amount. *)
Definition splitSuccessor (log : bool) (largeEnough : Contract AssetHolding.Payload)
    (amount : num) (splitResult : value) : M (Contract AssetHolding.Payload) :=
  exerciseResult <- lift (getExerciseResult splitResult) ;
  let splitAmountCid := splitAmountCid_of exerciseResult in
  if truthy splitAmountCid then
    ret {| contractId := splitAmountCid;
           payload := AssetHolding.with_amount (payload largeEnough) (num_toString amount) |}
  else
    createdEvents <- lift (createdEvents splitResult) ;
    match createdEvents with
    | first :: _ =>
        ret {| contractId := opt_get first "contractId";
               payload := AssetHolding.with_amount (payload largeEnough) (num_toString amount) |}
    | [] =>
        (if log then
           console_error ("Split result structure: "
                          ++ String.substring 0 2000 (JSON_stringify_pretty splitResult))
         else ret tt) ;;
        throw (Error "Split did not return expected contract IDs")
    end.

(** The holding a lock or a transfer of [amount] is exercised on: lines
    534-596 of [lockUSDC] and, word for word but for the [console.error]
    before the last throw ([log]), lines 1138-1195 of [transferUSDC].  The
    spec calls it [allocateExact]. *)
Definition allocateExact (log : bool) (partyId : string) (amount : num)
    : M (Contract AssetHolding.Payload) :=
  holdings <- queryAssetHoldings partyId ;
  let usdcHoldings := List.filter (is_usdc_of partyId) holdings in
  if (length usdcHoldings =? 0)%nat then
    throw (Error ("No USDC holdings found for party " ++ partyId))
  else
    match List.find (fun h => num_eq (holding_amount h) amount) usdcHoldings with
    | Some exactMatch => ret exactMatch
    | None =>
        match List.find (fun h => num_ge (holding_amount h) amount) usdcHoldings with
        | None =>
            let totalAvailable := sum_by holding_amount usdcHoldings in
            throw (Error ("Insufficient USDC balance. Need " ++ num_toString amount
                          ++ ", have " ++ num_toString totalAvailable))
        | Some largeEnough =>
            splitResult <- submitCommand [splitCmd largeEnough amount] [partyId] ;
            splitSuccessor log largeEnough amount splitResult
        end
    end.

(** [typeof v === 'string'] *)
Definition is_string (v : value) : bool :=
  match v with VStr _ => true | _ => false end.

(** Lines 528-621. *)
Definition lockUSDC (partyId : string) (amount : num) (lockReason releaseTo : string) : M value :=
  holdingToLock <- allocateExact true partyId amount ;
  lockResult <- submitCommand
                  [exerciseCmd (templateId "Holding:AssetHolding") (contractId holdingToLock)
                     "Lock" (VObj [("lockReason", VStr lockReason); ("releaseTo", VStr releaseTo)])]
                  [partyId] ;
  exerciseResult <- lift (getExerciseResult lockResult) ;
  lockedCid <- (if negb (truthy exerciseResult) || negb (is_string exerciseResult)
                then lift (getCreatedContractId lockResult)
                else ret exerciseResult) ;
  if negb (truthy lockedCid) then
    console_error ("Lock result structure: "
                   ++ String.substring 0 2000 (JSON_stringify_pretty lockResult)) ;;
    throw (Error "Lock did not return expected contract ID")
  else ret lockedCid.

(** Lines 1137-1217. *)
Definition transferUSDC (senderPartyId recipientPartyId : string) (amount : num) : M value :=
  holdingToTransfer <- allocateExact false senderPartyId amount ;
  transferResult <- submitCommand
                      [exerciseCmd (templateId "Holding:AssetHolding")
                         (contractId holdingToTransfer) "Transfer"
                         (VObj [("newOwner", VStr recipientPartyId)])]
                      [senderPartyId; recipientPartyId] ;
  transaction <- lift (get transferResult "transaction") ;
  ret (VObj [("success", VBool true);
             ("amount", VNum amount);
             ("from", VStr senderPartyId);
             ("to", VStr recipientPartyId);
             ("transactionId", opt_get transaction "transactionId")]).

(* ====================================================================== *)
(** ** Native coin: escrow offers *)
(* ====================================================================== *)

(** Lines 638-675. *)
Definition lockAmulet (partyId : string) (amount : num) (lockHolder expiresAt : string)
    (userToken : option string) : M value :=
  amulets <- queryAmulets partyId ;
  if (length amulets =? 0)%nat then
    throw (Error ("No Canton Coin (Amulet) holdings found for party " ++ partyId))
  else
    let totalCC := sum_by (fun a => calculateAmuletAmount (Amulet.amount (payload a))) amulets in
    if num_lt totalCC amount then
      throw (Error ("Insufficient CC balance. Need " ++ num_toString amount
                    ++ ", have " ++ num_toFixed4 totalCC))
    else
      let expiresAtMicros := num_mul (Date_getTime expiresAt) (num_of_Z 1000) in
      now <- Date_now ;
      suffix <- random_suffix ;
      let trackingId := ("collateral-" ++ num_toString now ++ "-" ++ suffix)%string in
      result <- walletApiFetch "transfer-offers" "POST"
                  (VObj [("receiver_party_id", VStr lockHolder);
                         ("amount", VStr (num_toString amount));
                         ("description", VStr ("Loan collateral: " ++ num_toString amount
                                               ++ " CC locked until " ++ expiresAt));
                         ("expires_at", VNum expiresAtMicros);
                         ("tracking_id", VStr trackingId)])
                  userToken ;
      lift (get result "offer_contract_id").

(** Lines 681-688. *)
Definition unlockAmulet (transferOfferCid : string) (_partyId : string)
    (userToken : option string) : M string :=
  walletApiFetch ("transfer-offers/" ++ transferOfferCid ++ "/withdraw") "POST" (VObj []) userToken ;;
  ret transferOfferCid.

(* ====================================================================== *)
(** ** The loan life cycle *)
(* ====================================================================== *)

(** [new Date().toISOString().split('T')[0]] *)
Definition today_iso : M string :=
  now <- Date_now ;
  iso <- lift (Date_toISOString now) ;
  ret (hd "" (split "T" iso)).

(** The create arguments of a [LoanOfferHybrid], lines 809-824. *)
Definition offerArguments (partyId : string) (offer : OfferSpec.t)
    (lockedCCCollateral lockedUSDCPrincipal : value) (today : string) : value :=
  VObj [("initiator", VStr partyId);
        ("counterparty", VNull);
        ("offerType", VStr (OfferType_string (OfferSpec.offerType offer)));
        ("lockedCCCollateral", lockedCCCollateral);
        ("lockedUSDCPrincipal", lockedUSDCPrincipal);
        ("loanAmount", VStr (OfferSpec.loanAmount offer));
        ("collateralAmount", VStr (OfferSpec.collateralAmount offer));
        ("interestRate", VStr (OfferSpec.interestRate offer));
        ("maturityDate", VStr (OfferSpec.maturityDate offer));
        ("ltvRatio", VStr (num_toString (defaultLtv this)));
        ("ccPrice", VStr (num_toString (ccPrice this)));
        ("stablecoinType", VStr "USDC");
        ("createdAt", VStr today);
        ("observers", VArr [VStr (adminPartyId this)])].

(** The two lock references [createLoanOffer] computes, lines 781-806:
    [(lockedCCCollateral, lockedUSDCPrincipal)]. *)
Definition offerLocks (partyId : string) (offer : OfferSpec.t) (userToken : option string)
    : M (value * value) :=
  match OfferSpec.offerType offer with
  | BorrowerBid =>
      expiresAt <- lift (Date_toISOString
                           (Date_getTime (OfferSpec.maturityDate offer ++ "T23:59:59Z"))) ;
      lockedCid <- lockAmulet partyId (parseFloat (OfferSpec.collateralAmount offer))
                     (adminPartyId this) expiresAt userToken ;
      ret (lockedCid, VNull)
  | LenderAsk =>
      lockedCid <- lockUSDC partyId (parseFloat (OfferSpec.loanAmount offer))
                     ("LenderAsk for " ++ OfferSpec.loanAmount offer ++ " USDC loan") partyId ;
      ret (VNull, lockedCid)
  end.

(** Lines 768-827. *)
Definition createLoanOffer (partyId : string) (offer : OfferSpec.t) (userToken : option string)
    : M value :=
  today <- today_iso ;
  locks <- offerLocks partyId offer userToken ;
  submitCommand
    [createCmd (templateId "LoanOfferHybrid:LoanOfferHybrid")
       (offerArguments partyId offer (fst locks) (snd locks) today)]
    [partyId].

(** [loans.find(l => l.contractId === loanContractId)] *)
Definition find_loan (loanContractId : string) (loans : list (Contract ActiveLoanHybrid.Payload))
    : option (Contract ActiveLoanHybrid.Payload) :=
  List.find (fun l => is_str (contractId l) loanContractId) loans.

(** The holding [repayLoan] pays with, lines 891-936. *)
Definition repaymentHolding (partyId : string) (repaymentAmount : num) : M value :=
  holdings <- queryAssetHoldings partyId ;
  let usdcHoldings := List.filter (is_usdc_of partyId) holdings in
  if (length usdcHoldings =? 0)%nat then
    throw (Error "No USDC holdings found for repayment")
  else
    match List.find (fun h => num_lt (num_abs (num_sub (holding_amount h) repaymentAmount)) num_cent)
            usdcHoldings with
    | Some exactMatch => ret (contractId exactMatch)
    | None =>
        match List.find (fun h => num_ge (holding_amount h) repaymentAmount) usdcHoldings with
        | None =>
            let totalAvailable := sum_by holding_amount usdcHoldings in
            throw (Error ("Insufficient USDC for repayment. Need " ++ num_toString repaymentAmount
                          ++ ", have " ++ num_toString totalAvailable))
        | Some largeEnough =>
            splitResult <- submitCommand [splitCmd largeEnough repaymentAmount] [partyId] ;
            exerciseResult <- lift (getExerciseResult splitResult) ;
            repaymentHoldingCid <-
              (if truthy (splitAmountCid_of exerciseResult) then ret (splitAmountCid_of exerciseResult)
               else lift (getCreatedContractId splitResult)) ;
            if negb (truthy repaymentHoldingCid) then
              console_error ("Split result for repayment: "
                             ++ String.substring 0 2000 (JSON_stringify_pretty splitResult)) ;;
              throw (Error "Failed to split holdings for repayment")
            else ret repaymentHoldingCid
        end
    end.

(** [if (ref) { try { await release } catch (e) { console.error(...) } }]:
    the best-effort escrow step after a ledger command, lines 951-962 and
    998-1008. *)
Definition bestEffort (ccCollateralRef : string) (what : string) (release : M unit) : M unit :=
  if negb (String.eqb ccCollateralRef "") then
    try_catch release
      (fun err => console_error ("[Amulet] Failed to " ++ what ++ " CC collateral: "
                                 ++ exn_toString err))
  else ret tt.

Definition repayCmd (loanContractId today : string) (repaymentHoldingCid : value) : value :=
  exerciseCmd (templateId "ActiveLoanHybrid:ActiveLoanHybrid") (VStr loanContractId)
    "RepayHybrid"
    (VObj [("repaymentDate", VStr today); ("repaymentHoldingCid", repaymentHoldingCid)]).

(** Lines 878-965. *)
Definition repayLoan (partyId loanContractId : string) (repaymentAmount : num)
    (userToken : option string) : M value :=
  today <- today_iso ;
  loans <- queryActiveLoans partyId ;
  match find_loan loanContractId loans with
  | None => throw (Error ("Loan " ++ loanContractId ++ " not found"))
  | Some loan =>
      let lender := ActiveLoanHybrid.lender (payload loan) in
      repaymentHoldingCid <- repaymentHolding partyId repaymentAmount ;
      repayResult <- submitCommand [repayCmd loanContractId today repaymentHoldingCid]
                       [partyId; lender] ;
      let ccCollateralRef := ActiveLoanHybrid.ccCollateralReference (payload loan) in
      bestEffort ccCollateralRef "unlock"
        (unlockAmulet ccCollateralRef partyId userToken ;; ret tt) ;;
      ret repayResult
  end.

(** [overrideClaimDate || today] *)
Definition claimDate_of (overrideClaimDate : option string) (today : string) : string :=
  match overrideClaimDate with
  | Some d => if String.eqb d "" then today else d
  | None => today
  end.

Definition defaultCmd (loanContractId claimDate : string) : value :=
  exerciseCmd (templateId "ActiveLoanHybrid:ActiveLoanHybrid") (VStr loanContractId)
    "ClaimDefaultHybrid" (VObj [("claimDate", VStr claimDate)]).

(** Lines 967-1011.  [claimDate < maturityDate] compares two strings. *)
Definition defaultLoan (partyId loanContractId : string) (overrideClaimDate : option string)
    (userToken : option string) : M value :=
  today <- today_iso ;
  loans <- queryActiveLoans partyId ;
  match find_loan loanContractId loans with
  | None => throw (Error ("Loan " ++ loanContractId ++ " not found"))
  | Some loan =>
      let claimDate := claimDate_of overrideClaimDate today in
      if String.ltb claimDate (ActiveLoanHybrid.maturityDate (payload loan)) then
        throw (Error ("Loan has not matured yet. Maturity date: "
                      ++ ActiveLoanHybrid.maturityDate (payload loan)
                      ++ ", claim date: " ++ claimDate))
      else
        let borrower := ActiveLoanHybrid.borrower (payload loan) in
        defaultResult <- submitCommand [defaultCmd loanContractId claimDate] [partyId; borrower] ;
        let ccCollateralRef := ActiveLoanHybrid.ccCollateralReference (payload loan) in
        bestEffort ccCollateralRef "claim"
          (walletApiFetch ("transfer-offers/" ++ ccCollateralRef ++ "/accept") "POST" (VObj [])
             userToken ;; ret tt) ;;
        ret defaultResult
  end.

(* ====================================================================== *)
(** ** The transaction explorer *)
(* ====================================================================== *)

(** The callback of [(tx.events || []).map], lines 1073-1112. *)
Definition normalizeEvent (e : value) : Res TransactionEvent.t :=
  res_bind (get e "CreatedEvent") (fun c0 =>
  let c := or_else c0 (opt_get e "created") in
  let x := or_else (opt_get e "ExercisedEvent") (opt_get e "exercised") in
  let a := or_else (opt_get e "ArchivedEvent") (opt_get e "archived") in
  Ok (if truthy c then
        {| TransactionEvent.eventType := created;
           TransactionEvent.contractId := opt_get c "contractId";
           TransactionEvent.templateId := opt_get c "templateId";
           TransactionEvent.eventId := or_else (opt_get c "eventId") (VStr "");
           TransactionEvent.payload :=
             or_else (opt_get c "createArgument") (opt_get c "createArguments");
           TransactionEvent.choice := VUndef;
           TransactionEvent.argument := VUndef |}
      else if truthy x then
        {| TransactionEvent.eventType := exercised;
           TransactionEvent.contractId := opt_get x "contractId";
           TransactionEvent.templateId := opt_get x "templateId";
           TransactionEvent.eventId := or_else (opt_get x "eventId") (VStr "");
           TransactionEvent.payload := VUndef;
           TransactionEvent.choice := opt_get x "choice";
           TransactionEvent.argument := opt_get x "choiceArgument" |}
      else if truthy a then
        {| TransactionEvent.eventType := archived;
           TransactionEvent.contractId := opt_get a "contractId";
           TransactionEvent.templateId := opt_get a "templateId";
           TransactionEvent.eventId := or_else (opt_get a "eventId") (VStr "");
           TransactionEvent.payload := VUndef;
           TransactionEvent.choice := VUndef;
           TransactionEvent.argument := VUndef |}
      else
        {| TransactionEvent.eventType := created;
           TransactionEvent.contractId := or_else (opt_get e "contractId") (VStr "");
           TransactionEvent.templateId := or_else (opt_get e "templateId") (VStr "");
           TransactionEvent.eventId := or_else (opt_get e "eventId") (VStr "");
           TransactionEvent.payload := opt_get e "payload";
           TransactionEvent.choice := VUndef;
           TransactionEvent.argument := VUndef |})).

Fixpoint normalizeEvents (es : list value) : Res (list TransactionEvent.t) :=
  match es with
  | [] => Ok []
  | e :: rest =>
      res_bind (normalizeEvent e) (fun ev =>
      res_bind (normalizeEvents rest) (fun evs => Ok (ev :: evs)))
  end.

(** Line 1066: the transaction inside one item of the stream. *)
Definition unwrapTransaction (obj : value) : Res value :=
  res_bind (get obj "update") (fun update =>
  Ok (or_else (opt_get (opt_get update "Transaction") "value")
        (or_else (opt_get (opt_get update "transaction") "value")
           (or_else (opt_get update "Transaction")
              (or_else (opt_get update "transaction")
                 (or_else (opt_get obj "transaction") obj)))))).

(** One turn of the loop of lines 1065-1114: [None] is [continue]. *)
Definition normalizeItem (obj : value) : Res (option Transaction.t) :=
  res_bind (unwrapTransaction obj) (fun tx =>
  if negb (truthy (opt_get tx "updateId")) && negb (truthy (opt_get tx "transactionId")) then
    Ok None
  else
    res_bind (as_array (or_else (opt_get tx "events") (VArr []))) (fun es =>
    res_bind (normalizeEvents es) (fun evs =>
    Ok (Some {| Transaction.transactionId :=
                  or_else (opt_get tx "updateId") (opt_get tx "transactionId");
                Transaction.effectiveAt := opt_get tx "effectiveAt";
                Transaction.offset := ToString (opt_get tx "offset");
                Transaction.events := evs |})))).

Fixpoint normalizeItems (items : list value) : Res (list Transaction.t) :=
  match items with
  | [] => Ok []
  | obj :: rest =>
      res_bind (normalizeItem obj) (fun t =>
      res_bind (normalizeItems rest) (fun ts =>
      Ok (match t with Some t => t :: ts | None => ts end)))
  end.

(** Lines 1053-1063: one JSON document, or else one JSON document per
    non-blank line, the lines that do not parse dropped. *)
Definition parseItems (text : string) : list value :=
  match JSON_parse text with
  | Ok (VArr parsed) => parsed
  | Ok parsed => [parsed]
  | Throw _ =>
      List.filter truthy
        (map (fun l => match JSON_parse l with Ok v => v | Throw _ => VNull end)
           (List.filter trim_nonempty (split "010" text)))
  end.

(** [fromOffset ? parseInt(fromOffset) : 0] *)
Definition beginExclusive (fromOffset : option string) : num :=
  match fromOffset with
  | Some o => if String.eqb o "" then num_of_Z 0 else parseInt o
  | None => num_of_Z 0
  end.

(** The body of the request for the update stream, lines 1018-1032. *)
Definition streamQuery (partyId : string) (fromOffset : option string) : value :=
  VObj [("beginExclusive", VNum (beginExclusive fromOffset));
        ("filter",
         VObj [("filtersByParty",
                VObj [(partyId,
                       VObj [("cumulative",
                              VArr [VObj [("identifierFilter",
                                          VObj [("WildcardFilter",
                                                 VObj [("value",
                                                        VObj [("includeCreatedEventBlob",
                                                               VBool false)])])])]])])])]);
        ("verbose", VBool true)].

Definition streamRequest (partyId : string) (fromOffset : option string) (token : value)
    : FetchOptions :=
  {| method := "POST";
     headers := [("Content-Type", "application/json"); ("Authorization", bearer token)];
     body := Some (JSON_stringify (streamQuery partyId fromOffset)) |}.

(** Lines 1017-1117. *)
Definition getTransactionStream (partyId : string) (fromOffset : option string)
    : M (list Transaction.t) :=
  token <- getLedgerApiToken ;
  response <- customFetch (jsonApiUrl this ++ "/v2/updates/flats")
                (streamRequest partyId fromOffset token) ;
  if negb (ok response) then
    errorText <- text response ;
    throw (Error ("Failed to fetch transactions: " ++ num_toString (status response)
                  ++ " - " ++ errorText))
  else
    text <- text response ;
    let items := parseItems text in
    transactions <- lift (normalizeItems items) ;
    ret (firstn 50 transactions).

(** Lines 1119-1122; [None] is [null]. *)
Definition getTransactionById (partyId transactionId : string) : M (option Transaction.t) :=
  transactions <- getTransactionStream partyId None ;
  ret (List.find (fun tx => is_str (Transaction.transactionId tx) transactionId) transactions).

(** Lines 1124-1127. *)
Definition getContractHistory (partyId contractId : string) : M (list Transaction.t) :=
  transactions <- getTransactionStream partyId None ;
  ret (List.filter
         (fun tx => existsb (fun e => is_str (TransactionEvent.contractId e) contractId)
                      (Transaction.events tx))
         transactions).

End DamlService.

(* ====================================================================== *)
(** ** The rest of the service: onboarding, faucet, acceptance, transfers *)
(* ====================================================================== *)

(** How [console.error] prints an error passed as an argument of its own
    ([util.inspect]: the error with its stack).  No law is assumed. *)
Class NodeInspect : Type := {
  inspect : exn -> string;
}.

(** [interface LoanOfferHybrid].  [offerType] is declared as the union of the
    two literals; an offer reaches [acceptLoanOffer] from the request body
    unvalidated ([AcceptOfferDto.offer: any]), so the member is kept as the
    string it is. *)
Module LoanOfferHybrid.
Record Payload : Type := {
  initiator : string;
  counterparty : option string;
  offerType : string;
  lockedCCCollateral : option string;
  lockedUSDCPrincipal : option string;
  loanAmount : string;
  collateralAmount : string;
  interestRate : string;
  maturityDate : string;
  ltvRatio : string;
  ccPrice : string;
  stablecoinType : string;
  createdAt : string;
  observers : list string;
}.
End LoanOfferHybrid.

(** [{ success: boolean; message: string }] *)
Module IssueResult.
Record t : Type := {
  success : bool;
  message : string;
}.
End IssueResult.

Section DamlServiceRest.
Context {N : JSNumber} {B : JSBuiltins} {I : NodeInspect}.
Variable this : Config.

(** The body of the rights request, lines 163-167. *)
Definition grantBody (partyId : value) : value :=
  VObj [("userId", VStr (damlUserId this));
        ("identityProviderId", VStr "");
        ("rights",
         VArr [VObj [("kind",
                      VObj [("CanActAs",
                             VObj [("value", VObj [("party", partyId)])])])]])].

Definition grantRequest (partyId : value) (token : value) : FetchOptions :=
  {| method := "POST";
     headers := [("Content-Type", "application/json"); ("Authorization", bearer token)];
     body := Some (JSON_stringify (grantBody partyId)) |}.

(** Lines 152-179.  [partyId] is what the validator sent as [party_id]. *)
Definition grantAdminActAs (partyId : value) : M unit :=
  try_catch
    (token <- getLedgerApiToken this ;
     response <- customFetch (jsonApiUrl this ++ "/v2/users/" ++ damlUserId this ++ "/rights")
                   (grantRequest partyId token) ;
     if negb (ok response) then
       errorText <- text response ;
       console_error ("[DAML] Failed to grant actAs for " ++ ToString partyId ++ ": " ++ errorText)
     else ret tt)
    (fun err =>
       console_error ("[DAML] Error granting actAs for " ++ ToString partyId ++ ": "
                      ++ inspect err)).

Definition registerRequest (token : value) : FetchOptions :=
  {| method := "POST";
     headers := [("Authorization", bearer token); ("Content-Type", "application/json")];
     body := Some "{}" |}.

(** Lines 121-147. *)
Definition registerWithValidator (auth0IdOrToken : string) (userToken : option string)
    : M value :=
  token <- userToken_or userToken (getValidatorToken this) ;
  let url := (validatorWalletUrl this ++ "/api/validator/v0/register")%string in
  response <- customFetch url (registerRequest token) ;
  if negb (ok response) then
    errorText <- text response ;
    throw (Error ("Validator register failed (" ++ num_toString (status response) ++ "): "
                  ++ errorText))
  else
    result <- json response ;
    partyId <- lift (get result "party_id") ;
    if negb (truthy partyId) then
      throw (Error "Validator register did not return a party_id")
    else
      grantAdminActAs partyId ;;
      ret partyId.

Definition issuerCmd : value :=
  createCmd (templateId this "Holding:AssetIssuer")
    (VObj [("issuer", VStr (adminPartyId this)); ("custodian", VStr (adminPartyId this))]).

(** The [try] block of [initializeAssetIssuers], lines 695-707: the contract
    id of the first issuer found, [None] when the block is left without a
    [return]. *)
Definition existingIssuer : M (option value) :=
  try_catch
    (issuers <- queryContracts this [templateId this "Holding:AssetIssuer"] [adminPartyId this] ;
     ret (match issuers with
          | first :: _ => Some (raw_contractId first)
          | [] => None
          end))
    (fun _ => ret None).

(** Lines 694-720. *)
Definition initializeAssetIssuers : M value :=
  existing <- existingIssuer ;
  match existing with
  | Some contractId => ret contractId
  | None =>
      result <- submitCommand this [issuerCmd] [adminPartyId this] ;
      lift (getCreatedContractId result)
  end.

(** [amount || 100000] *)
Definition usdcAmount_of (amount : option num) : num :=
  match amount with
  | Some a => if num_truthy a then a else num_of_Z 100000
  | None => num_of_Z 100000
  end.

Definition issueCmd (issuerContractId : value) (partyId : string) (usdcAmount : num) : value :=
  exerciseCmd (templateId this "Holding:AssetIssuer") issuerContractId "IssueAsset"
    (VObj [("owner", VStr partyId); ("assetType", VStr "USDC");
           ("amount", VStr (num_toString usdcAmount))]).

(** Lines 722-748.  Whatever is thrown in this service is an [Error], so
    [err instanceof Error] holds in the handler. *)
Definition issueTokensToParty (partyId : string) (amount : option num) : M IssueResult.t :=
  try_catch
    (issuerContractId <- initializeAssetIssuers ;
     let usdcAmount := usdcAmount_of amount in
     submitCommand this [issueCmd issuerContractId partyId usdcAmount]
       [adminPartyId this; partyId] ;;
     ret {| IssueResult.success := true;
            IssueResult.message :=
              "Successfully issued " ++ num_toString usdcAmount
              ++ " USDC (CC comes from real Canton Coins)" |})
    (fun err =>
       console_error ("Error issuing USDC: " ++ inspect err) ;;
       ret {| IssueResult.success := false; IssueResult.message := message err |}).

(** Lines 754-766.  The contracts are returned as [queryContracts] made
    them. *)
Definition queryLoanOffers (partyId : string) : M (list RawContract) :=
  queryContracts this [templateId this "LoanOfferHybrid:LoanOfferHybrid"] [partyId].

Definition queryAllLoanOffers : M (list RawContract) :=
  queryContracts this [templateId this "LoanOfferHybrid:LoanOfferHybrid"] [adminPartyId this].

(** The two references [acceptLoanOffer] computes, lines 830-853:
    [(acceptorUSDCCid, acceptorCCReference)]. *)
Definition acceptLocks (partyId offerContractId : string)
    (offer : Contract LoanOfferHybrid.Payload) (userToken : option string) : M (value * value) :=
  if String.eqb (LoanOfferHybrid.offerType (payload offer)) "BorrowerBid" then
    lockedCid <- lockUSDC this partyId
                   (parseFloat (LoanOfferHybrid.loanAmount (payload offer)))
                   ("Accepting offer " ++ offerContractId)
                   (LoanOfferHybrid.initiator (payload offer)) ;
    ret (lockedCid, VNull)
  else
    expiresAt <- lift (Date_toISOString
                         (Date_getTime (LoanOfferHybrid.maturityDate (payload offer)
                                        ++ "T23:59:59Z"))) ;
    lockedCid <- lockAmulet this partyId
                   (parseFloat (LoanOfferHybrid.collateralAmount (payload offer)))
                   (adminPartyId this) expiresAt userToken ;
    ret (VNull, lockedCid).

Definition acceptCmd (partyId offerContractId : string) (acceptorUSDCCid acceptorCCReference : value)
    : value :=
  exerciseCmd (templateId this "LoanOfferHybrid:LoanOfferHybrid") (VStr offerContractId)
    "AcceptHybrid"
    (VObj [("acceptor", VStr partyId);
           ("acceptorUSDCCid", acceptorUSDCCid);
           ("acceptorCCReference", acceptorCCReference)]).

(** Lines 829-865. *)
Definition acceptLoanOffer (partyId offerContractId : string)
    (offer : Contract LoanOfferHybrid.Payload) (userToken : option string) : M value :=
  locks <- acceptLocks partyId offerContractId offer userToken ;
  submitCommand this [acceptCmd partyId offerContractId (fst locks) (snd locks)]
    [LoanOfferHybrid.initiator (payload offer); partyId; adminPartyId this].

(** [24 * 60 * 60 * 1000] *)
Definition day_ms : num := num_of_Z 86400000.

(** The body of the transfer instruction, lines 1239-1245. *)
Definition transferBody (recipientPartyId : string) (amount expiresAtMicros : num)
    (trackingId : string) : value :=
  VObj [("receiver_party_id", VStr recipientPartyId);
        ("amount", VStr (num_toString amount));
        ("description", VStr ("Transfer: " ++ num_toString amount ++ " CC"));
        ("expires_at", VNum expiresAtMicros);
        ("tracking_id", VStr trackingId)].

(** Lines 1223-1256. *)
Definition transferCC (senderPartyId recipientPartyId : string) (amount : num)
    (userToken : option string) : M value :=
  amulets <- queryAmulets this senderPartyId ;
  if (length amulets =? 0)%nat then
    throw (Error ("No Canton Coin holdings found for party " ++ senderPartyId))
  else
    let totalCC := sum_by (fun a => calculateAmuletAmount (Amulet.amount (payload a))) amulets in
    if num_lt totalCC amount then
      throw (Error ("Insufficient CC balance. Need " ++ num_toString amount
                    ++ ", have " ++ num_toFixed4 totalCC))
    else
      now <- Date_now ;
      let expiresAtMicros := num_mul (num_add now day_ms) (num_of_Z 1000) in
      now' <- Date_now ;
      suffix <- random_suffix ;
      let trackingId := ("transfer-" ++ num_toString now' ++ "-" ++ suffix)%string in
      result <- walletApiFetch this "token-standard/transfers" "POST"
                  (transferBody recipientPartyId amount expiresAtMicros trackingId) userToken ;
      contract_id <- lift (get result "contract_id") ;
      now'' <- Date_now ;
      expiresAt <- lift (Date_toISOString (num_add now'' day_ms)) ;
      ret (VObj [("success", VBool true);
                 ("contractId", contract_id);
                 ("amount", VNum amount);
                 ("from", VStr senderPartyId);
                 ("to", VStr recipientPartyId);
                 ("expiresAt", VStr expiresAt)]).

(** Lines 1284-1296. *)
Definition acceptTransfer (transferId : string) (userToken : option string) : M value :=
  try_catch
    (walletApiFetch this ("token-standard/transfers/" ++ transferId ++ "/accept") "POST"
       (VObj []) userToken)
    (fun _ =>
       walletApiFetch this ("transfer-offers/" ++ transferId ++ "/accept") "POST"
         (VObj []) userToken).

(** Lines 1301-1303. *)
Definition acceptTransferOffer (offerId : string) (userToken : option string) : M value :=
  acceptTransfer offerId userToken.

(** Lines 1308-1320. *)
Definition rejectTransfer (transferId : string) (userToken : option string) : M value :=
  try_catch
    (walletApiFetch this ("token-standard/transfers/" ++ transferId ++ "/reject") "POST"
       (VObj []) userToken)
    (fun _ =>
       walletApiFetch this ("transfer-offers/" ++ transferId ++ "/withdraw") "POST"
         (VObj []) userToken).

(** Lines 1325-1327. *)
Definition rejectTransferOffer (offerId : string) (userToken : option string) : M value :=
  rejectTransfer offerId userToken.

End DamlServiceRest.

(* ====================================================================== *)
(** ** The callers of the service *)
(* ====================================================================== *)

(** The exceptions of [@nestjs/common] the callers throw. *)
Definition BadRequestException (msg : string) : exn := Exn "BadRequestException" msg.
Definition NotFoundException (msg : string) : exn := Exn "NotFoundException" msg.

(** [s.includes(t)] *)
Fixpoint includes (s t : string) : bool :=
  String.prefix t s
  || match s with
     | EmptyString => false
     | String _ s' => includes s' t
     end.

(** [validatePartyId] and [ensureValidPartyId], the same in [LoansService]
    (lines 10-18) and in [ExplorerService] (lines 9-17). *)
Definition validatePartyId (partyId : string) : bool :=
  includes partyId "::" && includes partyId "1220".

Definition ensureValidPartyId {N : JSNumber} (partyId : string) : M unit :=
  if negb (validatePartyId partyId) then
    throw (BadRequestException "Invalid party ID format. Expected format: partyName::1220...")
  else ret tt.

(** [src/loans/loans.service.ts] *)
Module LoansService.

(** The argument of [createOffer]. *)
Record CreateOfferData : Type := {
  partyId : string;
  offerType : OfferType;
  loanAmount : string;
  collateralAmount : string;
  interestRate : string;
  maturityDate : string;
}.

Section LoansService.
Context {N : JSNumber} {B : JSBuiltins} {I : NodeInspect}.
Variable damlService : Config.

Definition getAllOffers : M (list RawContract) := queryAllLoanOffers damlService.

Definition getOffers (partyId : string) : M (list RawContract) :=
  ensureValidPartyId partyId ;;
  queryLoanOffers damlService partyId.

Definition getActiveLoans (partyId : string) : M (list (Contract ActiveLoanHybrid.Payload)) :=
  ensureValidPartyId partyId ;;
  queryActiveLoans damlService partyId.

Definition getBalances (partyId : string) : M (TokenBalance.t * TokenBalance.t) :=
  ensureValidPartyId partyId ;;
  getTokenBalances damlService partyId.

Definition issueTokens (partyId : string) : M IssueResult.t :=
  ensureValidPartyId partyId ;;
  issueTokensToParty damlService partyId None.

Definition createOffer (data : CreateOfferData) (userToken : option string) : M value :=
  ensureValidPartyId (partyId data) ;;
  createLoanOffer damlService (partyId data)
    {| OfferSpec.offerType := offerType data;
       OfferSpec.loanAmount := loanAmount data;
       OfferSpec.collateralAmount := collateralAmount data;
       OfferSpec.interestRate := interestRate data;
       OfferSpec.maturityDate := maturityDate data |}
    userToken.

Definition acceptOffer (contractId partyId : string) (offer : Contract LoanOfferHybrid.Payload)
    (userToken : option string) : M value :=
  ensureValidPartyId partyId ;;
  acceptLoanOffer damlService partyId contractId offer userToken.

Definition repayLoan (contractId partyId : string) (repaymentAmount : num)
    (userToken : option string) : M value :=
  ensureValidPartyId partyId ;;
  repayLoan damlService partyId contractId repaymentAmount userToken.

Definition defaultLoan (contractId partyId : string) (claimDate : option string)
    (userToken : option string) : M value :=
  ensureValidPartyId partyId ;;
  defaultLoan damlService partyId contractId claimDate userToken.

End LoansService.
End LoansService.

(** [src/explorer/explorer.service.ts] (the class [ExplorerService]) *)
Module ExplorerService.
Section ExplorerService.
Context {N : JSNumber} {B : JSBuiltins}.
Variable damlService : Config.

Definition getTransactions (partyId : string) (offset : option string) : M (list Transaction.t) :=
  ensureValidPartyId partyId ;;
  getTransactionStream damlService partyId offset.

Definition getTransactionById (partyId txId : string) : M Transaction.t :=
  ensureValidPartyId partyId ;;
  transaction <- getTransactionById damlService partyId txId ;
  match transaction with
  | None => throw (NotFoundException "Transaction not found")
  | Some transaction => ret transaction
  end.

Definition getContractHistory (partyId contractId : string) : M (list Transaction.t) :=
  ensureValidPartyId partyId ;;
  getContractHistory damlService partyId contractId.

End ExplorerService.
End ExplorerService.

(** [src/wallet/wallet.service.ts] *)
Module WalletService.
Section WalletService.
Context {N : JSNumber} {B : JSBuiltins} {I : NodeInspect}.
Variable damlService : Config.

(** [partyId: string | null]; [!partyId] holds of [null] and of the empty
    string. *)
Definition ensureOnboarded (partyId : option string) : M string :=
  match partyId with
  | Some p =>
      if String.eqb p "" then
        throw (BadRequestException "Wallet not linked. Please complete onboarding first.")
      else ret p
  | None => throw (BadRequestException "Wallet not linked. Please complete onboarding first.")
  end.

Definition getBalance (partyId : option string) : M (TokenBalance.t * TokenBalance.t) :=
  party <- ensureOnboarded partyId ;
  getTokenBalances damlService party.

Definition transferUSDC (partyId : option string) (recipientPartyId : string) (amount : num)
    : M value :=
  party <- ensureOnboarded partyId ;
  if String.eqb party recipientPartyId then
    throw (BadRequestException "Cannot transfer to yourself")
  else transferUSDC damlService party recipientPartyId amount.

Definition transferCC (partyId : option string) (recipientPartyId : string) (amount : num)
    (userToken : option string) : M value :=
  party <- ensureOnboarded partyId ;
  if String.eqb party recipientPartyId then
    throw (BadRequestException "Cannot transfer to yourself")
  else transferCC damlService party recipientPartyId amount userToken.

Definition acceptTransfer (partyId : option string) (transferId : string)
    (userToken : option string) : M value :=
  ensureOnboarded partyId ;;
  acceptTransfer damlService transferId userToken.

Definition rejectTransfer (partyId : option string) (transferId : string)
    (userToken : option string) : M value :=
  ensureOnboarded partyId ;;
  rejectTransfer damlService transferId userToken.

End WalletService.
End WalletService.

(* ====================================================================== *)
(** ** An implementation of the interfaces, for the examples *)
(* ====================================================================== *)

(** Numbers are the kernel's binary64 floats, whose arithmetic and
    comparisons are those of a JavaScript engine.  The conversions from and
    to text are exact: a decimal literal, with or without exponent, is
    rounded once to the nearest number; [toString] gives the shortest
    digits that read back as the same number, in the notation of
    Number::toString; [toFixed] rounds the exact value.  JSON text is read
    and written with its escapes, and dates are the date-time texts of the
    standard. *)
Module Binary64.
Local Open Scope string_scope.

(** *** Numbers and their decimal text

    Conversions go through the exact value: a finite binary64 number is
    the fraction [n / d] of two integers, and a decimal text is rounded to
    the nearest number, ties to even, by the division of [SpecFloat]. *)

Definition float_of_Z (z : Z) : float := SF2Prim (binary_normalize prec emax z 0 false).

(** The number nearest to [n / d], for [d > 0]. *)
Definition float_of_Q (n d : Z) : float :=
  match n, d with
  | Z0, _ => PrimFloat.zero
  | Zpos p, Zpos q => SF2Prim (SFdiv prec emax (S754_finite false p 0) (S754_finite false q 0))
  | Zneg p, Zpos q => SF2Prim (SFdiv prec emax (S754_finite true p 0) (S754_finite false q 0))
  | _, _ => PrimFloat.nan
  end.

(** The number nearest to [m * 10^e], for [m >= 0]. *)
Definition float_of_decimal (m e : Z) : float :=
  if (m =? 0)%Z then PrimFloat.zero
  else if (400 <? e)%Z then PrimFloat.infinity
  else if (e <? -400 - Z.log2 m)%Z then PrimFloat.zero
  else if (0 <=? e)%Z then float_of_Z (m * 10 ^ e)
  else float_of_Q m (10 ^ (- e)).

(** A finite [x > 0] as the fraction [n / d] it is. *)
Definition Q_of_float (x : float) : Z * Z :=
  match Prim2SF x with
  | S754_finite _ m e => if (0 <=? e)%Z then (Zpos m * 2 ^ e, 1)%Z else (Zpos m, 2 ^ (- e))%Z
  | _ => (0, 1)%Z
  end.

(** The integer part of a finite [x >= 0]. *)
Definition trunc (x : float) : Z :=
  let '(n, d) := Q_of_float x in (n / d)%Z.

Definition is_finite (x : float) : bool :=
  PrimFloat.eqb x x
  && negb (PrimFloat.eqb x PrimFloat.infinity)
  && negb (PrimFloat.eqb x PrimFloat.neg_infinity).

(** [n / d < 10^k] *)
Definition below_pow10 (n d k : Z) : bool :=
  if (0 <=? k)%Z then (n <? 10 ^ k * d)%Z else (n * 10 ^ (- k) <? d)%Z.

(** The [k] with [10^(k-1) <= n / d < 10^k], from an estimate at most a few
    units off. *)
Fixpoint magnitude_up (fuel : nat) (n d k : Z) : Z :=
  match fuel with
  | O => k
  | S fuel' => if below_pow10 n d k then k else magnitude_up fuel' n d (k + 1)
  end.

Fixpoint magnitude_down (fuel : nat) (n d k : Z) : Z :=
  match fuel with
  | O => k
  | S fuel' => if below_pow10 n d (k - 1) then magnitude_down fuel' n d (k - 1) else k
  end.

Definition magnitude (n d : Z) : Z :=
  let k0 := ((Z.log2 n - Z.log2 d) * 30103 / 100000)%Z in
  magnitude_down 8 n d (magnitude_up 8 n d k0).

(** [floor (n / d * 10^p)] *)
Definition scaled_floor (n d p : Z) : Z :=
  if (0 <=? p)%Z then (n * 10 ^ p / d)%Z else (n / (d * 10 ^ (- p)))%Z.

(** For [s1 <= n / d * 10^p <= s2]: [s1] is at most as far from it as [s2]. *)
Definition closer_low (n d p s1 s2 : Z) : bool :=
  if (0 <=? p)%Z then (2 * n * 10 ^ p <=? (s1 + s2) * d)%Z
  else (2 * n <=? (s1 + s2) * d * 10 ^ (- p))%Z.

(** The digits [s], their number [k] and the exponent [nn] of
    Number::toString: [k] is the least for which some [s * 10^(nn - k)]
    reads back as [x], and [s] the nearest to [x] of those. *)
Fixpoint shortest (fuel : nat) (x : float) (n d nn : Z) (k : Z) : Z * Z * Z :=
  let p := (k - nn)%Z in
  let lo := scaled_floor n d p in
  let hi := (lo + 1)%Z in
  let ok_lo := (0 <? lo)%Z && PrimFloat.eqb (float_of_decimal lo (- p)) x in
  let ok_hi := PrimFloat.eqb (float_of_decimal hi (- p)) x in
  let pick s := if (s =? 10 ^ k)%Z then (10 ^ (k - 1), k, nn + 1)%Z else (s, k, nn) in
  match fuel with
  | O => pick lo
  | S fuel' =>
      if ok_lo && ok_hi then (if closer_low n d p lo hi then pick lo else pick hi)
      else if ok_lo then pick lo
      else if ok_hi then pick hi
      else shortest fuel' x n d nn (k + 1)
  end.

Definition Z_to_string (z : Z) : string := DecimalString.NilZero.string_of_int (Z.to_int z).

Fixpoint zeros (n : nat) : string :=
  match n with
  | O => ""
  | S n' => "0" ++ zeros n'
  end.

Definition pad (n : nat) (s : string) : string := zeros (n - String.length s) ++ s.

(** Number::toString of a finite [x > 0]: plain digits up to [10^21],
    a leading [0.] down to [10^-6], the exponent form beyond. *)
Definition positive_toString (x : float) : string :=
  let '(n, d) := Q_of_float x in
  let '(s, k, nn) := shortest 17 x n d (magnitude n d) 1 in
  let digits := Z_to_string s in
  if ((k <=? nn) && (nn <=? 21))%Z then digits ++ zeros (Z.to_nat (nn - k))
  else if ((0 <? nn) && (nn <=? 21))%Z then
    String.substring 0 (Z.to_nat nn) digits ++ "."
    ++ String.substring (Z.to_nat nn) (Z.to_nat (k - nn)) digits
  else if ((-6 <? nn) && (nn <=? 0))%Z then "0." ++ zeros (Z.to_nat (- nn)) ++ digits
  else
    let e := (nn - 1)%Z in
    let es := if (0 <=? e)%Z then "+" ++ Z_to_string e else "-" ++ Z_to_string (- e) in
    if (k =? 1)%Z then digits ++ "e" ++ es
    else String.substring 0 1 digits ++ "." ++ String.substring 1 (Z.to_nat (k - 1)) digits
         ++ "e" ++ es.

Definition toString64 (x : float) : string :=
  if negb (PrimFloat.eqb x x) then "NaN"
  else if PrimFloat.eqb x PrimFloat.zero then "0"
  else if PrimFloat.eqb x PrimFloat.infinity then "Infinity"
  else if PrimFloat.eqb x PrimFloat.neg_infinity then "-Infinity"
  else if PrimFloat.ltb x PrimFloat.zero then "-" ++ positive_toString (PrimFloat.opp x)
  else positive_toString x.

(** [m / 10^k] written with [k] fractional digits. *)
Definition fixed (m : Z) (k : nat) : string :=
  match k with
  | O => Z_to_string m
  | _ => Z_to_string (m / 10 ^ Z.of_nat k) ++ "." ++ pad k (Z_to_string (m mod 10 ^ Z.of_nat k))
  end.

(** The integer nearest to [x * 10^4] for a finite [x >= 0], the larger of
    two that are equally near. *)
Definition nearest4 (x : float) : Z :=
  let '(n, d) := Q_of_float x in
  ((2 * n * 10000 + d) / (2 * d))%Z.

(** [x.toFixed(4)] *)
Definition toFixed4_64 (x : float) : string :=
  if negb (is_finite x) then toString64 x
  else if PrimFloat.leb (float_of_Z (10 ^ 21)) (PrimFloat.abs x) then toString64 x
  else if PrimFloat.ltb x PrimFloat.zero then "-" ++ fixed (nearest4 (PrimFloat.opp x)) 4
  else fixed (nearest4 x) 4.

(** *** Text to numbers *)

Definition digit_of (a : ascii) : option Z :=
  let n := Z.of_nat (nat_of_ascii a) in
  if ((48 <=? n) && (n <=? 57))%Z then Some (n - 48)%Z else None.

(** The digits at the head of [s]: their value on top of [acc], how many
    they are, and the rest of [s]. *)
Fixpoint read_digits (s : string) (acc : Z) (n : nat) : Z * nat * string :=
  match s with
  | String a s' =>
      match digit_of a with
      | Some d => read_digits s' (acc * 10 + d)%Z (S n)
      | None => (acc, n, s)
      end
  | EmptyString => (acc, n, s)
  end.

(** The white space at the head of [s] removed, as [trim] does. *)
Fixpoint skip_space (s : string) : string :=
  match s with
  | EmptyString => s
  | String a s1 =>
      if is_js_space a then skip_space s1
      else
        match s1 with
        | String b s2 =>
            if is_js_space2 a b then skip_space s2
            else
              match s2 with
              | String c s3 => if is_js_space3 a b c then skip_space s3 else s
              | EmptyString => s
              end
        | EmptyString => s
        end
  end.

(** An exponent part at the head of [s], if it is complete: [e] or [E], an
    optional sign, digits. *)
Definition read_exponent (s : string) : Z * string :=
  match s with
  | String a r =>
      if Ascii.eqb a "e" || Ascii.eqb a "E" then
        let '(neg, r') := match r with
                          | String "-" r' => (true, r')
                          | String "+" r' => (false, r')
                          | _ => (false, r)
                          end in
        let '(v, n, rest) := read_digits r' 0 0 in
        if (n =? 0)%nat then (0%Z, s) else ((if neg then - v else v)%Z, rest)
      else (0%Z, s)
  | EmptyString => (0%Z, s)
  end.

(** The longest unsigned decimal literal at the head of [s]
    (StrUnsignedDecimalLiteral): [Infinity], or digits with an optional
    fraction and exponent, or a fraction that starts with the point. *)
Definition read_decimal (s : string) : option (float * string) :=
  if String.prefix "Infinity" s then
    Some (PrimFloat.infinity, String.substring 8 (String.length s - 8) s)
  else
    let '(ip, ni, r1) := read_digits s 0 0 in
    match r1 with
    | String "." r2 =>
        let '(m, nf, r3) := read_digits r2 ip 0 in
        if ((ni =? 0) && (nf =? 0))%nat then None
        else
          let '(e, r4) := read_exponent r3 in
          Some (float_of_decimal m (e - Z.of_nat nf), r4)
    | _ =>
        if (ni =? 0)%nat then None
        else
          let '(e, r2) := read_exponent r1 in
          Some (float_of_decimal ip e, r2)
    end.

Definition read_signed (s : string) : option (float * string) :=
  match s with
  | String "-" s' =>
      match read_decimal s' with
      | Some (x, r) => Some (PrimFloat.opp x, r)
      | None => None
      end
  | String "+" s' => read_decimal s'
  | _ => read_decimal s
  end.

(** [parseFloat(s)] *)
Definition parseFloat64 (s : string) : float :=
  match read_signed (skip_space s) with
  | Some (x, _) => x
  | None => PrimFloat.nan
  end.

Definition digit_in (radix : Z) (a : ascii) : option Z :=
  let n := Z.of_nat (nat_of_ascii a) in
  let v := if ((48 <=? n) && (n <=? 57))%Z then (n - 48)%Z
           else if ((97 <=? n) && (n <=? 122))%Z then (n - 87)%Z
           else if ((65 <=? n) && (n <=? 90))%Z then (n - 55)%Z
           else 36%Z in
  if (v <? radix)%Z then Some v else None.

Fixpoint read_radix (radix : Z) (s : string) (acc : Z) (n : nat) : Z * nat * string :=
  match s with
  | String a s' =>
      match digit_in radix a with
      | Some d => read_radix radix s' (acc * radix + d)%Z (S n)
      | None => (acc, n, s)
      end
  | EmptyString => (acc, n, s)
  end.

(** The radix a prefix [0x], [0o] or [0b] announces, and the text after
    it. *)
Definition radix_prefix (s : string) : option (Z * string) :=
  match s with
  | String "0" (String a r) =>
      if Ascii.eqb a "x" || Ascii.eqb a "X" then Some (16%Z, r)
      else if Ascii.eqb a "o" || Ascii.eqb a "O" then Some (8%Z, r)
      else if Ascii.eqb a "b" || Ascii.eqb a "B" then Some (2%Z, r)
      else None
  | _ => None
  end.

(** [Number(s)]: the whole of [s] between white space is a numeric
    literal; the empty text is 0. *)
Definition Number64 (s : string) : float :=
  match skip_space s with
  | EmptyString => PrimFloat.zero
  | s' =>
      match radix_prefix s' with
      | Some (radix, r) =>
          let '(v, n, rest) := read_radix radix r 0 0 in
          if negb (n =? 0)%nat && negb (trim_nonempty rest) then float_of_Z v
          else PrimFloat.nan
      | None =>
          match read_signed s' with
          | Some (x, r) => if trim_nonempty r then PrimFloat.nan else x
          | None => PrimFloat.nan
          end
      end
  end.

(** [parseInt(s)], without a radix: decimal, or hexadecimal after [0x]. *)
Definition parseInt64 (s : string) : float :=
  let s' := skip_space s in
  let '(neg, s'') := match s' with
                     | String "-" r => (true, r)
                     | String "+" r => (false, r)
                     | _ => (false, s')
                     end in
  let '(radix, body) := match radix_prefix s'' with
                        | Some (16%Z, r) => (16%Z, r)
                        | _ => (10%Z, s'')
                        end in
  let '(v, n, _) := read_radix radix body 0 0 in
  if (n =? 0)%nat then PrimFloat.nan
  else if neg then PrimFloat.opp (float_of_Z v) else float_of_Z v.

#[export] Instance number : JSNumber := {|
  num := float;
  parseFloat := parseFloat64;
  Number_of_string := Number64;
  num_toString := toString64;
  num_toFixed4 := toFixed4_64;
  num_of_Z := float_of_Z;
  num_cent := 0x1.47ae147ae147bp-7%float;
  num_nan := PrimFloat.nan;
  num_add := PrimFloat.add;
  num_sub := PrimFloat.sub;
  num_mul := PrimFloat.mul;
  num_abs := PrimFloat.abs;
  num_eq := PrimFloat.eqb;
  num_lt := PrimFloat.ltb;
  num_gt := fun x y => PrimFloat.ltb y x;
  num_ge := fun x y => PrimFloat.leb y x;
  num_truthy := fun x => PrimFloat.eqb x x && negb (PrimFloat.eqb x PrimFloat.zero);
|}.

(** *** JSON text *)

Definition dquote : ascii := "034".
Definition backslash : ascii := "092".

Definition hex_digit (n : nat) : ascii :=
  if (n <? 10)%nat then ascii_of_nat (48 + n) else ascii_of_nat (87 + n).

(** QuoteJSONString: the quote, the backslash and the control characters
    are escaped. *)
Fixpoint escape (s : string) : string :=
  match s with
  | EmptyString => EmptyString
  | String a s' =>
      let n := nat_of_ascii a in
      if Ascii.eqb a dquote || Ascii.eqb a backslash then String backslash (String a (escape s'))
      else if (n =? 8)%nat then String backslash (String "b" (escape s'))
      else if (n =? 9)%nat then String backslash (String "t" (escape s'))
      else if (n =? 10)%nat then String backslash (String "n" (escape s'))
      else if (n =? 12)%nat then String backslash (String "f" (escape s'))
      else if (n =? 13)%nat then String backslash (String "r" (escape s'))
      else if (n <? 32)%nat then
        String backslash
          (String "u" (String "0" (String "0"
             (String (hex_digit (n / 16)) (String (hex_digit (n mod 16)) (escape s'))))))
      else String a (escape s')
  end.

Definition quote (s : string) : string :=
  String dquote (escape s ++ String dquote EmptyString).

Definition number_text (x : float) : string :=
  if is_finite x then toString64 x else "null".

(** [JSON.stringify(v)]: a member that is [undefined] is left out of an
    object and written [null] in an array.  (The service stringifies
    objects it built or parsed, never [undefined] itself, which has no JSON
    text.) *)
Fixpoint stringify (v : value) : string :=
  match v with
  | VUndef | VNull => "null"
  | VBool true => "true"
  | VBool false => "false"
  | VNum n => number_text n
  | VStr s => quote s
  | VArr xs => "[" ++ join "," (map stringify xs) ++ "]"
  | VObj fs =>
      let fix members (fs : list (string * value)) : list string :=
        match fs with
        | [] => []
        | (k, VUndef) :: rest => members rest
        | (k, x) :: rest => (quote k ++ ":" ++ stringify x) :: members rest
        end in
      "{" ++ join "," (members fs) ++ "}"
  end.

Definition newline : string := String "010" EmptyString.

Fixpoint spaces (n : nat) : string :=
  match n with
  | O => ""
  | S n' => " " ++ spaces n'
  end.

(** [JSON.stringify(v, null, 2)] at indentation [ind]. *)
Fixpoint stringify_pretty (ind : nat) (v : value) : string :=
  match v with
  | VArr [] => "[]"
  | VArr xs =>
      "[" ++ newline
      ++ join ("," ++ newline)
           (map (fun x => spaces (ind + 2) ++ stringify_pretty (ind + 2) x) xs)
      ++ newline ++ spaces ind ++ "]"
  | VObj fs =>
      let fix members (fs : list (string * value)) : list string :=
        match fs with
        | [] => []
        | (k, VUndef) :: rest => members rest
        | (k, x) :: rest =>
            (spaces (ind + 2) ++ quote k ++ ": " ++ stringify_pretty (ind + 2) x) :: members rest
        end in
      match members fs with
      | [] => "{}"
      | ms => "{" ++ newline ++ join ("," ++ newline) ms ++ newline ++ spaces ind ++ "}"
      end
  | _ => stringify v
  end.

(** JSON white space: tab, line feed, carriage return, space. *)
Definition is_json_space (a : ascii) : bool :=
  let n := nat_of_ascii a in
  (n =? 9)%nat || (n =? 10)%nat || (n =? 13)%nat || (n =? 32)%nat.

Fixpoint skip_json_space (s : string) : string :=
  match s with
  | String a s' => if is_json_space a then skip_json_space s' else s
  | EmptyString => s
  end.

Definition byte_of_Z (z : Z) : ascii := ascii_of_nat (Z.to_nat z).

(** The UTF-8 bytes of a code point, on top of [acc] in reverse. *)
Definition utf8_onto (cp : Z) (acc : string) : string :=
  if (cp <? 128)%Z then String (byte_of_Z cp) acc
  else if (cp <? 2048)%Z then
    String (byte_of_Z (128 + cp mod 64)) (String (byte_of_Z (192 + cp / 64)) acc)
  else if (cp <? 65536)%Z then
    String (byte_of_Z (128 + cp mod 64))
      (String (byte_of_Z (128 + cp / 64 mod 64)) (String (byte_of_Z (224 + cp / 4096)) acc))
  else
    String (byte_of_Z (128 + cp mod 64))
      (String (byte_of_Z (128 + cp / 64 mod 64))
         (String (byte_of_Z (128 + cp / 4096 mod 64))
            (String (byte_of_Z (240 + cp / 262144)) acc))).

(** Four hexadecimal digits at the head of [s]. *)
Definition read_hex4 (s : string) : option (Z * string) :=
  match s with
  | String a (String b (String c (String d r))) =>
      match digit_in 16 a, digit_in 16 b, digit_in 16 c, digit_in 16 d with
      | Some x, Some y, Some z, Some w => Some (((x * 16 + y) * 16 + z) * 16 + w, r)%Z
      | _, _, _, _ => None
      end
  | _ => None
  end.

(** The characters of a string literal up to its closing quote.  A [\u]
    escape is written in UTF-8, two escapes that make a surrogate pair as
    the one character they stand for. *)
Fixpoint read_string (fuel : nat) (s : string) (acc : string) : option (string * string) :=
  match fuel with
  | O => None
  | S fuel' =>
      match s with
      | EmptyString => None
      | String a s' =>
          if Ascii.eqb a dquote then Some (String.rev acc, s')
          else if Ascii.eqb a backslash then
            match s' with
            | String b s'' =>
                if Ascii.eqb b dquote || Ascii.eqb b backslash || Ascii.eqb b "/"
                then read_string fuel' s'' (String b acc)
                else if Ascii.eqb b "b" then read_string fuel' s'' (String "008" acc)
                else if Ascii.eqb b "f" then read_string fuel' s'' (String "012" acc)
                else if Ascii.eqb b "n" then read_string fuel' s'' (String "010" acc)
                else if Ascii.eqb b "r" then read_string fuel' s'' (String "013" acc)
                else if Ascii.eqb b "t" then read_string fuel' s'' (String "009" acc)
                else if Ascii.eqb b "u" then
                  match read_hex4 s'' with
                  | Some (hi, r) =>
                      if ((55296 <=? hi) && (hi <=? 56319))%Z then
                        match r with
                        | String x (String y r') =>
                            match (if Ascii.eqb x backslash && Ascii.eqb y "u"
                                   then read_hex4 r' else None) with
                            | Some (lo, r'') =>
                                if ((56320 <=? lo) && (lo <=? 57343))%Z then
                                  read_string fuel' r''
                                    (utf8_onto (65536 + (hi - 55296) * 1024 + (lo - 56320)) acc)
                                else read_string fuel' r (utf8_onto hi acc)
                            | None => read_string fuel' r (utf8_onto hi acc)
                            end
                        | _ => read_string fuel' r (utf8_onto hi acc)
                        end
                      else read_string fuel' r (utf8_onto hi acc)
                  | None => None
                  end
                else None
            | EmptyString => None
            end
          else if (nat_of_ascii a <? 32)%nat then None
          else read_string fuel' s' (String a acc)
      end
  end.

(** [obj[k] = v]: a repeated key keeps its place and takes the last value. *)
Fixpoint set_field (k : string) (v : value) (fs : list (string * value)) : list (string * value) :=
  match fs with
  | [] => [(k, v)]
  | (k', v') :: rest => if String.eqb k k' then (k, v) :: rest else (k', v') :: set_field k v rest
  end.

Definition strip_prefix (p s : string) : option string :=
  if String.prefix p s then Some (String.substring (String.length p) (String.length s - String.length p) s)
  else None.

(** A JSON number at the head of [s]: an optional minus, an integer part
    without a leading zero, an optional fraction, an optional exponent. *)
Definition read_json_number (s : string) : option (float * string) :=
  let '(neg, s1) := match s with String "-" r => (true, r) | _ => (false, s) end in
  let '(ip, ni, r1) := read_digits s1 0 0 in
  if (ni =? 0)%nat || (String.prefix "0" s1 && negb (ni =? 1)%nat) then None
  else
    let frac := match r1 with
                | String "." r2 =>
                    let '(m, nf, r3) := read_digits r2 ip 0 in
                    if (nf =? 0)%nat then None else Some (m, nf, r3)
                | _ => Some (ip, O, r1)
                end in
    match frac with
    | None => None
    | Some (m, nf, r3) =>
        let ex := match r3 with
                  | String a _ =>
                      if Ascii.eqb a "e" || Ascii.eqb a "E" then
                        let '(e, r4) := read_exponent r3 in
                        if (String.length r4 =? String.length r3)%nat then None else Some (e, r4)
                      else Some (0%Z, r3)
                  | EmptyString => Some (0%Z, r3)
                  end in
        match ex with
        | None => None
        | Some (e, r4) =>
            let x := float_of_decimal m (e - Z.of_nat nf) in
            Some (if neg then PrimFloat.opp x else x, r4)
        end
    end.

Fixpoint read_value (fuel : nat) (s : string) {struct fuel} : option (value * string) :=
  match fuel with
  | O => None
  | S fuel' =>
      match skip_json_space s with
      | String "{" r =>
          match skip_json_space r with
          | String "}" r' => Some (VObj [], r')
          | _ => read_members fuel' r []
          end
      | String "[" r =>
          match skip_json_space r with
          | String "]" r' => Some (VArr [], r')
          | _ => read_elements fuel' r []
          end
      | String a r =>
          if Ascii.eqb a dquote then
            match read_string (S (String.length r)) r EmptyString with
            | Some (str, r') => Some (VStr str, r')
            | None => None
            end
          else
            match strip_prefix "true" (String a r), strip_prefix "false" (String a r),
                  strip_prefix "null" (String a r) with
            | Some r', _, _ => Some (VBool true, r')
            | _, Some r', _ => Some (VBool false, r')
            | _, _, Some r' => Some (VNull, r')
            | _, _, _ =>
                match read_json_number (String a r) with
                | Some (x, r') => Some (VNum x, r')
                | None => None
                end
            end
      | EmptyString => None
      end
  end
with read_elements (fuel : nat) (s : string) (acc : list value) {struct fuel}
    : option (value * string) :=
  match fuel with
  | O => None
  | S fuel' =>
      match read_value fuel' s with
      | Some (v, r) =>
          match skip_json_space r with
          | String "," r' => read_elements fuel' r' (acc ++ [v])%list
          | String "]" r' => Some (VArr (acc ++ [v])%list, r')
          | _ => None
          end
      | None => None
      end
  end
with read_members (fuel : nat) (s : string) (acc : list (string * value)) {struct fuel}
    : option (value * string) :=
  match fuel with
  | O => None
  | S fuel' =>
      match skip_json_space s with
      | String a r =>
          if Ascii.eqb a dquote then
            match read_string (S (String.length r)) r EmptyString with
            | Some (k, r1) =>
                match skip_json_space r1 with
                | String ":" r2 =>
                    match read_value fuel' r2 with
                    | Some (v, r3) =>
                        match skip_json_space r3 with
                        | String "," r4 => read_members fuel' r4 (set_field k v acc)
                        | String "}" r4 => Some (VObj (set_field k v acc), r4)
                        | _ => None
                        end
                    | None => None
                    end
                | _ => None
                end
            | None => None
            end
          else None
      | EmptyString => None
      end
  end.

(** [JSON.parse(text)].  A text that is no JSON throws a [SyntaxError]; its
    message is the engine's own wording, for which the model has two
    texts. *)
Definition parse (text : string) : Res value :=
  match read_value (2 * String.length text + 2) text with
  | Some (v, r) =>
      match skip_json_space r with
      | EmptyString => Ok v
      | _ => Throw (SyntaxError "Unexpected non-whitespace character after JSON")
      end
  | None => Throw (SyntaxError "Unexpected token in JSON")
  end.

(** *** Dates *)

(** The civil date of a day number counted from 1970-01-01. *)
Definition civil_from_days (days : Z) : Z * Z * Z :=
  let z := (days + 719468)%Z in
  let era := (z / 146097)%Z in
  let doe := (z - era * 146097)%Z in
  let yoe := ((doe - doe / 1460 + doe / 36524 - doe / 146096) / 365)%Z in
  let doy := (doe - (365 * yoe + yoe / 4 - yoe / 100))%Z in
  let mp := ((5 * doy + 2) / 153)%Z in
  let d := (doy - (153 * mp + 2) / 5 + 1)%Z in
  let m := (if (mp <? 10)%Z then mp + 3 else mp - 9)%Z in
  let y := (yoe + era * 400 + (if (m <=? 2)%Z then 1 else 0))%Z in
  (y, m, d).

Definition days_from_civil (y m d : Z) : Z :=
  let y' := (if (m <=? 2)%Z then y - 1 else y)%Z in
  let era := (y' / 400)%Z in
  let yoe := (y' - era * 400)%Z in
  let doy := ((153 * (if (2 <? m)%Z then m - 3 else m + 9) + 2) / 5 + d - 1)%Z in
  let doe := (yoe * 365 + yoe / 4 - yoe / 100 + doy)%Z in
  (era * 146097 + doe - 719468)%Z.

Definition pad_Z (n : nat) (z : Z) : string := pad n (Z_to_string z).

(** The time value of [new Date(t)], in milliseconds: [t] cut to an
    integer, [None] beyond 8.64e15 either way. *)
Definition time_clip (t : float) : option Z :=
  if negb (is_finite t) then None
  else
    let ms := if PrimFloat.ltb t PrimFloat.zero then (- trunc (PrimFloat.opp t))%Z
              else trunc t in
    if (Z.abs ms <=? 8640000000000000)%Z then Some ms else None.

(** [new Date(t).toISOString()]; years outside 0-9999 are written with a
    sign and six digits. *)
Definition toISOString64 (t : float) : Res string :=
  match time_clip t with
  | None => Throw (RangeError "Invalid time value")
  | Some ms =>
      let '(y, m, d) := civil_from_days (ms / 86400000) in
      let r := (ms mod 86400000)%Z in
      let year := if ((0 <=? y) && (y <=? 9999))%Z then pad_Z 4 y
                  else if (y <? 0)%Z then "-" ++ pad_Z 6 (- y)
                  else "+" ++ pad_Z 6 y in
      Ok (year ++ "-" ++ pad_Z 2 m ++ "-" ++ pad_Z 2 d ++ "T"
          ++ pad_Z 2 (r / 3600000) ++ ":" ++ pad_Z 2 (r / 60000 mod 60) ++ ":"
          ++ pad_Z 2 (r / 1000 mod 60) ++ "." ++ pad_Z 3 (r mod 1000) ++ "Z")
  end.

(** Exactly [n] digits at the head of [s]. *)
Definition read_n (n : nat) (s : string) : option (Z * string) :=
  let '(v, k, r) := read_digits (String.substring 0 n s) 0 0 in
  if ((k =? n) && (String.length (String.substring 0 n s) =? n))%nat
  then Some (v, String.substring n (String.length s - n) s)
  else None.

Definition expect (c : ascii) (s : string) : option string :=
  match s with
  | String a r => if Ascii.eqb a c then Some r else None
  | EmptyString => None
  end.

(** The year of a date-time text: four digits, or a sign and six digits
    that are not [-000000]. *)
Definition read_year (s : string) : option (Z * string) :=
  match s with
  | String "+" r => read_n 6 r
  | String "-" r =>
      match read_n 6 r with
      | Some (y, r') => if (y =? 0)%Z then None else Some ((- y)%Z, r')
      | None => None
      end
  | _ => read_n 4 s
  end.

(** The date of a date-time text, [YYYY], [YYYY-MM] or [YYYY-MM-DD], and
    the rest; a month or a day left out is 1. *)
Definition read_date (s : string) : option (Z * Z * Z * string) :=
  match read_year s with
  | Some (y, s1) =>
      match expect "-" s1 with
      | Some s2 =>
          match read_n 2 s2 with
          | Some (m, s3) =>
              match expect "-" s3 with
              | Some s4 =>
                  match read_n 2 s4 with
                  | Some (d, s5) => Some (y, m, d, s5)
                  | None => None
                  end
              | None => Some (y, m, 1%Z, s3)
              end
          | None => None
          end
      | None => Some (y, 1%Z, 1%Z, s1)
      end
  | None => None
  end.

(** The milliseconds a fraction of a second gives: its first three digits. *)
Definition read_millis (s : string) : option (Z * string) :=
  match s with
  | String "." r =>
      let '(_, n, rest) := read_digits r 0 0 in
      if (n =? 0)%nat then None
      else
        let '(v, _, _) := read_digits (String.substring 0 3 (String.substring 0 n r ++ "00")) 0 0 in
        Some (v, rest)
  | _ => Some (0%Z, s)
  end.

(** The time of day of a date-time text, [THH:mm], [THH:mm:ss] or
    [THH:mm:ss.sss], in milliseconds, and the rest. *)
Definition read_time (s : string) : option (Z * string) :=
  match expect "T" s with
  | Some s1 =>
      match read_n 2 s1 with
      | Some (hh, s2) =>
          match expect ":" s2 with
          | Some s3 =>
              match read_n 2 s3 with
              | Some (mm, s4) =>
                  let seconds :=
                    match expect ":" s4 with
                    | Some s5 =>
                        match read_n 2 s5 with
                        | Some (ss, s6) =>
                            match read_millis s6 with
                            | Some (ms, s7) => Some (ss, ms, s7)
                            | None => None
                            end
                        | None => None
                        end
                    | None => Some (0%Z, 0%Z, s4)
                    end in
                  match seconds with
                  | Some (ss, ms, rest) =>
                      if ((hh <=? 23) && (mm <=? 59) && (ss <=? 59))%Z
                         || ((hh =? 24) && (mm =? 0) && (ss =? 0) && (ms =? 0))%Z
                      then Some (hh * 3600000 + mm * 60000 + ss * 1000 + ms, rest)%Z
                      else None
                  | None => None
                  end
              | None => None
              end
          | None => None
          end
      | None => None
      end
  | None => None
  end.

(** The offset from UTC a date-time text ends with, in milliseconds: [Z],
    [+HH:mm] or [-HH:mm].  Without one the time is local time; the local
    time zone of the model is UTC. *)
Definition read_offset (s : string) : option Z :=
  match s with
  | EmptyString => Some 0%Z
  | "Z" => Some 0%Z
  | String a r =>
      if Ascii.eqb a "+" || Ascii.eqb a "-" then
        match read_n 2 r with
        | Some (hh, r1) =>
            match expect ":" r1 with
            | Some r2 =>
                match read_n 2 r2 with
                | Some (mm, EmptyString) =>
                    if ((hh <=? 23) && (mm <=? 59))%Z
                    then Some ((if Ascii.eqb a "-" then -1 else 1) * (hh * 3600000 + mm * 60000))%Z
                    else None
                | _ => None
                end
            | None => None
            end
        | None => None
        end
      else None
  end.

(** [new Date(s).getTime()] for the date-time texts of the standard: a
    date alone, or a date followed by a time of day and an offset.  Months
    run from 01 to 12 and days from 01 to 31, a day past the end of its
    month counting on into the next, and a time beyond 8.64e15
    milliseconds either way is no time.  The standard leaves texts in
    other formats to the engine; they are outside this model and read as
    NaN. *)
Definition getTime64 (s : string) : float :=
  match read_date s with
  | Some (y, m, d, rest) =>
      if ((1 <=? m) && (m <=? 12) && (1 <=? d) && (d <=? 31))%Z then
        let day := (days_from_civil y m d * 86400000)%Z in
        let time :=
          match rest with
          | EmptyString => Some day
          | _ =>
              match read_time rest with
              | Some (t, rest') =>
                  match read_offset rest' with
                  | Some off => Some (day + t - off)%Z
                  | None => None
                  end
              | None => None
              end
          end in
        match time with
        | Some ms => if (Z.abs ms <=? 8640000000000000)%Z then float_of_Z ms else PrimFloat.nan
        | None => PrimFloat.nan
        end
      else PrimFloat.nan
  | None => PrimFloat.nan
  end.

(** [new URL(s)] accepts [s], for the URLs the service builds from its
    settings: an [http://] or [https://] base with a host.  Other texts
    that the URL parser accepts are refused here. *)
Definition URL_ok64 (s : string) : bool :=
  let hosted r := match r with
                  | EmptyString => false
                  | String a _ => negb (Ascii.eqb a "/")
                  end in
  match strip_prefix "http://" s, strip_prefix "https://" s with
  | Some r, _ => hosted r
  | None, Some r => hosted r
  | None, None => false
  end.

#[export] Instance builtins : JSBuiltins := {|
  JSON_parse := parse;
  JSON_stringify := stringify;
  JSON_stringify_pretty := stringify_pretty 0;
  Date_getTime := getTime64;
  Date_toISOString := toISOString64;
  URL_ok := URL_ok64;
  parseInt := parseInt64;
|}.

End Binary64.


(* ====================================================================== *)
(** ** The ledger's Split choice *)
(* ====================================================================== *)

(** The service exercises [Split] on a holding and reads the contract ids
    of the result; the choice itself belongs to the [Holding:AssetHolding]
    template on the ledger, which is not among the sources. *)
Module Ledger.

(** Modelled from the spec: "decimal-string arithmetic, no rounding".
    Amounts are decimals with ten fractional digits, counted in units of
    [10^-10]. *)
Definition scale : N := 10 ^ 10.

Definition digit_char (d : N) : ascii := ascii_of_N (48 + d).

Definition digit_value (a : ascii) : option N :=
  let n := N_of_ascii a in
  if ((48 <=? n) && (n <=? 57))%N then Some (n - 48)%N else None.

(** The [k] digits of [f < 10^k]. *)
Fixpoint show_frac (k : nat) (f : N) : string :=
  match k with
  | O => EmptyString
  | S k' => String (digit_char (f / 10 ^ N.of_nat k')) (show_frac k' (f mod 10 ^ N.of_nat k'))
  end.

(** At most [k] digits, read as a multiple of [10^-k]. *)
Fixpoint read_frac (k : nat) (s : string) : option N :=
  match s with
  | EmptyString => Some 0%N
  | String a r =>
      match k with
      | O => None
      | S k' =>
          match digit_value a, read_frac k' r with
          | Some d, Some v => Some (d * 10 ^ N.of_nat k' + v)%N
          | _, _ => None
          end
      end
  end.

(** [s] cut at its first point. *)
Fixpoint at_point (s : string) : string * option string :=
  match s with
  | EmptyString => (EmptyString, None)
  | String a r =>
      if Ascii.eqb a "." then (EmptyString, Some r)
      else let '(b, f) := at_point r in (String a b, f)
  end.

(** Modelled from the spec: the decimal string of an amount, as in the
    scenario's ["200"] and ["300"]: the integer part, and the ten fractional
    digits unless they are all zero. *)
Definition show (a : N) : string :=
  (NilZero.string_of_uint (N.to_uint (a / scale))
   ++ (if (a mod scale =? 0)%N then "" else "." ++ show_frac 10 (a mod scale)))%string.

(** Modelled from the spec: the amount a decimal string writes. *)
Definition read (s : string) : option N :=
  let '(i, f) := at_point s in
  match NilZero.uint_of_string i with
  | Some u =>
      match f with
      | None => Some (N.of_uint u * scale)%N
      | Some fs =>
          match read_frac 10 fs with
          | Some v => Some (N.of_uint u * scale + v)%N
          | None => None
          end
      end
  | None => None
  end.

(** Modelled from the spec: the Split choice of an AssetHolding.  "Splitting
    a holding archives it and creates two successor holdings whose amounts
    sum to the original", "{exact, remainder}", "decimal-string arithmetic,
    no rounding"; the target lies strictly between 0 and the amount.  The
    result is the pair (exact, remainder) of the successors' payloads. *)
Definition Split (h : AssetHolding.Payload) (splitAmount : string)
    : option (AssetHolding.Payload * AssetHolding.Payload) :=
  match read (AssetHolding.amount h), read splitAmount with
  | Some a, Some x =>
      if ((0 <? x) && (x <? a))%N then
        Some (AssetHolding.with_amount h (show x), AssetHolding.with_amount h (show (a - x)))
      else None
  | _, _ => None
  end.

(** Modelled from the spec: the shapes in which the pair a Split returns
    reaches the service, "a tuple (ContractId, ContractId)" in "various
    formats" (line 567). *)
Inductive TupleFormat : Type := AsRecord | AsArray | NoResult.

Section Answer.
Context {JS : JSNumber}.

(** Modelled from the spec: the contracts a Split leaves.  "Splitting a
    holding archives it and creates two successor holdings": the
    successors are new contracts, under the contract ids the ledger gives
    them. *)
Definition exercise_Split (h : Contract AssetHolding.Payload) (splitAmount : string)
    (exactId remainderId : string)
    : option (Contract AssetHolding.Payload * Contract AssetHolding.Payload) :=
  match Split (payload h) splitAmount with
  | Some (exact, remainder) =>
      Some ({| contractId := VStr exactId; payload := exact |},
            {| contractId := VStr remainderId; payload := remainder |})
  | None => None
  end.

(** Modelled from the spec: the create arguments of a holding, its record
    "{issuer, owner, custodian, assetType, amount}". *)
Definition arguments (p : AssetHolding.Payload) : value :=
  VObj [("issuer", VStr (AssetHolding.issuer p)); ("owner", VStr (AssetHolding.owner p));
        ("custodian", VStr (AssetHolding.custodian p));
        ("assetType", VStr (AssetHolding.assetType p));
        ("amount", VStr (AssetHolding.amount p))].

(** Modelled from the spec: the events of the transaction, a created
    contract and the exercise of the choice with its result. *)
Definition created (tpl : string) (c : Contract AssetHolding.Payload) : value :=
  VObj [("CreatedEvent",
         VObj [("contractId", contractId c); ("templateId", VStr tpl);
               ("createArgument", arguments (payload c))])].

Definition exercised (result : value) : value :=
  VObj [("ExercisedEvent", VObj [("choice", VStr "Split"); ("exerciseResult", result)])].

(** Modelled from the spec, with what [lockUSDC] says of the answer it
    reads (lines 567 and 585): the choice "returns a tuple (ContractId,
    ContractId)", the exact successor first, and of the contracts created
    the "first created event is the split amount, second is the
    remainder".  The tuple arrives as a record of [_1] and [_2] or as an
    array, or the transaction shows the created contracts only. *)
Definition response (format : TupleFormat) (updateId tpl : string)
    (exact remainder : Contract AssetHolding.Payload) : value :=
  let result :=
    match format with
    | AsRecord => [exercised (VObj [("_1", contractId exact); ("_2", contractId remainder)])]
    | AsArray => [exercised (VArr [contractId exact; contractId remainder])]
    | NoResult => []
    end in
  VObj [("transaction",
         VObj [("updateId", VStr updateId);
               ("events", VArr (result ++ [created tpl exact; created tpl remainder]))])].

End Answer.

End Ledger.

(* ====================================================================== *)
(** ** Dates as the ledger writes them *)
(* ====================================================================== *)

(** [YYYY-MM-DD], zero padded: the format of [toISOString().split('T')[0]]
    and of a Daml [Date]. *)
Definition digit (n : nat) : ascii := ascii_of_nat (48 + n).

Definition two_digits (n : nat) : string :=
  String (digit (n / 10)) (String (digit (n mod 10)) EmptyString).

Definition iso_date (y m d : nat) : string :=
  two_digits (y / 100) ++ two_digits (y mod 100) ++ "-" ++ two_digits m ++ "-" ++ two_digits d.

(** The calendar order of two dates. *)
Definition date_before (y1 m1 d1 y2 m2 d2 : nat) : Prop :=
  y1 < y2 \/ (y1 = y2 /\ (m1 < m2 \/ (m1 = m2 /\ d1 < d2))).

(* ====================================================================== *)
(** ** The selection as the specification words it *)
(* ====================================================================== *)

(** Not from the source, for comparison with [allocateExact]: "the smallest
    holding whose amount is at least the target", the earlier one of two
    equal amounts. *)
Definition smallestSufficient {N : JSNumber} (amount : num)
    (usdcHoldings : list (Contract AssetHolding.Payload))
    : option (Contract AssetHolding.Payload) :=
  fold_left
    (fun best h =>
       if num_ge (holding_amount h) amount then
         match best with
         | None => Some h
         | Some b => if num_lt (holding_amount h) (holding_amount b) then Some h else Some b
         end
       else best)
    usdcHoldings None.

(** Not from the source, for comparison with [getTransactionStream]: "the
    [n] most recent" of a stream in ascending order are its last [n]. *)
Definition mostRecent {A : Type} (n : nat) (stream : list A) : list A :=
  skipn (length stream - n) stream.

(* ====================================================================== *)
(** ** Example configuration, ledger data and worlds *)
(* ====================================================================== *)

Module Example.
Import Binary64.

Definition alice : string := "alice::1220aa".
Definition bob : string := "bob::1220bb".
Definition admin : string := "admin::1220ad".

Definition settings : list (string * string) :=
  [("JSON_API_URL", "http://ledger:7575");
   ("PACKAGE_ID", "pkg");
   ("ADMIN_PARTY_ID", admin);
   ("AMULET_PACKAGE_ID", "splice");
   ("VALIDATOR_WALLET_URL", "http://validator:5003");
   ("AUTH0_TOKEN_URL", "https://auth.example/oauth/token");
   ("AUTH0_CLIENT_ID", "client");
   ("AUTH0_CLIENT_SECRET", "secret")].

Fixpoint lookup_setting (l : list (string * string)) (key : string) : option string :=
  match l with
  | [] => None
  | (k, v) :: rest => if String.eqb k key then Some v else lookup_setting rest key
  end.

Definition service : Config := constructor (lookup_setting settings).

(** 2026-01-01T00:00:00Z, in milliseconds. *)
Definition t0 : float := 1767225600000%float.

(** A reply with status 200 and the JSON text of [v], the clock unchanged. *)
Definition replies (v : value) : NetEvent := Responds 200%float (stringify v) t0.

(** A reply with status [st] and body [txt]. *)
Definition refuses (st : float) (txt : string) : NetEvent := Responds st txt t0.

Definition cached (tok : value) (expires : float) : CachedToken :=
  {| token := tok; expiresAt := expires |}.

(** Both service tokens cached and valid for another hour. *)
Definition cache : gmap string CachedToken :=
  <[ "https://canton.network.global" := cached (VStr "ledger-token") 1767229200000%float ]>
  (<[ "https://validator.rhein.finance" := cached (VStr "wallet-token") 1767229200000%float ]>
   ∅).

Definition world (c : gmap string CachedToken) (script : list NetEvent) : World :=
  {| tokenCache := c; clock := t0; net := script; sent := []; console := []; random := [] |}.

(** An entry of the active contract set. *)
Definition entry (cid tpl : string) (args : value) : value :=
  VObj [("contractEntry",
         VObj [("JsActiveContract",
                VObj [("createdEvent",
                       VObj [("contractId", VStr cid); ("templateId", VStr tpl);
                             ("createArgument", args)])])])].

Definition holding (cid owner amount : string) : value :=
  entry cid "pkg:Holding:AssetHolding"
    (VObj [("issuer", VStr admin); ("owner", VStr owner); ("custodian", VStr admin);
           ("assetType", VStr "USDC"); ("amount", VStr amount)]).

Definition lockedHolding (cid owner amount : string) : value :=
  entry cid "pkg:Holding:LockedAssetHolding"
    (VObj [("issuer", VStr admin); ("owner", VStr owner); ("custodian", VStr admin);
           ("assetType", VStr "USDC"); ("amount", VStr amount);
           ("lockReason", VStr "loan"); ("releaseTo", VStr owner)]).

Definition loanArguments (borrower lender principal maturity ref : string) : value :=
  VObj [("borrower", VStr borrower); ("lender", VStr lender);
        ("ccCollateralReference", VStr ref); ("principal", VStr principal);
        ("collateralAmount", VStr "1600"); ("interestRate", VStr "0.05");
        ("maturityDate", VStr maturity); ("originationDate", VStr "2025-06-01");
        ("ccPrice", VStr "0.125"); ("stablecoinType", VStr "USDC")].

Definition loan (cid borrower lender principal maturity ref : string) : value :=
  entry cid "pkg:ActiveLoanHybrid:ActiveLoanHybrid"
    (loanArguments borrower lender principal maturity ref).

(** The loan [queryActiveLoans] makes of [loan cid ...]. *)
Definition lent (cid borrower lender principal maturity ref : string)
    : Contract ActiveLoanHybrid.Payload :=
  {| contractId := VStr cid;
     payload := asActiveLoan (loanArguments borrower lender principal maturity ref) |}.

Definition amuletAmount (initial : string) : value :=
  VObj [("initialAmount", VStr initial); ("createdAt", VObj [("number", VStr "1")]);
        ("ratePerRound", VObj [("rate", VStr "0.0")])].

Definition amulet (cid owner initial : string) : value :=
  entry cid "splice:Splice.Amulet:Amulet"
    (VObj [("dso", VStr "dso"); ("owner", VStr owner); ("amount", amuletAmount initial)]).

Definition lockedAmulet (cid owner initial : string) : value :=
  entry cid "splice:Splice.Amulet:LockedAmulet"
    (VObj [("amulet", VObj [("dso", VStr "dso"); ("owner", VStr owner);
                            ("amount", amuletAmount initial)]);
           ("lock", VObj [("holders", VArr [VStr admin]); ("expiresAt", VStr "2026-06-30")])]).

(** The two replies one [queryContracts] consumes: the ledger end, then the
    active contracts. *)
Definition acs (entries : list value) : list NetEvent :=
  [replies (VObj [("offset", VNum 42%float)]); replies (VArr entries)].

(** The reply to a submission whose transaction exercised a choice with
    result [r]. *)
Definition exercisedWith (r : value) : NetEvent :=
  replies (VObj [("transaction",
                  VObj [("updateId", VStr "upd");
                        ("events", VArr [VObj [("ExercisedEvent",
                                                VObj [("exerciseResult", r)])]])])]).

(** *** Holdings *)

(** The holding [queryAssetHoldings] makes of [holding cid owner amount]. *)
Definition held (cid owner amount : string) : Contract AssetHolding.Payload :=
  {| contractId := VStr cid;
     payload := {| AssetHolding.issuer := admin; AssetHolding.owner := owner;
                   AssetHolding.custodian := admin; AssetHolding.assetType := "USDC";
                   AssetHolding.amount := amount |} |}.

(** Alice holds 1000 and 500, in this order; Bob holds 200.  A submission
    is answered with the two successors of a split. *)
Definition w_two_holdings : World :=
  world cache
    (acs [holding "h1" alice "1000"; holding "h2" alice "500"; holding "h3" bob "200"]
     ++ [exercisedWith (VObj [("_1", VStr "h1a"); ("_2", VStr "h1b")])]).

Definition w_two_holdings_queried : World :=
  snd (queryAssetHoldings service alice w_two_holdings).

(** Alice holds 100.005. *)
Definition w_near_holding : World :=
  world cache
    (acs [holding "h1" alice "100.005"]
     ++ [exercisedWith (VObj [("_1", VStr "h1a"); ("_2", VStr "h1b")])]).

Definition w_near_holding_queried : World :=
  snd (queryAssetHoldings service alice w_near_holding).

(** *** Balances *)

(** The five queries of [getTokenBalances] for Alice: two holdings of hers
    and one of Bob's; one locked holding; a loan she borrowed and one she
    lent; an amulet; a locked amulet. *)
Definition w_balances : World :=
  world cache
    (acs [holding "h1" alice "1000"; holding "h2" alice "500"; holding "h3" bob "200"]
     ++ acs [lockedHolding "l1" alice "250"]
     ++ acs [loan "loan1" alice bob "300" "2026-06-30" "offer1";
             loan "loan2" bob alice "700" "2026-03-31" "offer2"]
     ++ acs [amulet "a1" alice "2000.5"]
     ++ acs [lockedAmulet "la1" alice "100"]).

Definition balance (assetType : string) (available locked borrowed total : float)
    : TokenBalance.t :=
  {| TokenBalance.assetType := assetType; TokenBalance.available := available;
     TokenBalance.locked := locked; TokenBalance.borrowed := borrowed;
     TokenBalance.total := total |}.

(** *** Offers *)

Definition lenderAsk : OfferSpec.t :=
  {| OfferSpec.offerType := LenderAsk; OfferSpec.loanAmount := "1000";
     OfferSpec.collateralAmount := "16000"; OfferSpec.interestRate := "0.055";
     OfferSpec.maturityDate := "2026-06-30" |}.

(** Alice holds 1000 and 500; the Lock of the holding of 1000 returns
    [locked1]; the create command is answered with the created offer. *)
Definition created_offer : value :=
  VObj [("transaction",
         VObj [("updateId", VStr "upd-offer");
               ("events", VArr [VObj [("CreatedEvent", VObj [("contractId", VStr "offer1")])]])])].

Definition w_lender_ask : World :=
  world cache
    (acs [holding "h1" alice "1000"; holding "h2" alice "500"]
     ++ [exercisedWith (VStr "locked1"); replies created_offer]).

Definition borrowerBid : OfferSpec.t :=
  {| OfferSpec.offerType := BorrowerBid; OfferSpec.loanAmount := "1000";
     OfferSpec.collateralAmount := "16000"; OfferSpec.interestRate := "0.055";
     OfferSpec.maturityDate := "2026-06-30" |}.

(** The answer of the escrow wallet to a request for a transfer offer. *)
Definition escrow_reply : string := stringify (VObj [("offer_contract_id", VStr "escrow1")]).

(** Alice owns 20000 coins; the escrow wallet answers the request for the
    transfer offer with [reply]; the create command is answered with the
    created offer. *)
Definition w_borrower_bid (reply : string) : World :=
  {| tokenCache := cache; clock := t0;
     net := acs [amulet "a1" alice "20000"] ++ [Responds 200%float reply t0; replies created_offer];
     sent := []; console := []; random := ["k3x9qa"; "p0q1r2"] |}.

(** *** Loans *)

(** Bob borrowed 300 from Alice until 2026-06-30 against the escrow offer
    [offer1]. *)
Definition the_loan : value := loan "loan1" bob alice "300" "2026-06-30" "offer1".

Definition loan1 : Contract ActiveLoanHybrid.Payload :=
  lent "loan1" bob alice "300" "2026-06-30" "offer1".

(** Alice claims the default today, 2026-01-01. *)
Definition w_default_early : World := world cache (acs [the_loan]).

Definition w_default_early_queried : World :=
  snd (queryActiveLoans service alice w_default_early).

(** Alice claims it as of 2026-07-01: the ledger accepts; the escrow answers
    404 to the acceptance of the offer. *)
Definition default_result : value :=
  VObj [("transaction", VObj [("updateId", VStr "upd-default"); ("events", VArr [])])].

Definition w_default_late : World :=
  world cache (acs [the_loan] ++ [replies default_result; refuses 404%float "offer not found"]).

Definition w_default_late_queried : World :=
  snd (queryActiveLoans service alice w_default_late).

Definition w_default_late_claimed : World :=
  snd (submitCommand service [defaultCmd service "loan1" "2026-07-01"] [alice; bob]
         w_default_late_queried).

Definition w_default_late_refused : World :=
  snd (walletApiFetch service "transfer-offers/offer1/accept" "POST" (VObj []) None
         w_default_late_claimed).

(** Bob repays 300 with his holding of 300: the ledger accepts; the escrow
    answers 404 to the withdrawal of the offer, withdrawn before. *)
Definition repay_result : value :=
  VObj [("transaction", VObj [("updateId", VStr "upd-repay"); ("events", VArr [])])].

Definition w_repay : World :=
  world cache
    (acs [the_loan] ++ acs [holding "b1" bob "300"]
     ++ [replies repay_result; refuses 404%float "offer not found"]).

Definition w_repay_queried : World := snd (queryActiveLoans service bob w_repay).

Definition w_repay_allocated : World :=
  snd (repaymentHolding service bob 300%float w_repay_queried).

Definition w_repay_repaid : World :=
  snd (submitCommand service [repayCmd service "loan1" "2026-01-01" (VStr "b1")] [bob; alice]
         w_repay_allocated).

Definition w_repay_refused : World :=
  snd (unlockAmulet service "offer1" bob None w_repay_repaid).

Definition escrow_error : exn := Error "Wallet API error (404): offer not found".

(** *** The update stream *)

Definition tx_name (n : nat) : string := "tx" ++ Z_to_string (Z.of_nat n).

(** The [n]th update of the stream: transaction [tx n] at offset [n],
    creating contract [c n]. *)
Definition update (n : nat) : value :=
  VObj [("update",
         VObj [("Transaction",
                VObj [("value",
                       VObj [("updateId", VStr (tx_name n));
                             ("effectiveAt", VStr "2026-01-01T00:00:00Z");
                             ("offset", VNum (float_of_Z (Z.of_nat n)));
                             ("events",
                              VArr [VObj [("CreatedEvent",
                                           VObj [("contractId",
                                                  VStr ("c" ++ Z_to_string (Z.of_nat n)));
                                                 ("templateId", VStr "pkg:Holding:AssetHolding");
                                                 ("createArgument", VObj [])])]])])])])].

(** The transaction [getTransactionStream] makes of [update n]. *)
Definition tx (n : nat) : Transaction.t :=
  {| Transaction.transactionId := VStr (tx_name n);
     Transaction.effectiveAt := VStr "2026-01-01T00:00:00Z";
     Transaction.offset := Z_to_string (Z.of_nat n);
     Transaction.events :=
       [{| TransactionEvent.eventType := created;
           TransactionEvent.contractId := VStr ("c" ++ Z_to_string (Z.of_nat n));
           TransactionEvent.templateId := VStr "pkg:Holding:AssetHolding";
           TransactionEvent.eventId := VStr "";
           TransactionEvent.payload := VObj [];
           TransactionEvent.choice := VUndef;
           TransactionEvent.argument := VUndef |}] |}.

(** The ledger streams 51 updates, oldest first, as one JSON array. *)
Definition w_stream51 : World := world cache [replies (VArr (map update (seq 1 51)))].

Definition w_stream51_read : World :=
  snd (getTransactionStream service alice None w_stream51).

(** The same stream cut after two updates, one JSON document per line. *)
Definition w_stream_lines : World :=
  world cache
    [Responds 200%float (stringify (update 1) ++ newline ++ newline ++ stringify (update 2)) t0].

(** *** The token endpoint *)

Definition ledgerAudience : string := "https://canton.network.global".

(** No token cached; the endpoint grants [tok-1] for an hour, a quarter of
    a second later. *)
Definition grant : value := VObj [("access_token", VStr "tok-1"); ("expires_in", VNum 3600%float)].

Definition w_fresh : World :=
  {| tokenCache := ∅; clock := t0;
     net := [Responds 200%float (stringify grant) 1767225600250%float];
     sent := []; console := []; random := [] |}.

(** The world the first call leaves. *)
Definition w_granted : World := snd (getAuth0Token service ledgerAudience w_fresh).

(** A minute later: same cache, nothing scripted. *)
Definition w_minute_later : World :=
  {| tokenCache := tokenCache w_granted; clock := 1767225660250%float;
     net := []; sent := sent w_granted; console := []; random := [] |}.

(** At the very time the entry expires: same cache, and the endpoint
    grants [tok-2] a quarter of a second later. *)
Definition second_grant : value :=
  VObj [("access_token", VStr "tok-2"); ("expires_in", VNum 3600%float)].

Definition w_expired : World :=
  {| tokenCache := tokenCache w_granted; clock := 1767229140250%float;
     net := [Responds 200%float (stringify second_grant) 1767229140500%float];
     sent := []; console := []; random := [] |}.

(** The endpoint answers 200 with a body that has no [access_token]. *)
Definition no_token : value := VObj [("expires_in", VNum 3600%float)].

Definition w_no_token : World :=
  {| tokenCache := ∅; clock := t0;
     net := [Responds 200%float (stringify no_token) t0];
     sent := []; console := []; random := [] |}.

End Example.

(* ====================================================================== *)
(** ** Further example worlds *)
(* ====================================================================== *)

Module Scenario.
Import Binary64.
Import Example.

(** An error as [console.error] prints it: the first line, the frames of
    the stack left out. *)
#[export] Instance inspection : NodeInspect := {| inspect := exn_toString |}.

Definition carol : string := "carol::1220cc".

(** *** Transport *)

(** No token cached; the token endpoint answers 503. *)
Definition w_token_refused : World := world ∅ [refuses 503%float "unavailable"].

(** The ledger answers 500 to the request for its end; an empty ledger
    answers with the offset 0. *)
Definition w_ledger_end_refused : World := world cache [refuses 500%float "down"].

Definition w_ledger_empty : World := world cache [replies (VObj [("offset", VNum 0%float)])].

(** A created event, and an entry of the active contract set without a
    contract id. *)
Definition created_event : value :=
  VObj [("contractId", VStr "c1"); ("templateId", VStr "pkg:Holding:AssetHolding");
        ("createArgument", VObj [("amount", VStr "5")])].

Definition w_one_of_two : World :=
  world cache (acs [holding "h1" alice "1000"; VObj [("contractEntry", VObj [])]]).

Definition w_query_refused : World :=
  world cache [replies (VObj [("offset", VNum 42%float)]); refuses 400%float "bad filter"].

(** A submission the ledger refuses as a duplicate. *)
Definition w_duplicate : World :=
  {| tokenCache := cache; clock := t0; net := [refuses 409%float "DUPLICATE_COMMAND"];
     sent := []; console := []; random := ["k3x9qa"] |}.

(** A response whose first exercised event has the result [null]. *)
Definition null_then_id : value :=
  VObj [("transaction",
         VObj [("events",
                VArr [VObj [("CreatedEvent", VObj [("contractId", VStr "c9")])];
                      VObj [("ExercisedEvent", VObj [("exerciseResult", VNull)])];
                      VObj [("ExercisedEvent", VObj [("exerciseResult", VStr "later")])]])])].

(** *** The escrow wallet *)

(** The wallet answers 200 with a blank body: a space, a no-break space
    (U+00A0, two bytes of UTF-8) and a line feed. *)
Definition blank : string :=
  String " " (String "194" (String "160" (String "010" EmptyString))).

Definition w_blank : World := world ∅ [Responds 200%float blank t0].

(** Alice owns one amulet of 100. *)
Definition w_hundred_coins : World := world cache (acs [amulet "a1" alice "100"]).

Definition owned (cid owner initial : string) : Contract Amulet.Payload :=
  {| contractId := VStr cid;
     payload := asAmulet (VObj [("dso", VStr "dso"); ("owner", VStr owner);
                                ("amount", amuletAmount initial)]) |}.

(** Alice owns 2000.5 and sends 500 to Bob: the wallet answers with the
    transfer instruction [ti1]. *)
Definition w_send_coins : World :=
  world cache (acs [amulet "a1" alice "2000.5"] ++ [replies (VObj [("contract_id", VStr "ti1")])]).

(** Both endpoints refuse the acceptance. *)
Definition w_both_refuse : World :=
  world ∅ [refuses 404%float "no such transfer"; refuses 409%float "already accepted"].

(** *** Onboarding and the faucet *)

(** The validator registers Carol; the ledger refuses the grant of rights. *)
Definition w_register : World :=
  world cache [replies (VObj [("party_id", VStr carol)]); refuses 403%float "forbidden"].

(** The ledger refuses the query for the issuer (its end, then the
    contracts) and accepts the creation of a new one. *)
Definition issuer_created : value :=
  VObj [("transaction",
         VObj [("updateId", VStr "upd-issuer");
               ("events", VArr [VObj [("CreatedEvent", VObj [("contractId", VStr "issuer2")])]])])].

Definition w_issuer_query_fails : World :=
  world cache [refuses 500%float "down"; refuses 500%float "down"; replies issuer_created].

(** An issuer exists; the ledger accepts the issue. *)
Definition issuer_entry : value :=
  entry "issuer1" "pkg:Holding:AssetIssuer"
    (VObj [("issuer", VStr admin); ("custodian", VStr admin)]).

Definition issued : value :=
  VObj [("transaction", VObj [("updateId", VStr "upd-issue"); ("events", VArr [])])].

Definition w_faucet : World := world cache (acs [issuer_entry] ++ [replies issued]).

(** *** Offers, loans and transfers *)

(** Bob's bid for a loan of 1000 against 16000 coins; Alice accepts with
    her holding of 1000, locked as [locked1]. *)
Definition bobs_bid : Contract LoanOfferHybrid.Payload :=
  {| contractId := VStr "offer7";
     payload :=
       {| LoanOfferHybrid.initiator := bob;
          LoanOfferHybrid.counterparty := None;
          LoanOfferHybrid.offerType := "BorrowerBid";
          LoanOfferHybrid.lockedCCCollateral := Some "escrow7";
          LoanOfferHybrid.lockedUSDCPrincipal := None;
          LoanOfferHybrid.loanAmount := "1000";
          LoanOfferHybrid.collateralAmount := "16000";
          LoanOfferHybrid.interestRate := "0.055";
          LoanOfferHybrid.maturityDate := "2026-06-30";
          LoanOfferHybrid.ltvRatio := "0.5";
          LoanOfferHybrid.ccPrice := "0.125";
          LoanOfferHybrid.stablecoinType := "USDC";
          LoanOfferHybrid.createdAt := "2026-01-01";
          LoanOfferHybrid.observers := [admin] |} |}.

Definition accepted : value :=
  VObj [("transaction", VObj [("updateId", VStr "upd-accept"); ("events", VArr [])])].

Definition w_accept : World :=
  world cache
    (acs [holding "h1" alice "1000"; holding "h2" alice "500"]
     ++ [exercisedWith (VStr "locked1"); replies accepted]).

(** Alice sends Bob her holding of 500. *)
Definition transferred : value :=
  VObj [("transaction", VObj [("transactionId", VStr "t-500"); ("events", VArr [])])].

Definition w_send_usdc : World :=
  world cache
    (acs [holding "h1" alice "1000"; holding "h2" alice "500"] ++ [replies transferred]).

(** Only Bob holds USDC. *)
Definition w_no_principal : World := world cache (acs [holding "h3" bob "200"]).

(** The ledger refuses the stream. *)
Definition w_stream_refused : World := world cache [refuses 500%float "boom"].

(** The Lock of Alice's holding of 1000 creates the locked holding [lh1]
    and returns no string. *)
Definition locked_created : value :=
  VObj [("transaction",
         VObj [("updateId", VStr "upd-lock");
               ("events",
                VArr [VObj [("ExercisedEvent", VObj [("exerciseResult", VObj [])])];
                      VObj [("CreatedEvent", VObj [("contractId", VStr "lh1")])]])])].

Definition w_lock_created : World :=
  world cache (acs [holding "h1" alice "1000"] ++ [replies locked_created]).

(** *** A split on the ledger *)

(** Alice holds 500 and needs 200.  The ledger splits her holding into
    [h1a] and [h1b] and answers the Split with the pair of their ids. *)
Definition split_answer : value :=
  match Ledger.exercise_Split (held "h1" alice "500") "200" "h1a" "h1b" with
  | Some (exact, remainder) =>
      Ledger.response Ledger.AsRecord "upd-split" "pkg:Holding:AssetHolding" exact remainder
  | None => VNull
  end.

Definition w_split : World :=
  world cache (acs [holding "h1" alice "500"] ++ [replies split_answer]).

Definition w_split_queried : World := snd (queryAssetHoldings service alice w_split).

(** *** Balances *)


Definition lockedHeld (cid owner amount : string) : Contract LockedAssetHolding.Payload :=
  {| contractId := VStr cid;
     payload := {| LockedAssetHolding.issuer := admin; LockedAssetHolding.owner := owner;
                   LockedAssetHolding.custodian := admin;
                   LockedAssetHolding.assetType := "USDC";
                   LockedAssetHolding.amount := amount;
                   LockedAssetHolding.lockReason := "loan";
                   LockedAssetHolding.releaseTo := owner |} |}.

Definition lockedOwned (cid owner initial : string) : Contract LockedAmulet.Payload :=
  {| contractId := VStr cid;
     payload := asLockedAmulet
                  (VObj [("amulet", VObj [("dso", VStr "dso"); ("owner", VStr owner);
                                          ("amount", amuletAmount initial)]);
                         ("lock", VObj [("holders", VArr [VStr admin]);
                                        ("expiresAt", VStr "2026-06-30")])]) |}.

(** The loans, the amulets and the locked amulets of Alice's snapshot. *)
Definition alices_rest : list NetEvent :=
  acs [loan "loan1" alice bob "300" "2026-06-30" "offer1";
       loan "loan2" bob alice "700" "2026-03-31" "offer2"]
  ++ acs [amulet "a1" alice "2000.5"]
  ++ acs [lockedAmulet "la1" alice "100"].

(** The five queries for Alice, the ledger returning Bob's holding of 200
    between her two and his locked holding of 75 before hers; and the same
    without Bob's. *)
Definition w_with_bobs : World :=
  world cache
    (acs [holding "h1" alice "1000"; holding "h3" bob "200"; holding "h2" alice "500"]
     ++ acs [lockedHolding "l2" bob "75"; lockedHolding "l1" alice "250"]
     ++ alices_rest).

Definition w_without_bobs : World :=
  world cache
    (acs [holding "h1" alice "1000"; holding "h2" alice "500"]
     ++ acs [lockedHolding "l1" alice "250"]
     ++ alices_rest).


End Scenario.

(* ====================================================================== *)
(** * Properties *)
(* ====================================================================== *)

(** ** Running a computation step by step *)

Section Steps.
Context {N : JSNumber}.

Lemma bind_ok {A B} (m : M A) (k : A -> M B) (w w' : World) (a : A) :
  m w = (Ok a, w') -> bind m k w = k a w'.
Proof. intros H. unfold bind. rewrite H. reflexivity. Qed.

Lemma bind_throw {A B} (m : M A) (k : A -> M B) (w w' : World) (e : exn) :
  m w = (Throw e, w') -> bind m k w = (Throw e, w').
Proof. intros H. unfold bind. rewrite H. reflexivity. Qed.

Lemma bind_returns {A B} (m : M A) (k : A -> M B) (w w'' : World) (b : B) :
  bind m k w = (Ok b, w'') ->
  exists a w', m w = (Ok a, w') /\ k a w' = (Ok b, w'').
Proof.
  unfold bind. destruct (m w) as [[a | e] w'] eqn:E; intros H.
  - exists a, w'. split; [reflexivity | exact H].
  - discriminate H.
Qed.

Lemma lift_returns {A} (r : Res A) (w w' : World) (a : A) :
  lift r w = (Ok a, w') -> r = Ok a /\ w' = w.
Proof. unfold lift. intros H. inversion H. split; reflexivity. Qed.

Lemma ret_returns {A} (x a : A) (w w' : World) :
  ret x w = (Ok a, w') -> x = a /\ w' = w.
Proof. unfold ret. intros H. inversion H. split; reflexivity. Qed.

End Steps.

(** ** The token cache *)

Section TokenCache.
Context {N : JSNumber} {B : JSBuiltins}.
Variable this : Config.

Lemma still_valid_Some (cached : option CachedToken) (now : num) (c : CachedToken) :
  still_valid cached now = Some c <-> cached = Some c /\ num_gt (expiresAt c) now = true.
Proof.
  unfold still_valid. destruct cached as [c' |].
  - destruct (num_gt (expiresAt c') now) eqn:E; split.
    + intros H. inversion H. subst. split; [reflexivity | exact E].
    + intros [H _]. exact H.
    + intros H. discriminate H.
    + intros [H G]. inversion H. subst. congruence.
  - split; [intros H; discriminate H | intros [H _]; discriminate H].
Qed.

(** A valid entry is returned as it is: the world does not change, so no
    request is made. *)
Lemma getAuth0Token_hit (audience : string) (w : World) (c : CachedToken) :
  still_valid (tokenCache w !! audience) (clock w) = Some c ->
  getAuth0Token this audience w = (Ok (token c), w).
Proof.
  intros H. unfold getAuth0Token, bind, tokenCache_get, Date_now. rewrite H. reflexivity.
Qed.

(** Whatever a call that returns did, it leaves an entry holding the token
    it returned. *)
Lemma getAuth0Token_entry (audience : string) (w w1 : World) (t : value) :
  getAuth0Token this audience w = (Ok t, w1) ->
  exists c, tokenCache w1 !! audience = Some c /\ token c = t.
Proof.
  unfold getAuth0Token, bind, tokenCache_get, Date_now.
  destruct (still_valid (tokenCache w !! audience) (clock w)) as [c |] eqn:V.
  - unfold ret. intros H. inversion H. subst. apply still_valid_Some in V.
    exists c. split; [apply V | reflexivity].
  - destruct (customFetch (auth0TokenUrl this) (tokenRequest this audience) w)
      as [[response | e] w'] eqn:F; [| intros H; discriminate H].
    destruct (negb (ok response)).
    + unfold text, ret, throw. intros H. discriminate H.
    + unfold json, lift.
      destruct (JSON_parse (data response)) as [d | e]; [| intros H; discriminate H].
      destruct (get d "access_token") as [tok | e]; [| intros H; discriminate H].
      destruct (get d "expires_in") as [ei | e]; [| intros H; discriminate H].
      unfold tokenCache_set, ret. intros H. inversion H. subst.
      eexists. split; [apply lookup_insert_eq | reflexivity].
Qed.

(** The world an exchange leaves when the endpoint answers [data] at time
    [t]: one request more, the clock at [t], the entry of the audience
    replaced. *)
Definition exchanged (audience : string) (data : value) (rest : list NetEvent) (t : num)
    (w : World) : World :=
  set_tokenCache
    (<[audience := {| token := opt_get data "access_token";
                      expiresAt := expiry t (opt_get data "expires_in") |}]> (tokenCache w))
    (after_request (request_of (auth0TokenUrl this) (tokenRequest this audience)) rest t w).

Definition nullish (v : value) : bool :=
  match v with VUndef | VNull => true | _ => false end.

Lemma get_not_nullish (v : value) (k : string) :
  nullish v = false -> get v k = Ok (opt_get v k).
Proof. destruct v; simpl; intros H; try reflexivity; discriminate H. Qed.

(** Without a valid entry, a success reply carrying the JSON object [data]
    is cached and its [access_token] returned. *)
Lemma getAuth0Token_exchange (audience : string) (w : World) (st : num) (body : string)
    (t : num) (rest : list NetEvent) (data : value) :
  still_valid (tokenCache w !! audience) (clock w) = None ->
  URL_ok (auth0TokenUrl this) = true ->
  net w = Responds st body t :: rest ->
  num_ge st (num_of_Z 200) && num_lt st (num_of_Z 300) = true ->
  JSON_parse body = Ok data ->
  nullish data = false ->
  getAuth0Token this audience w
  = (Ok (opt_get data "access_token"), exchanged audience data rest t w).
Proof.
  intros V U Hnet Hok Hparse Hdata.
  unfold getAuth0Token, bind, tokenCache_get, Date_now. rewrite V.
  unfold customFetch. rewrite U, Hnet. simpl. rewrite Hok. simpl.
  unfold json, lift. simpl. rewrite Hparse.
  rewrite !(get_not_nullish _ _ Hdata). reflexivity.
Qed.

(** Without a valid entry a request goes to the token endpoint, whatever
    comes of it. *)
Lemma getAuth0Token_request (audience : string) (w : World) :
  still_valid (tokenCache w !! audience) (clock w) = None ->
  URL_ok (auth0TokenUrl this) = true ->
  sent (snd (getAuth0Token this audience w))
  = sent w ++ [request_of (auth0TokenUrl this) (tokenRequest this audience)].
Proof.
  intros V U.
  unfold getAuth0Token, bind, tokenCache_get, Date_now. rewrite V.
  unfold customFetch. rewrite U. simpl.
  destruct (net w) as [| [st body t | e t] rest]; simpl; try reflexivity.
  destruct (num_ge st (num_of_Z 200) && num_lt st (num_of_Z 300)); simpl; try reflexivity.
  unfold json, lift. simpl.
  destruct (JSON_parse body) as [d | e]; simpl; try reflexivity.
  destruct (get d "access_token") as [tok | e]; simpl; try reflexivity.
  destruct (get d "expires_in") as [ei | e]; simpl; reflexivity.
Qed.

(** C7.  Token cache.  (1) When a call returned a token and a later call
    finds the entry of the audience as that call left it and still valid
    ([expiresAt > Date.now()]), the later call returns the same token and
    leaves the world as it found it: no exchange.  (2) A call that finds no
    valid entry, so in particular one at or after [expiresAt], sends a
    request to the token endpoint; (3) when the endpoint answers a success
    with the JSON object [data] at time [t], the call returns its
    [access_token] and caches it with
    [expiresAt = t + (expires_in - 60) * 1000]. *)
Theorem C7_token_cache (audience : string) :
  (forall (w w1 w2 : World) (tok : value),
      getAuth0Token this audience w = (Ok tok, w1) ->
      tokenCache w2 !! audience = tokenCache w1 !! audience ->
      still_valid (tokenCache w1 !! audience) (clock w2) <> None ->
      getAuth0Token this audience w2 = (Ok tok, w2))
  /\ (forall w : World,
      still_valid (tokenCache w !! audience) (clock w) = None ->
      URL_ok (auth0TokenUrl this) = true ->
      sent (snd (getAuth0Token this audience w))
      = sent w ++ [request_of (auth0TokenUrl this) (tokenRequest this audience)])
  /\ (forall (w : World) (st : num) (body : string) (t : num) (rest : list NetEvent)
             (data : value),
      still_valid (tokenCache w !! audience) (clock w) = None ->
      URL_ok (auth0TokenUrl this) = true ->
      net w = Responds st body t :: rest ->
      num_ge st (num_of_Z 200) && num_lt st (num_of_Z 300) = true ->
      JSON_parse body = Ok data ->
      nullish data = false ->
      getAuth0Token this audience w
      = (Ok (opt_get data "access_token"),
         set_tokenCache
           (<[audience := {| token := opt_get data "access_token";
                             expiresAt :=
                               num_add t (num_mul (num_sub (ToNumber (opt_get data "expires_in"))
                                                     (num_of_Z 60)) (num_of_Z 1000)) |}]>
              (tokenCache w))
           (after_request (request_of (auth0TokenUrl this) (tokenRequest this audience))
              rest t w))).
Proof.
  split; [| split].
  - intros w w1 w2 tok H1 Hsame Hvalid.
    destruct (getAuth0Token_entry _ _ _ _ H1) as [c [Hc Htok]].
    destruct (still_valid (tokenCache w1 !! audience) (clock w2)) as [c' |] eqn:V;
      [| contradiction].
    subst tok. rewrite <- Hsame in V.
    rewrite (getAuth0Token_hit _ _ _ V).
    apply still_valid_Some in V. destruct V as [V _].
    rewrite Hsame, Hc in V. inversion V. reflexivity.
  - apply getAuth0Token_request.
  - intros w st body t rest data V U Hnet Hok Hparse Hdata.
    apply (getAuth0Token_exchange audience w st body t rest data); assumption.
Qed.

End TokenCache.

(** ** Holdings: which one is used *)

Section Holdings.
Context {N : JSNumber} {B : JSBuiltins}.
Variable this : Config.

(** [find] returns the first element that passes the test. *)
Lemma find_first {A} (p : A -> bool) (l : list A) (x : A) :
  List.find p l = Some x ->
  exists before after,
    l = before ++ x :: after /\ Forall (fun y => p y = false) before /\ p x = true.
Proof.
  induction l as [| a l IH]; simpl; intros H; [discriminate H |].
  destruct (p a) eqn:E.
  - inversion H. subst. exists [], l. repeat split; [constructor | exact E].
  - destruct (IH H) as [before [after [Hl [Hb Hx]]]].
    exists (a :: before), after. subst l. repeat split; [constructor; assumption | exact Hx].
Qed.

Lemma length_zero {A} (l : list A) : (length l =? 0)%nat = true <-> l = [].
Proof. destruct l; simpl; split; intros H; try reflexivity; discriminate H. Qed.

Lemma length_nonzero {A} (l : list A) : l <> [] -> (length l =? 0)%nat = false.
Proof. destruct l; simpl; intros H; [contradiction | reflexivity]. Qed.

(** The successor of a split is the holding that was split with the target
    in place of its amount, under a contract id that is not empty; making
    it submits nothing. *)
Lemma splitSuccessor_returns (log : bool) (h r : Contract AssetHolding.Payload) (amount : num)
    (splitResult : value) (w w' : World) :
  splitSuccessor log h amount splitResult w = (Ok r, w') ->
  payload r = AssetHolding.with_amount (payload h) (num_toString amount)
  /\ truthy (contractId r) = true
  /\ w' = w.
Proof.
  unfold splitSuccessor, bind, lift, ret.
  destruct (getExerciseResult splitResult) as [er | e]; [| intros H; discriminate H].
  destruct (truthy (splitAmountCid_of er)) eqn:T.
  - intros H. inversion H. subst. simpl. repeat split. exact T.
  - destruct (createdEvents splitResult) as [evs | e] eqn:C; [| intros H; discriminate H].
    destruct evs as [| first rest].
    + destruct log; unfold console_error, throw; intros H; discriminate H.
    + intros H. inversion H. subst. simpl. repeat split.
      unfold createdEvents in C.
      destruct (get splitResult "transaction") as [tr | e]; [| discriminate C]. simpl in C.
      destruct (as_array (or_else (opt_get tr "events") (VArr []))) as [es | e];
        [| discriminate C]. simpl in C.
      clear - C. revert first rest C.
      induction es as [| e0 es IH]; simpl; intros first rest C; [discriminate C |].
      destruct (get e0 "CreatedEvent") as [c | e]; [| discriminate C]. simpl in C.
      destruct (createdEventsOf es) as [evs | e]; [| discriminate C]. simpl in C.
      destruct (truthy (opt_get (or_else c (opt_get e0 "created")) "contractId")) eqn:T.
      * inversion C. subst. exact T.
      * inversion C. subst. apply (IH first rest). reflexivity.
Qed.

(** What [allocateExact] does once the holdings are known. *)
Lemma allocateExact_after_query (log : bool) (partyId : string) (amount : num) (w w1 : World)
    (holdings : list (Contract AssetHolding.Payload)) :
  queryAssetHoldings this partyId w = (Ok holdings, w1) ->
  allocateExact this log partyId amount w
  = (let usdcHoldings := List.filter (is_usdc_of partyId) holdings in
     if (length usdcHoldings =? 0)%nat then
       throw (Error ("No USDC holdings found for party " ++ partyId))
     else
       match List.find (fun h => num_eq (holding_amount h) amount) usdcHoldings with
       | Some exactMatch => ret exactMatch
       | None =>
           match List.find (fun h => num_ge (holding_amount h) amount) usdcHoldings with
           | None =>
               throw (Error ("Insufficient USDC balance. Need " ++ num_toString amount
                             ++ ", have " ++ num_toString (sum_by holding_amount usdcHoldings)))
           | Some largeEnough =>
               bind (submitCommand this [splitCmd this largeEnough amount] [partyId])
                 (splitSuccessor log largeEnough amount)
           end
       end) w1.
Proof.
  intros Q. unfold allocateExact. rewrite (bind_ok _ _ _ _ _ Q). reflexivity.
Qed.

(** C1, as the code has it.  Among the party's unlocked USDC holdings, in
    the order the ledger returned them: (1) with no holding at all the call
    fails with "No USDC holdings found"; (2) a holding whose amount equals
    the target is returned as it is, the first such, and nothing is
    submitted; (3) otherwise the first holding whose amount is at least the
    target is split, by one Split command for the target amount, and (4) the
    successor returned carries the target as its amount; (5) when holdings
    exist and none equals or covers the target, the call fails with
    "Insufficient USDC balance", reporting the target and the sum of the
    holdings. *)
Theorem C1_allocateExact_first_fit (log : bool) (partyId : string) (amount : num)
    (w w1 : World) (holdings : list (Contract AssetHolding.Payload)) :
  queryAssetHoldings this partyId w = (Ok holdings, w1) ->
  let usdcHoldings := List.filter (is_usdc_of partyId) holdings in
  let exact := fun h => num_eq (holding_amount h) amount in
  let enough := fun h => num_ge (holding_amount h) amount in
  (usdcHoldings = [] ->
   allocateExact this log partyId amount w
   = (Throw (Error ("No USDC holdings found for party " ++ partyId)), w1))
  /\ (forall h,
      List.find exact usdcHoldings = Some h ->
      allocateExact this log partyId amount w = (Ok h, w1)
      /\ exists before after,
           usdcHoldings = before ++ h :: after
           /\ Forall (fun x => exact x = false) before /\ exact h = true)
  /\ (forall h,
      List.find exact usdcHoldings = None ->
      List.find enough usdcHoldings = Some h ->
      allocateExact this log partyId amount w
      = bind (submitCommand this [splitCmd this h amount] [partyId])
          (splitSuccessor log h amount) w1
      /\ exists before after,
           usdcHoldings = before ++ h :: after
           /\ Forall (fun x => enough x = false) before /\ enough h = true)
  /\ (forall h r splitResult w2 w3,
      splitSuccessor log h amount splitResult w2 = (Ok r, w3) ->
      AssetHolding.amount (payload r) = num_toString amount
      /\ payload r = AssetHolding.with_amount (payload h) (num_toString amount)
      /\ truthy (contractId r) = true /\ w3 = w2)
  /\ (usdcHoldings <> [] ->
      List.find exact usdcHoldings = None ->
      List.find enough usdcHoldings = None ->
      allocateExact this log partyId amount w
      = (Throw (Error ("Insufficient USDC balance. Need " ++ num_toString amount
                       ++ ", have " ++ num_toString (sum_by holding_amount usdcHoldings))),
         w1)).
Proof.
  intros Q usdcHoldings exact enough.
  pose proof (allocateExact_after_query log partyId amount w w1 holdings Q) as A.
  cbv zeta in A. fold usdcHoldings in A. fold exact in A. fold enough in A.
  repeat split.
  - intros E. rewrite A. rewrite (proj2 (length_zero _) E). reflexivity.
  - rewrite A. destruct usdcHoldings as [| u us]; [discriminate H |].
    simpl length. simpl Nat.eqb. cbv iota. rewrite H. reflexivity.
  - apply find_first. exact H.
  - rewrite A. destruct usdcHoldings as [| u us]; [discriminate H0 |].
    simpl length. simpl Nat.eqb. cbv iota. rewrite H, H0. reflexivity.
  - apply find_first. exact H0.
  - destruct (splitSuccessor_returns _ _ _ _ _ _ _ H) as [P _]. rewrite P. reflexivity.
  - apply (splitSuccessor_returns _ _ _ _ _ _ _ H).
  - apply (splitSuccessor_returns _ _ _ _ _ _ _ H).
  - apply (splitSuccessor_returns _ _ _ _ _ _ _ H).
  - intros NE E1 E2. rewrite A. rewrite (length_nonzero _ NE). rewrite E1, E2. reflexivity.
Qed.

(** What [repaymentHolding] does once the holdings are known. *)
Lemma repaymentHolding_after_query (partyId : string) (repaymentAmount : num) (w w1 : World)
    (holdings : list (Contract AssetHolding.Payload)) :
  queryAssetHoldings this partyId w = (Ok holdings, w1) ->
  forall h,
    List.find (fun h => num_lt (num_abs (num_sub (holding_amount h) repaymentAmount)) num_cent)
      (List.filter (is_usdc_of partyId) holdings) = Some h ->
    repaymentHolding this partyId repaymentAmount w = (Ok (contractId h), w1).
Proof.
  intros Q h F. unfold repaymentHolding. rewrite (bind_ok _ _ _ _ _ Q).
  destruct (List.filter (is_usdc_of partyId) holdings) as [| u us]; [discriminate F |].
  simpl length. simpl Nat.eqb. cbv iota. rewrite F. reflexivity.
Qed.

(** C10.  With the holdings the ledger returned: (1) [repayLoan] pays with
    the first holding whose amount is less than 0.01 away from the repayment
    amount, as it is, submitting no split; (2) the lock and transfer paths
    return an existing holding only when its amount is strictly equal to the
    target, and (3) without such a holding they split or fail. *)
Theorem C10_repay_tolerance (partyId : string) (amount : num) (w w1 : World)
    (holdings : list (Contract AssetHolding.Payload)) :
  queryAssetHoldings this partyId w = (Ok holdings, w1) ->
  let usdcHoldings := List.filter (is_usdc_of partyId) holdings in
  let near := fun h => num_lt (num_abs (num_sub (holding_amount h) amount)) num_cent in
  let exact := fun h => num_eq (holding_amount h) amount in
  let enough := fun h => num_ge (holding_amount h) amount in
  (forall h,
      List.find near usdcHoldings = Some h ->
      repaymentHolding this partyId amount w = (Ok (contractId h), w1))
  /\ (forall log h,
      List.find exact usdcHoldings = Some h ->
      allocateExact this log partyId amount w = (Ok h, w1))
  /\ (forall log,
      usdcHoldings <> [] ->
      List.find exact usdcHoldings = None ->
      allocateExact this log partyId amount w
      = match List.find enough usdcHoldings with
        | Some h =>
            bind (submitCommand this [splitCmd this h amount] [partyId])
              (splitSuccessor log h amount) w1
        | None =>
            (Throw (Error ("Insufficient USDC balance. Need " ++ num_toString amount
                           ++ ", have " ++ num_toString (sum_by holding_amount usdcHoldings))),
             w1)
        end).
Proof.
  intros Q usdcHoldings near exact enough. split; [| split].
  - intros h F. apply (repaymentHolding_after_query _ _ _ _ _ Q h F).
  - intros log h F.
    rewrite (allocateExact_after_query log partyId amount w w1 holdings Q).
    cbv zeta. fold usdcHoldings. fold exact.
    destruct usdcHoldings as [| u us]; [discriminate F |].
    simpl length. simpl Nat.eqb. cbv iota. rewrite F. reflexivity.
  - intros log NE F.
    rewrite (allocateExact_after_query log partyId amount w w1 holdings Q).
    cbv zeta. fold usdcHoldings. fold exact. fold enough.
    rewrite (length_nonzero _ NE). rewrite F.
    destruct (List.find enough usdcHoldings) as [h |]; reflexivity.
Qed.

End Holdings.

(** ** Balances *)

Section Balances.
Context {N : JSNumber} {B : JSBuiltins}.
Variable this : Config.

(** The snapshot made of the results of the five queries. *)
Definition snapshot (partyId : string)
    (holdings : list (Contract AssetHolding.Payload))
    (lockedHoldings : list (Contract LockedAssetHolding.Payload))
    (activeLoans : list (Contract ActiveLoanHybrid.Payload))
    (amulets : list (Contract Amulet.Payload))
    (lockedAmulets : list (Contract LockedAmulet.Payload))
    : TokenBalance.t * TokenBalance.t :=
  let usdcAvailable := sum_by holding_amount (List.filter (is_usdc_of partyId) holdings) in
  let usdcLocked :=
    sum_by (fun h => parseFloat (LockedAssetHolding.amount (payload h)))
      (List.filter (is_locked_usdc_of partyId) lockedHoldings) in
  let ccAvailable := sum_by (fun a => calculateAmuletAmount (Amulet.amount (payload a))) amulets in
  let ccLocked :=
    sum_by (fun a => calculateAmuletAmount (Amulet.amount (LockedAmulet.amulet (payload a))))
      lockedAmulets in
  ({| TokenBalance.assetType := "USDC";
      TokenBalance.available := usdcAvailable;
      TokenBalance.locked := usdcLocked;
      TokenBalance.borrowed :=
        sum_by (fun loan => parseFloat (ActiveLoanHybrid.principal (payload loan)))
          (List.filter (fun loan => String.eqb (ActiveLoanHybrid.borrower (payload loan)) partyId)
             activeLoans);
      TokenBalance.total := num_add usdcAvailable usdcLocked |},
   {| TokenBalance.assetType := "CC";
      TokenBalance.available := ccAvailable;
      TokenBalance.locked := ccLocked;
      TokenBalance.borrowed := num_of_Z 0;
      TokenBalance.total := num_add ccAvailable ccLocked |}).

(** [getTokenBalances] returns exactly when its five queries do, with the
    snapshot made of their results. *)
Lemma getTokenBalances_returns (partyId : string) (w w' : World)
    (r : TokenBalance.t * TokenBalance.t) :
  getTokenBalances this partyId w = (Ok r, w') <->
  exists holdings w1 lockedHoldings w2 activeLoans w3 amulets w4 lockedAmulets,
    queryAssetHoldings this partyId w = (Ok holdings, w1)
    /\ queryLockedAssetHoldings this partyId w1 = (Ok lockedHoldings, w2)
    /\ queryActiveLoans this partyId w2 = (Ok activeLoans, w3)
    /\ queryAmulets this partyId w3 = (Ok amulets, w4)
    /\ queryLockedAmulets this partyId w4 = (Ok lockedAmulets, w')
    /\ r = snapshot partyId holdings lockedHoldings activeLoans amulets lockedAmulets.
Proof.
  unfold getTokenBalances. split.
  - intros H.
    apply bind_returns in H. destruct H as [holdings [w1 [Q1 H]]].
    apply bind_returns in H. destruct H as [lockedHoldings [w2 [Q2 H]]].
    apply bind_returns in H. destruct H as [activeLoans [w3 [Q3 H]]].
    apply bind_returns in H. destruct H as [amulets [w4 [Q4 H]]].
    apply bind_returns in H. destruct H as [lockedAmulets [w5 [Q5 H]]].
    apply ret_returns in H. destruct H as [Hr Hw]. subst w5.
    exists holdings, w1, lockedHoldings, w2, activeLoans, w3, amulets, w4, lockedAmulets.
    repeat split; try assumption. symmetry. exact Hr.
  - intros [holdings [w1 [lockedHoldings [w2 [activeLoans [w3 [amulets [w4 [lockedAmulets
             [Q1 [Q2 [Q3 [Q4 [Q5 Hr]]]]]]]]]]]]]].
    rewrite (bind_ok _ _ _ _ _ Q1), (bind_ok _ _ _ _ _ Q2), (bind_ok _ _ _ _ _ Q3),
      (bind_ok _ _ _ _ _ Q4), (bind_ok _ _ _ _ _ Q5).
    subst r. reflexivity.
Qed.

(** A holding that is not the party's USDC adds nothing to a filtered
    list. *)
Lemma filter_none {A} (p : A -> bool) (l : list A) :
  Forall (fun x => p x = false) l -> List.filter p l = [].
Proof.
  induction 1 as [| x l Hx _ IH]; [reflexivity |]. cbn [List.filter]. rewrite Hx. exact IH.
Qed.


End Balances.

(** ** Splits *)

Section Splits.
Context {JS : JSNumber} {B : JSBuiltins}.
Variable this : Config.
Import Ledger.

Lemma digit_value_char (d : N) : (d < 10)%N -> digit_value (digit_char d) = Some d.
Proof.
  intros H. unfold digit_value, digit_char.
  rewrite N_ascii_embedding by lia.
  replace ((48 <=? 48 + d) && (48 + d <=? 57))%N with true.
  - f_equal. lia.
  - symmetry. apply andb_true_iff. split; apply N.leb_le; lia.
Qed.

Lemma read_show_frac (k : nat) (f : N) :
  (f < 10 ^ N.of_nat k)%N -> read_frac k (show_frac k f) = Some f.
Proof.
  revert f. induction k as [| k IH]; intros f H.
  - simpl in *. f_equal. lia.
  - cbn [show_frac read_frac].
    assert (P : (0 < 10 ^ N.of_nat k)%N) by (apply N.neq_0_lt_0, N.pow_nonzero; lia).
    rewrite digit_value_char.
    + rewrite IH by (apply N.mod_lt; lia).
      f_equal. rewrite N.mul_comm. symmetry. apply N.div_mod. lia.
    + apply N.Div0.div_lt_upper_bound.
      replace (N.of_nat (S k)) with (N.succ (N.of_nat k)) in H by lia.
      rewrite N.pow_succ_r' in H. lia.
Qed.

Lemma append_cons (a : ascii) (s r : string) :
  (String a s ++ r)%string = String a (s ++ r).
Proof. reflexivity. Qed.

Lemma append_empty (s : string) : (s ++ "")%string = s.
Proof.
  induction s as [| a s IH]; [reflexivity |]. rewrite append_cons, IH. reflexivity.
Qed.

(** The digits of a number hold no point. *)
Lemma at_point_digits (u : Decimal.uint) (r : string) :
  at_point (NilEmpty.string_of_uint u ++ r)
  = let '(b, g) := at_point r in ((NilEmpty.string_of_uint u ++ b)%string, g).
Proof.
  induction u; cbn [NilEmpty.string_of_uint];
    try (rewrite !append_cons; cbn [at_point Ascii.eqb Bool.eqb]; rewrite IHu;
         destruct (at_point r); reflexivity).
  change (("" ++ r)%string) with r. destruct (at_point r) as [b g].
  change (("" ++ b)%string) with b. reflexivity.
Qed.

Lemma at_point_uint (u : Decimal.uint) (r : string) :
  at_point (NilZero.string_of_uint u ++ r)
  = let '(b, g) := at_point r in ((NilZero.string_of_uint u ++ b)%string, g).
Proof.
  destruct u; try apply at_point_digits.
  change (NilZero.string_of_uint Decimal.Nil) with "0".
  rewrite !append_cons. cbn [at_point Ascii.eqb Bool.eqb].
  change (("" ++ r)%string) with r. destruct (at_point r) as [b g].
  rewrite append_cons. change (("" ++ b)%string) with b. reflexivity.
Qed.

Lemma to_uint_nonnil (n : N) : N.to_uint n <> Decimal.Nil.
Proof.
  destruct n; simpl; [discriminate | apply DecimalPos.Unsigned.to_uint_nonnil].
Qed.

(** Reading the decimal string of an amount gives the amount back. *)
Lemma read_show (a : N) : read (show a) = Some a.
Proof.
  unfold read, show.
  assert (S : (scale <> 0)%N) by (unfold scale; apply N.pow_nonzero; lia).
  rewrite at_point_uint.
  destruct (a mod scale =? 0)%N eqn:E.
  - change (at_point "") with (EmptyString, @None string).
    cbv iota beta. rewrite append_empty.
    rewrite NilZero.usu by apply to_uint_nonnil.
    rewrite DecimalN.Unsigned.of_to. f_equal.
    apply N.eqb_eq in E. rewrite (N.div_mod a scale S) at 2. lia.
  - change (at_point ("." ++ show_frac 10 (a mod scale)))
      with (EmptyString, Some (show_frac 10 (a mod scale))).
    cbv iota beta. rewrite append_empty.
    rewrite NilZero.usu by apply to_uint_nonnil.
    rewrite DecimalN.Unsigned.of_to.
    rewrite read_show_frac by (apply N.mod_lt; exact S).
    f_equal. rewrite (N.div_mod a scale S) at 3. lia.
Qed.

(** What the service makes of the ledger's answer to a Split: the holding
    that was split, under the contract id of the exact successor and with
    the target printed as its amount. *)
Lemma splitSuccessor_of_response (log : bool) (format : TupleFormat) (updateId tpl : string)
    (h exact remainder : Contract AssetHolding.Payload) (amount : num) (exactId : string)
    (w : World) :
  exactId <> "" ->
  contractId exact = VStr exactId ->
  splitSuccessor log h amount (response format updateId tpl exact remainder) w
  = (Ok {| contractId := VStr exactId;
           payload := AssetHolding.with_amount (payload h) (num_toString amount) |}, w).
Proof.
  intros Hne He.
  assert (T : negb (String.eqb exactId "") = true)
    by (apply negb_true_iff, String.eqb_neq; exact Hne).
  destruct exact as [eid ep]. cbn [contractId] in He. subst eid.
  unfold splitSuccessor, response, created, exercised, bind, lift, ret.
  destruct format; cbn; unfold splitAmountCid_of, or_else; cbn; rewrite ?T; cbn; rewrite ?T;
    reflexivity.
Qed.

(** C2.  Take a holding whose decimal string writes the amount [a] and a
    target that the service prints as a decimal string writing [x], with
    [0 < x < a].  On the ledger as the specification describes it, the
    Split the service asks for, by a command that carries the target
    printed as [splitAmount], leaves exactly two successors, new contracts:
    the exact one writes [x], the remainder writes [r] with [x + r = a] in
    exact decimal arithmetic, and both keep the other fields of the
    original.  In the service, whenever the holding is the one selected
    for the split and the ledger answers the command with that
    transaction, in any of the shapes the service reads, the allocation
    returns the exact successor: its contract id, its fields, and an amount
    string that writes [x]. *)
Theorem C2_split_exact (log : bool) (format : TupleFormat)
    (updateId exactId remainderId : string)
    (h : Contract AssetHolding.Payload) (amount : num) (a x : N) :
  read (AssetHolding.amount (payload h)) = Some a ->
  read (num_toString amount) = Some x ->
  (0 < x)%N -> (x < a)%N ->
  exactId <> "" ->
  exists exact remainder r,
    exercise_Split h (num_toString amount) exactId remainderId = Some (exact, remainder)
    /\ contractId exact = VStr exactId
    /\ contractId remainder = VStr remainderId
    /\ read (AssetHolding.amount (payload exact)) = Some x
    /\ read (AssetHolding.amount (payload remainder)) = Some r
    /\ (x + r = a)%N
    /\ payload exact
       = AssetHolding.with_amount (payload h) (AssetHolding.amount (payload exact))
    /\ payload remainder
       = AssetHolding.with_amount (payload h) (AssetHolding.amount (payload remainder))
    /\ splitCmd this h amount
       = exerciseCmd (templateId this "Holding:AssetHolding") (contractId h) "Split"
           (VObj [("splitAmount", VStr (num_toString amount))])
    /\ forall (partyId : string) (holdings : list (Contract AssetHolding.Payload))
              (w w1 w2 : World),
         queryAssetHoldings this partyId w = (Ok holdings, w1) ->
         List.find (fun c => num_eq (holding_amount c) amount)
           (List.filter (is_usdc_of partyId) holdings) = None ->
         List.find (fun c => num_ge (holding_amount c) amount)
           (List.filter (is_usdc_of partyId) holdings) = Some h ->
         submitCommand this [splitCmd this h amount] [partyId] w1
         = (Ok (response format updateId (templateId this "Holding:AssetHolding")
                  exact remainder), w2) ->
         exists held,
           allocateExact this log partyId amount w = (Ok held, w2)
           /\ contractId held = contractId exact
           /\ read (AssetHolding.amount (payload held)) = Some x
           /\ payload held = AssetHolding.with_amount (payload exact) (num_toString amount).
Proof.
  intros Ha Hx P L Hne.
  exists {| contractId := VStr exactId;
            payload := AssetHolding.with_amount (payload h) (show x) |},
    {| contractId := VStr remainderId;
       payload := AssetHolding.with_amount (payload h) (show (a - x)) |},
    (a - x)%N.
  split.
  { unfold exercise_Split, Split. rewrite Ha, Hx.
    replace ((0 <? x) && (x <? a))%N with true
      by (symmetry; apply andb_true_iff; split; apply N.ltb_lt; assumption).
    reflexivity. }
  cbn [contractId payload AssetHolding.with_amount AssetHolding.amount AssetHolding.issuer
       AssetHolding.owner AssetHolding.custodian AssetHolding.assetType].
  rewrite !read_show.
  do 8 (split; [first [reflexivity | f_equal; lia] |]).
  intros partyId holdings w w1 w2 Q E G S.
  exists {| contractId := VStr exactId;
            payload := AssetHolding.with_amount (payload h) (num_toString amount) |}.
  split; [| cbn [contractId payload AssetHolding.with_amount AssetHolding.amount];
            repeat split; exact Hx].
  rewrite (allocateExact_after_query this log partyId amount w w1 holdings Q).
  cbv zeta. rewrite E, G.
  rewrite length_nonzero by (intros F; rewrite F in G; discriminate G).
  rewrite (bind_ok _ _ _ _ _ S).
  apply splitSuccessor_of_response; [exact Hne | reflexivity].
Qed.

End Splits.

(** ** Dates *)

Section Dates.

Lemma digit_compare (i j : nat) :
  i < 10 -> j < 10 -> Ascii.compare (digit i) (digit j) = Nat.compare i j.
Proof.
  intros Hi Hj.
  do 10 (destruct i as [| i];
         [do 10 (destruct j as [| j]; [reflexivity |]); lia |]).
  lia.
Qed.

Lemma two_digits_app (a : nat) (s : string) :
  (two_digits a ++ s)%string = String (digit (a / 10)) (String (digit (a mod 10)) s).
Proof. reflexivity. Qed.

(** Two blocks of two digits compare as the numbers they write, then by
    what follows. *)
Lemma two_digits_compare (a b : nat) (s t : string) :
  a < 100 -> b < 100 ->
  String.compare (two_digits a ++ s) (two_digits b ++ t)
  = match Nat.compare a b with
    | Eq => String.compare s t
    | c => c
    end.
Proof.
  intros Ha Hb. rewrite !two_digits_app. cbn [String.compare].
  assert (Ha1 : a / 10 < 10) by (apply Nat.Div0.div_lt_upper_bound; lia).
  assert (Hb1 : b / 10 < 10) by (apply Nat.Div0.div_lt_upper_bound; lia).
  assert (Ha2 : a mod 10 < 10) by (apply Nat.mod_upper_bound; lia).
  assert (Hb2 : b mod 10 < 10) by (apply Nat.mod_upper_bound; lia).
  rewrite (digit_compare _ _ Ha1 Hb1), (digit_compare _ _ Ha2 Hb2).
  pose proof (Nat.div_mod_eq a 10) as Ea. pose proof (Nat.div_mod_eq b 10) as Eb.
  destruct (Nat.compare_spec (a / 10) (b / 10)) as [E1 | L1 | G1].
  - destruct (Nat.compare_spec (a mod 10) (b mod 10)) as [E2 | L2 | G2].
    + assert (a = b) as -> by lia. rewrite Nat.compare_refl. reflexivity.
    + assert (L : a < b) by lia. apply Nat.compare_lt_iff in L. rewrite L. reflexivity.
    + assert (G : b < a) by lia. apply Nat.compare_gt_iff in G. rewrite G. reflexivity.
  - assert (L : a < b) by lia. apply Nat.compare_lt_iff in L. rewrite L. reflexivity.
  - assert (G : b < a) by lia. apply Nat.compare_gt_iff in G. rewrite G. reflexivity.
Qed.

Lemma dash_compare (s t : string) :
  String.compare ("-" ++ s) ("-" ++ t) = String.compare s t.
Proof. reflexivity. Qed.

(** On dates written [YYYY-MM-DD] the order of the strings is the order of
    the calendar. *)
Lemma iso_date_ltb (y1 m1 d1 y2 m2 d2 : nat) :
  y1 < 100 * 100 -> y2 < 100 * 100 -> m1 < 100 -> m2 < 100 -> d1 < 100 -> d2 < 100 ->
  String.ltb (iso_date y1 m1 d1) (iso_date y2 m2 d2) = true
  <-> date_before y1 m1 d1 y2 m2 d2.
Proof.
  intros Y1 Y2 M1 M2 D1 D2. unfold String.ltb, iso_date, date_before.
  assert (Ya : y1 / 100 < 100) by (apply Nat.Div0.div_lt_upper_bound; lia).
  assert (Yb : y2 / 100 < 100) by (apply Nat.Div0.div_lt_upper_bound; lia).
  assert (Yc : y1 mod 100 < 100) by (apply Nat.mod_upper_bound; lia).
  assert (Yd : y2 mod 100 < 100) by (apply Nat.mod_upper_bound; lia).
  rewrite (two_digits_compare _ _ _ _ Ya Yb), (two_digits_compare _ _ _ _ Yc Yd),
    dash_compare, (two_digits_compare _ _ _ _ M1 M2), dash_compare.
  assert (E : forall d, two_digits d = (two_digits d ++ "")%string) by reflexivity.
  rewrite (E d1), (E d2). clear E.
  rewrite (two_digits_compare _ _ _ _ D1 D2). cbn [String.compare].
  pose proof (Nat.div_mod_eq y1 100) as E1. pose proof (Nat.div_mod_eq y2 100) as E2.
  destruct (Nat.compare_spec (y1 / 100) (y2 / 100));
    destruct (Nat.compare_spec (y1 mod 100) (y2 mod 100));
    destruct (Nat.compare_spec m1 m2);
    destruct (Nat.compare_spec d1 d2);
    split; intros HH; try reflexivity; try discriminate HH; try lia.
Qed.

End Dates.

(** ** The loan life cycle *)

Section LoanLifecycle.
Context {N : JSNumber} {B : JSBuiltins}.
Variable this : Config.

Lemma lockUSDC_returns (partyId : string) (amount : num) (lockReason releaseTo : string)
    (w w' : World) (lockedCid : value) :
  lockUSDC this partyId amount lockReason releaseTo w = (Ok lockedCid, w') ->
  truthy lockedCid = true.
Proof.
  unfold lockUSDC. intros H.
  apply bind_returns in H. destruct H as [h [w1 [_ H]]].
  apply bind_returns in H. destruct H as [lockResult [w2 [_ H]]].
  apply bind_returns in H. destruct H as [er [w3 [_ H]]].
  apply bind_returns in H. destruct H as [cid [w4 [_ H]]].
  destruct (truthy cid) eqn:T; simpl in H.
  - apply ret_returns in H. destruct H as [E _]. subst. exact T.
  - unfold bind, console_error, throw in H. discriminate H.
Qed.

(** The lock reference of an offer, by offer type. *)
Definition lockOf (offerType : OfferType) (locks : value * value) : value :=
  match offerType with
  | BorrowerBid => fst locks
  | LenderAsk => snd locks
  end.

Lemma offerLocks_returns (partyId : string) (offer : OfferSpec.t) (userToken : option string)
    (w w' : World) (locks : value * value) :
  offerLocks this partyId offer userToken w = (Ok locks, w') ->
  match OfferSpec.offerType offer with
  | BorrowerBid =>
      snd locks = VNull
      /\ exists expiresAt,
           Date_toISOString (Date_getTime (OfferSpec.maturityDate offer ++ "T23:59:59Z"))
           = Ok expiresAt
           /\ lockAmulet this partyId (parseFloat (OfferSpec.collateralAmount offer))
                (adminPartyId this) expiresAt userToken w
              = (Ok (fst locks), w')
  | LenderAsk =>
      fst locks = VNull
      /\ truthy (snd locks) = true
      /\ lockUSDC this partyId (parseFloat (OfferSpec.loanAmount offer))
           ("LenderAsk for " ++ OfferSpec.loanAmount offer ++ " USDC loan") partyId w
         = (Ok (snd locks), w')
  end.
Proof.
  unfold offerLocks. destruct (OfferSpec.offerType offer); intros H.
  - apply bind_returns in H. destruct H as [expiresAt [w1 [D H]]].
    apply lift_returns in D. destruct D as [D Hw]. subst w1.
    apply bind_returns in H. destruct H as [cid [w2 [L H]]].
    apply ret_returns in H. destruct H as [E Hw]. subst. simpl.
    split; [reflexivity |]. exists expiresAt. split; assumption.
  - apply bind_returns in H. destruct H as [cid [w2 [L H]]].
    apply ret_returns in H. destruct H as [E Hw]. subst. simpl.
    split; [reflexivity |]. split; [| exact L].
    apply (lockUSDC_returns _ _ _ _ _ _ _ L).
Qed.

(** Every [createLoanOffer] that returns has locked one asset and
    submitted one create command whose arguments carry the result of that
    lock in the field of the offer type and [null] in the other: for a
    BorrowerBid, [lockedCCCollateral] is what [lockAmulet] returned for the
    collateral amount, whatever it is, and [lockedUSDCPrincipal] is [null];
    for a LenderAsk, [lockedUSDCPrincipal] is what [lockUSDC] returned for
    the loan amount, which is not empty, and [lockedCCCollateral] is
    [null].  The arguments also carry the configured [defaultLtv] and
    [ccPrice], printed, and the date of the clock as [createdAt]. *)
Theorem createLoanOffer_lock_fields (partyId : string) (offer : OfferSpec.t)
    (userToken : option string) (w w' : World) (result : value) :
  createLoanOffer this partyId offer userToken w = (Ok result, w') ->
  exists today w0 lockRef w1 args,
    today_iso w = (Ok today, w0)
    /\ match OfferSpec.offerType offer with
       | BorrowerBid =>
           (exists expiresAt,
               Date_toISOString (Date_getTime (OfferSpec.maturityDate offer ++ "T23:59:59Z"))
               = Ok expiresAt
               /\ lockAmulet this partyId (parseFloat (OfferSpec.collateralAmount offer))
                    (adminPartyId this) expiresAt userToken w0
                  = (Ok lockRef, w1))
           /\ opt_get args "lockedCCCollateral" = lockRef
           /\ opt_get args "lockedUSDCPrincipal" = VNull
       | LenderAsk =>
           lockUSDC this partyId (parseFloat (OfferSpec.loanAmount offer))
             ("LenderAsk for " ++ OfferSpec.loanAmount offer ++ " USDC loan") partyId w0
           = (Ok lockRef, w1)
           /\ truthy lockRef = true
           /\ opt_get args "lockedUSDCPrincipal" = lockRef
           /\ opt_get args "lockedCCCollateral" = VNull
       end
    /\ submitCommand this
         [createCmd (templateId this "LoanOfferHybrid:LoanOfferHybrid") args] [partyId] w1
       = (Ok result, w')
    /\ opt_get args "offerType" = VStr (OfferType_string (OfferSpec.offerType offer))
    /\ opt_get args "ltvRatio" = VStr (num_toString (defaultLtv this))
    /\ opt_get args "ccPrice" = VStr (num_toString (ccPrice this))
    /\ opt_get args "createdAt" = VStr today.
Proof.
  unfold createLoanOffer. intros H.
  apply bind_returns in H. destruct H as [today [w0 [T H]]].
  apply bind_returns in H. destruct H as [locks [w1 [L H]]].
  exists today, w0, (lockOf (OfferSpec.offerType offer) locks), w1,
    (offerArguments this partyId offer (fst locks) (snd locks) today).
  split; [exact T |].
  apply offerLocks_returns in L.
  split; [| split; [exact H | repeat split]].
  destruct (OfferSpec.offerType offer); simpl.
  - destruct L as [S [expiresAt [D A]]]. split; [| split].
    + exists expiresAt. split; assumption.
    + reflexivity.
    + exact S.
  - destruct L as [F [Tr U]]. repeat split; assumption.
Qed.

(** The steps of [repayLoan] and [defaultLoan] up to their ledger command. *)
Lemma bestEffort_skipped (what : string) (release : M unit) (w : World) :
  bestEffort "" what release w = (Ok tt, w).
Proof. reflexivity. Qed.

Lemma bestEffort_released (ref what : string) (release : M unit) (w w' : World) :
  ref <> "" -> release w = (Ok tt, w') -> bestEffort ref what release w = (Ok tt, w').
Proof.
  intros NE R. unfold bestEffort.
  destruct (String.eqb_spec ref ""); [contradiction |]. simpl.
  unfold try_catch. rewrite R. reflexivity.
Qed.

Lemma bestEffort_failed (ref what : string) (release : M unit) (w w' : World) (e : exn) :
  ref <> "" -> release w = (Throw e, w') ->
  bestEffort ref what release w
  = (Ok tt, add_console ("[Amulet] Failed to " ++ what ++ " CC collateral: " ++ exn_toString e) w').
Proof.
  intros NE R. unfold bestEffort.
  destruct (String.eqb_spec ref ""); [contradiction |]. simpl.
  unfold try_catch. rewrite R. reflexivity.
Qed.

(** Best effort never throws. *)
Lemma bestEffort_total (ref what : string) (release : M unit) (w : World) :
  exists w', bestEffort ref what release w = (Ok tt, w').
Proof.
  unfold bestEffort. destruct (negb (String.eqb ref "")).
  - unfold try_catch. destruct (release w) as [[[] | e] w'].
    + exists w'. reflexivity.
    + eexists. unfold console_error. reflexivity.
  - exists w. reflexivity.
Qed.

(** C6.  When the RepayHybrid command of [repayLoan] succeeded with
    [repayResult], the call returns [repayResult] whatever becomes of the
    unlock of the collateral: (1) with no collateral reference nothing is
    tried; (2) a successful withdrawal is silent; (3) a withdrawal that
    throws [e] is written to the console and not raised. *)
Theorem C6_repay_unlock_best_effort (partyId loanContractId : string) (repaymentAmount : num)
    (userToken : option string) (w w0 w1 w2 w3 : World) (today : string)
    (loans : list (Contract ActiveLoanHybrid.Payload)) (loan : Contract ActiveLoanHybrid.Payload)
    (repaymentHoldingCid repayResult : value) :
  today_iso w = (Ok today, w0) ->
  queryActiveLoans this partyId w0 = (Ok loans, w1) ->
  find_loan loanContractId loans = Some loan ->
  repaymentHolding this partyId repaymentAmount w1 = (Ok repaymentHoldingCid, w2) ->
  submitCommand this [repayCmd this loanContractId today repaymentHoldingCid]
    [partyId; ActiveLoanHybrid.lender (payload loan)] w2 = (Ok repayResult, w3) ->
  let ccCollateralRef := ActiveLoanHybrid.ccCollateralReference (payload loan) in
  (ccCollateralRef = "" ->
   repayLoan this partyId loanContractId repaymentAmount userToken w = (Ok repayResult, w3))
  /\ (forall r w4,
      ccCollateralRef <> "" ->
      unlockAmulet this ccCollateralRef partyId userToken w3 = (Ok r, w4) ->
      repayLoan this partyId loanContractId repaymentAmount userToken w = (Ok repayResult, w4))
  /\ (forall e w4,
      ccCollateralRef <> "" ->
      unlockAmulet this ccCollateralRef partyId userToken w3 = (Throw e, w4) ->
      repayLoan this partyId loanContractId repaymentAmount userToken w
      = (Ok repayResult,
         add_console ("[Amulet] Failed to unlock CC collateral: " ++ exn_toString e) w4)).
Proof.
  intros T Q F R S ccCollateralRef.
  unfold repayLoan.
  rewrite (bind_ok _ _ _ _ _ T), (bind_ok _ _ _ _ _ Q), F,
    (bind_ok _ _ _ _ _ R), (bind_ok _ _ _ _ _ S).
  fold ccCollateralRef.
  split; [| split].
  - intros E. rewrite E. reflexivity.
  - intros r w4 NE U.
    rewrite (bind_ok _ _ _ _ _ (bestEffort_released _ _ _ _ w4 NE
               (bind_ok _ _ _ _ _ U))). reflexivity.
  - intros e w4 NE U.
    rewrite (bind_ok _ _ _ _ _ (bestEffort_failed _ _ _ _ w4 e NE
               (bind_throw _ _ _ _ _ U))). reflexivity.
Qed.

(** C5.  For a loan the ledger returned: (1) when the claim date is
    before the maturity date, in the order [<] of the two strings,
    [defaultLoan] throws "Loan has not matured yet" in the world the query of
    the loans left, so before any command is submitted; (2) otherwise it
    submits the ClaimDefaultHybrid command for the lender and the borrower,
    and when that command succeeds with [defaultResult] the call returns
    [defaultResult] whether the escrow offer is absent, accepted, or its
    acceptance throws, in which case the error is written to the console;
    when the command throws, the call throws the same; (3) without an
    override the claim date is today's date; (4) for two dates written
    [YYYY-MM-DD] the order of the strings is the order of the calendar. *)
Theorem C5_default_after_maturity (partyId loanContractId : string)
    (overrideClaimDate userToken : option string) (w w0 w1 : World) (today : string)
    (loans : list (Contract ActiveLoanHybrid.Payload)) (loan : Contract ActiveLoanHybrid.Payload) :
  today_iso w = (Ok today, w0) ->
  queryActiveLoans this partyId w0 = (Ok loans, w1) ->
  find_loan loanContractId loans = Some loan ->
  let claimDate := claimDate_of overrideClaimDate today in
  let maturityDate := ActiveLoanHybrid.maturityDate (payload loan) in
  let borrower := ActiveLoanHybrid.borrower (payload loan) in
  let ccCollateralRef := ActiveLoanHybrid.ccCollateralReference (payload loan) in
  let accept :=
    walletApiFetch this ("transfer-offers/" ++ ccCollateralRef ++ "/accept") "POST" (VObj [])
      userToken in
  (String.ltb claimDate maturityDate = true ->
   defaultLoan this partyId loanContractId overrideClaimDate userToken w
   = (Throw (Error ("Loan has not matured yet. Maturity date: " ++ maturityDate
                    ++ ", claim date: " ++ claimDate)), w1))
  /\ (String.ltb claimDate maturityDate = false ->
      (forall defaultResult w2,
          submitCommand this [defaultCmd this loanContractId claimDate] [partyId; borrower] w1
          = (Ok defaultResult, w2) ->
          (ccCollateralRef = "" ->
           defaultLoan this partyId loanContractId overrideClaimDate userToken w
           = (Ok defaultResult, w2))
          /\ (forall r w3,
              ccCollateralRef <> "" ->
              accept w2 = (Ok r, w3) ->
              defaultLoan this partyId loanContractId overrideClaimDate userToken w
              = (Ok defaultResult, w3))
          /\ (forall e w3,
              ccCollateralRef <> "" ->
              accept w2 = (Throw e, w3) ->
              defaultLoan this partyId loanContractId overrideClaimDate userToken w
              = (Ok defaultResult,
                 add_console ("[Amulet] Failed to claim CC collateral: " ++ exn_toString e) w3)))
      /\ (forall e w2,
          submitCommand this [defaultCmd this loanContractId claimDate] [partyId; borrower] w1
          = (Throw e, w2) ->
          defaultLoan this partyId loanContractId overrideClaimDate userToken w = (Throw e, w2)))
  /\ claimDate_of None today = today
  /\ (forall y1 m1 d1 y2 m2 d2,
      y1 < 100 * 100 -> y2 < 100 * 100 -> m1 < 100 -> m2 < 100 -> d1 < 100 -> d2 < 100 ->
      claimDate = iso_date y1 m1 d1 ->
      maturityDate = iso_date y2 m2 d2 ->
      (String.ltb claimDate maturityDate = true <-> date_before y1 m1 d1 y2 m2 d2)).
Proof.
  intros T Q F claimDate maturityDate borrower ccCollateralRef accept.
  unfold defaultLoan.
  rewrite (bind_ok _ _ _ _ _ T), (bind_ok _ _ _ _ _ Q), F.
  fold claimDate. fold maturityDate. fold borrower. fold ccCollateralRef. fold accept.
  split; [| split; [| split]].
  - intros L. rewrite L. reflexivity.
  - intros L. rewrite L. split.
    + intros defaultResult w2 S. rewrite (bind_ok _ _ _ _ _ S). split; [| split].
      * intros E. rewrite E. reflexivity.
      * intros r w3 NE A.
        rewrite (bind_ok _ _ _ _ _ (bestEffort_released _ _ _ _ w3 NE
                   (bind_ok _ _ _ _ _ A))). reflexivity.
      * intros e w3 NE A.
        rewrite (bind_ok _ _ _ _ _ (bestEffort_failed _ _ _ _ w3 e NE
                   (bind_throw _ _ _ _ _ A))). reflexivity.
    + intros e w2 S. rewrite (bind_throw _ _ _ _ _ S). reflexivity.
  - reflexivity.
  - intros y1 m1 d1 y2 m2 d2 Y1 Y2 M1 M2 D1 D2 -> ->.
    apply iso_date_ltb; assumption.
Qed.

End LoanLifecycle.

(** ** The transaction explorer *)

Section Explorer.
Context {N : JSNumber} {B : JSBuiltins}.
Variable this : Config.

(** The kind [normalizeEvent] gives an event: the first of created,
    exercised, archived whose member is present, under either spelling, and
    created when none is. *)
Definition kind_of (e : value) : EventType :=
  if truthy (or_else (opt_get e "CreatedEvent") (opt_get e "created")) then created
  else if truthy (or_else (opt_get e "ExercisedEvent") (opt_get e "exercised")) then exercised
  else if truthy (or_else (opt_get e "ArchivedEvent") (opt_get e "archived")) then archived
  else created.

Lemma normalizeEvent_kind (e : value) (ev : TransactionEvent.t) :
  normalizeEvent e = Ok ev -> TransactionEvent.eventType ev = kind_of e.
Proof.
  unfold normalizeEvent, kind_of.
  destruct (get e "CreatedEvent") as [c0 | err] eqn:G; [| intros H; discriminate H].
  assert (c0 = opt_get e "CreatedEvent") as ->.
  { destruct e; simpl in G; inversion G; reflexivity. }
  simpl.
  destruct (truthy (or_else (opt_get e "CreatedEvent") (opt_get e "created")));
    [intros H; inversion H; reflexivity |].
  destruct (truthy (or_else (opt_get e "ExercisedEvent") (opt_get e "exercised")));
    [intros H; inversion H; reflexivity |].
  destruct (truthy (or_else (opt_get e "ArchivedEvent") (opt_get e "archived")));
    intros H; inversion H; reflexivity.
Qed.

(** The transactions come out in the order of the items. *)
Lemma normalizeItems_app (a b : list value) (txs : list Transaction.t) :
  normalizeItems (a ++ b) = Ok txs ->
  exists ta tb, normalizeItems a = Ok ta /\ normalizeItems b = Ok tb /\ txs = ta ++ tb.
Proof.
  revert txs. induction a as [| x a IH]; simpl; intros txs H.
  - exists [], txs. repeat split. exact H.
  - destruct (normalizeItem x) as [t | e]; [| discriminate H]. simpl in *.
    destruct (normalizeItems (a ++ b)) as [ts | e]; [| discriminate H]. simpl in H.
    destruct (IH ts eq_refl) as [ta [tb [Ha [Hb E]]]].
    rewrite Ha. simpl. inversion H. subst.
    destruct t as [t |]; eexists; exists tb; repeat split; assumption.
Qed.

Lemma getTransactionStream_returns (partyId : string) (fromOffset : option string)
    (w w1 w2 : World) (token : value) (response : Response) (txs : list Transaction.t) :
  getLedgerApiToken this w = (Ok token, w1) ->
  customFetch (jsonApiUrl this ++ "/v2/updates/flats")
    (streamRequest partyId fromOffset token) w1 = (Ok response, w2) ->
  ok response = true ->
  normalizeItems (parseItems (data response)) = Ok txs ->
  getTransactionStream this partyId fromOffset w = (Ok (firstn 50 txs), w2).
Proof.
  intros T F O I. unfold getTransactionStream.
  rewrite (bind_ok _ _ _ _ _ T), (bind_ok _ _ _ _ _ F). rewrite O. simpl.
  unfold bind, text, ret, lift. rewrite I. reflexivity.
Qed.

(** The window of the explorer.  (1) When the stream request succeeds and
    its items normalise to [txs], [getTransactionStream] returns the first 50 of
    [txs], at most 50, having asked for the updates after
    [beginExclusive fromOffset]; (2) that offset is 0 when none is given and
    [parseInt] of the one given; (3) a body that is one JSON array gives its
    elements as items, (4) a body that is no JSON document gives the
    documents of its non-blank lines, unparsable and falsy ones dropped;
    (5) the transactions keep the order of the items and (6) each event gets
    one of the three kinds; (7) [getTransactionById] and (8)
    [getContractHistory] search the transactions [getTransactionStream]
    returns for no offset. *)
Theorem getTransactionStream_window (partyId : string) :
  (forall fromOffset w w1 w2 token response txs,
      getLedgerApiToken this w = (Ok token, w1) ->
      customFetch (jsonApiUrl this ++ "/v2/updates/flats")
        (streamRequest partyId fromOffset token) w1 = (Ok response, w2) ->
      ok response = true ->
      normalizeItems (parseItems (data response)) = Ok txs ->
      getTransactionStream this partyId fromOffset w = (Ok (firstn 50 txs), w2)
      /\ length (firstn 50 txs) <= 50
      /\ body (streamRequest partyId fromOffset token)
         = Some (JSON_stringify (streamQuery partyId fromOffset))
      /\ opt_get (streamQuery partyId fromOffset) "beginExclusive"
         = VNum (beginExclusive fromOffset))
  /\ (beginExclusive None = num_of_Z 0
      /\ forall o, o <> "" -> beginExclusive (Some o) = parseInt o)
  /\ (forall text xs, JSON_parse text = Ok (VArr xs) -> parseItems text = xs)
  /\ (forall text e,
      JSON_parse text = Throw e ->
      parseItems text
      = List.filter truthy
          (map (fun l => match JSON_parse l with Ok v => v | Throw _ => VNull end)
             (List.filter trim_nonempty (split "010" text))))
  /\ (forall a b txs,
      normalizeItems (a ++ b) = Ok txs ->
      exists ta tb, normalizeItems a = Ok ta /\ normalizeItems b = Ok tb /\ txs = ta ++ tb)
  /\ (forall e ev, normalizeEvent e = Ok ev -> TransactionEvent.eventType ev = kind_of e)
  /\ (forall w w2 txs transactionId,
      getTransactionStream this partyId None w = (Ok txs, w2) ->
      getTransactionById this partyId transactionId w
      = (Ok (List.find (fun tx => is_str (Transaction.transactionId tx) transactionId) txs), w2))
  /\ (forall w w2 txs contractId,
      getTransactionStream this partyId None w = (Ok txs, w2) ->
      getContractHistory this partyId contractId w
      = (Ok (List.filter
               (fun tx => existsb (fun e => is_str (TransactionEvent.contractId e) contractId)
                            (Transaction.events tx)) txs), w2)).
Proof.
  repeat apply conj.
  - intros fromOffset w w1 w2 token response txs T F O I. repeat apply conj.
    + apply (getTransactionStream_returns _ _ _ _ _ _ _ _ T F O I).
    + apply firstn_le_length.
    + reflexivity.
    + reflexivity.
  - reflexivity.
  - intros o NE. unfold beginExclusive.
    destruct (String.eqb_spec o ""); [contradiction | reflexivity].
  - intros text xs P. unfold parseItems. rewrite P. reflexivity.
  - intros text e P. unfold parseItems. rewrite P. reflexivity.
  - apply normalizeItems_app.
  - apply normalizeEvent_kind.
  - intros w w2 txs transactionId S. unfold getTransactionById.
    rewrite (bind_ok _ _ _ _ _ S). reflexivity.
  - intros w w2 txs contractId S. unfold getContractHistory.
    rewrite (bind_ok _ _ _ _ _ S). reflexivity.
Qed.

End Explorer.

Section Examples.
Import Binary64.

(** The example of C7: a first call is granted [tok-1]; a call a minute
    later returns it from the cache; a call at the time the entry expires
    asks the endpoint again and caches [tok-2] in its place. *)
Lemma C7_token_cache_witness :
  getAuth0Token Example.service Example.ledgerAudience Example.w_minute_later
  = (Ok (VStr "tok-1"), Example.w_minute_later)
  /\ sent (snd (getAuth0Token Example.service Example.ledgerAudience Example.w_fresh))
     = [request_of "https://auth.example/oauth/token"
          (tokenRequest Example.service Example.ledgerAudience)]
  /\ tokenCache (snd (getAuth0Token Example.service Example.ledgerAudience Example.w_fresh))
       !! Example.ledgerAudience
     = Some (Example.cached (VStr "tok-1") 1767229140250%float)
  /\ tokenCache Example.w_expired !! Example.ledgerAudience
     = Some (Example.cached (VStr "tok-1") (clock Example.w_expired))
  /\ sent (snd (getAuth0Token Example.service Example.ledgerAudience Example.w_expired))
     = [request_of "https://auth.example/oauth/token"
          (tokenRequest Example.service Example.ledgerAudience)]
  /\ fst (getAuth0Token Example.service Example.ledgerAudience Example.w_expired)
     = Ok (VStr "tok-2")
  /\ tokenCache (snd (getAuth0Token Example.service Example.ledgerAudience Example.w_expired))
       !! Example.ledgerAudience
     = Some (Example.cached (VStr "tok-2") 1767232680500%float).
Proof.
  destruct (C7_token_cache Example.service Example.ledgerAudience) as [H1 [H2 H3]].
  split; [| split; [| split; [| split; [| split; [| split]]]]].
  - apply (H1 Example.w_fresh Example.w_granted Example.w_minute_later (VStr "tok-1")).
    + vm_compute. reflexivity.
    + reflexivity.
    + vm_compute. intros H. discriminate H.
  - rewrite (H2 Example.w_fresh); [reflexivity | reflexivity | reflexivity].
  - rewrite (H3 Example.w_fresh 200%float (Binary64.stringify Example.grant) 1767225600250%float
               [] Example.grant); reflexivity.
  - vm_compute. reflexivity.
  - rewrite (H2 Example.w_expired); [reflexivity | vm_compute; reflexivity | reflexivity].
  - rewrite (H3 Example.w_expired 200%float (Binary64.stringify Example.second_grant)
               1767229140500%float [] Example.second_grant);
      [reflexivity | vm_compute; reflexivity | reflexivity | reflexivity | reflexivity
      | vm_compute; reflexivity | reflexivity].
  - rewrite (H3 Example.w_expired 200%float (Binary64.stringify Example.second_grant)
               1767229140500%float [] Example.second_grant);
      [vm_compute; reflexivity | vm_compute; reflexivity | reflexivity | reflexivity
      | reflexivity | vm_compute; reflexivity | reflexivity].
Defined.

(** C8, evaluated where it fails: the endpoint answers 200 with the body
    [{"expires_in":3600}].  The call does not throw: it returns [undefined],
    caches it for the audience, and a later call returns the cached
    [undefined] without asking again. *)
Lemma C8_missing_access_token_is_cached :
  fst (getAuth0Token Example.service Example.ledgerAudience Example.w_no_token) = Ok VUndef
  /\ tokenCache (snd (getAuth0Token Example.service Example.ledgerAudience Example.w_no_token))
       !! Example.ledgerAudience
     = Some (Example.cached VUndef 1767229140000%float)
  /\ (let w1 := snd (getAuth0Token Example.service Example.ledgerAudience Example.w_no_token) in
      getAuth0Token Example.service Example.ledgerAudience w1 = (Ok VUndef, w1)).
Proof.
  split; [| split]; vm_compute; reflexivity.
Qed.

(** The example of C1: Alice holds 1000 and 500 and 200 are wanted.  No
    holding equals 200; the first that covers it, the holding of 1000, is
    the one the Split command names, and the successor [h1a] comes back
    with amount [200]. *)
Lemma C1_allocateExact_first_fit_witness :
  allocateExact Example.service true Example.alice 200%float Example.w_two_holdings
  = bind (submitCommand Example.service
            [splitCmd Example.service (Example.held "h1" Example.alice "1000") 200%float]
            [Example.alice])
      (splitSuccessor true (Example.held "h1" Example.alice "1000") 200%float)
      Example.w_two_holdings_queried
  /\ fst (allocateExact Example.service true Example.alice 200%float Example.w_two_holdings)
     = Ok (Example.held "h1a" Example.alice "200").
Proof.
  split.
  - refine (proj1 (proj1 (proj2 (proj2
      (C1_allocateExact_first_fit Example.service true Example.alice 200%float
         Example.w_two_holdings Example.w_two_holdings_queried
         [Example.held "h1" Example.alice "1000"; Example.held "h2" Example.alice "500";
          Example.held "h3" Example.bob "200"] _)))
      (Example.held "h1" Example.alice "1000") _ _)).
    + vm_compute. reflexivity.
    + vm_compute. reflexivity.
    + vm_compute. reflexivity.
  - vm_compute. reflexivity.
Defined.

(** C1 as stated fails here: of Alice's holdings 1000 and 500, in this
    order, both cover 200 and the smallest is [h2]; the code takes the first,
    [h1], and the Split command it sends names [h1]. *)
Lemma C1_smallest_not_selected :
  let usdcHoldings := [Example.held "h1" Example.alice "1000";
                       Example.held "h2" Example.alice "500"] in
  fst (queryAssetHoldings Example.service Example.alice Example.w_two_holdings)
  = Ok (usdcHoldings ++ [Example.held "h3" Example.bob "200"])
  /\ List.filter (is_usdc_of Example.alice) (usdcHoldings ++ [Example.held "h3" Example.bob "200"])
     = usdcHoldings
  /\ smallestSufficient 200%float usdcHoldings = Some (Example.held "h2" Example.alice "500")
  /\ List.find (fun h => num_ge (holding_amount h) 200%float) usdcHoldings
     = Some (Example.held "h1" Example.alice "1000")
  /\ map req_body
       (sent (snd (allocateExact Example.service true Example.alice 200%float
                     Example.w_two_holdings)))
     = [None;
        Some (stringify
                (VObj [("userId", VStr "administrator");
                       ("filter",
                        VObj [("filtersByParty",
                               VObj [(Example.alice,
                                      VObj [("cumulative",
                                             VArr [VObj [("identifierFilter",
                                                         VObj [("TemplateFilter",
                                                                VObj [("value",
                                                                       VObj [("templateId", VStr "pkg:Holding:AssetHolding");
                                                                             ("includeCreatedEventBlob", VBool false)])])]);
                                                        ("templateFilters", VArr [])]])])])]);
                       ("activeAtOffset", VNum 42%float)]));
        Some (stringify
                (submitBody Example.service "rhein-1767225600000-"
                   [exerciseCmd "pkg:Holding:AssetHolding" (VStr "h1") "Split"
                      (VObj [("splitAmount", VStr "200")])]
                   [Example.alice]))].
Proof.
  cbv zeta. repeat split; vm_compute; reflexivity.
Qed.

(** The example of C10: Alice holds 100.005 and repays 100.  The repayment
    uses that holding as it is, though its amount is not the repayment
    amount, and sends no command after the query; a lock of 100 on the same
    holdings sends a Split. *)
Lemma C10_repay_tolerance_witness :
  repaymentHolding Example.service Example.alice 100%float Example.w_near_holding
  = (Ok (VStr "h1"), Example.w_near_holding_queried)
  /\ num_eq (holding_amount (Example.held "h1" Example.alice "100.005")) 100%float = false
  /\ num_toString (num_sub (holding_amount (Example.held "h1" Example.alice "100.005")) 100%float)
     = "0.0049999999999954525"
  /\ allocateExact Example.service true Example.alice 100%float Example.w_near_holding
     = bind (submitCommand Example.service
               [splitCmd Example.service (Example.held "h1" Example.alice "100.005") 100%float]
               [Example.alice])
         (splitSuccessor true (Example.held "h1" Example.alice "100.005") 100%float)
         Example.w_near_holding_queried.
Proof.
  assert (Q : queryAssetHoldings Example.service Example.alice Example.w_near_holding
              = (Ok [Example.held "h1" Example.alice "100.005"],
                 Example.w_near_holding_queried)) by (vm_compute; reflexivity).
  destruct (C10_repay_tolerance Example.service Example.alice 100%float
              Example.w_near_holding Example.w_near_holding_queried
              [Example.held "h1" Example.alice "100.005"] Q) as [R [_ S]].
  split; [| split; [| split]].
  - apply (R (Example.held "h1" Example.alice "100.005")). vm_compute. reflexivity.
  - vm_compute. reflexivity.
  - vm_compute. reflexivity.
  - rewrite (S true); [vm_compute; reflexivity | vm_compute; intros H; discriminate H
                      | vm_compute; reflexivity].
Defined.



(** Alice asks to lend 1000 on 2026-01-01.  Her holding of 1000 is locked
    as [locked1]; the create command carries it as [lockedUSDCPrincipal],
    no collateral reference, the default ratios and the date.  When she
    bids for a loan against 16000 of her coins and the escrow wallet
    answers with the transfer offer [escrow1], the create command carries
    that as [lockedCCCollateral] and no principal reference. *)
Lemma createLoanOffer_lock_fields_witness :
  (exists args w1,
      submitCommand Example.service [createCmd "pkg:LoanOfferHybrid:LoanOfferHybrid" args]
        [Example.alice] w1
      = (Ok Example.created_offer,
         snd (createLoanOffer Example.service Example.alice Example.lenderAsk None
                Example.w_lender_ask))
      /\ opt_get args "lockedUSDCPrincipal" = VStr "locked1"
      /\ opt_get args "lockedCCCollateral" = VNull
      /\ opt_get args "ltvRatio" = VStr "0.5"
      /\ opt_get args "ccPrice" = VStr "0.125"
      /\ opt_get args "createdAt" = VStr "2026-01-01")
  /\ (exists args w1,
      submitCommand Example.service [createCmd "pkg:LoanOfferHybrid:LoanOfferHybrid" args]
        [Example.alice] w1
      = (Ok Example.created_offer,
         snd (createLoanOffer Example.service Example.alice Example.borrowerBid None
                (Example.w_borrower_bid Example.escrow_reply)))
      /\ opt_get args "lockedCCCollateral" = VStr "escrow1"
      /\ opt_get args "lockedUSDCPrincipal" = VNull
      /\ opt_get args "ltvRatio" = VStr "0.5"
      /\ opt_get args "ccPrice" = VStr "0.125"
      /\ opt_get args "createdAt" = VStr "2026-01-01").
Proof.
  split.
  - assert (H : createLoanOffer Example.service Example.alice Example.lenderAsk None
                  Example.w_lender_ask
                = (Ok Example.created_offer,
                   snd (createLoanOffer Example.service Example.alice Example.lenderAsk None
                          Example.w_lender_ask)))
      by (vm_compute; reflexivity).
    destruct (createLoanOffer_lock_fields Example.service Example.alice Example.lenderAsk None
                _ _ _ H)
      as [today [w0 [lockRef [w1 [args [T [L [S [_ [V [P D]]]]]]]]]]].
    simpl in L. destruct L as [L [_ [L1 L2]]].
    assert (today = "2026-01-01") as ->.
    { vm_compute in T. inversion T. reflexivity. }
    assert (w0 = Example.w_lender_ask) as ->.
    { vm_compute in T. inversion T. reflexivity. }
    assert (lockRef = VStr "locked1") as ->.
    { vm_compute in L. inversion L. reflexivity. }
    exists args, w1. repeat split; assumption.
  - assert (H : createLoanOffer Example.service Example.alice Example.borrowerBid None
                  (Example.w_borrower_bid Example.escrow_reply)
                = (Ok Example.created_offer,
                   snd (createLoanOffer Example.service Example.alice Example.borrowerBid None
                          (Example.w_borrower_bid Example.escrow_reply))))
      by (vm_compute; reflexivity).
    destruct (createLoanOffer_lock_fields Example.service Example.alice Example.borrowerBid
                None _ _ _ H)
      as [today [w0 [lockRef [w1 [args [T [L [S [_ [V [P D]]]]]]]]]]].
    simpl in L. destruct L as [[expiresAt [E L]] [L1 L2]].
    assert (today = "2026-01-01") as ->.
    { vm_compute in T. inversion T. reflexivity. }
    assert (w0 = Example.w_borrower_bid Example.escrow_reply) as ->.
    { vm_compute in T. inversion T. reflexivity. }
    assert (expiresAt = "2026-06-30T23:59:59.000Z") as ->.
    { vm_compute in E. inversion E. reflexivity. }
    assert (lockRef = VStr "escrow1") as ->.
    { vm_compute in L. inversion L. reflexivity. }
    exists args, w1. repeat split; assumption.
Defined.

(** Alice bids for a loan of 1000 against 16000 of her 20000 coins, and the
    escrow wallet answers with the transfer offer [escrow1]: the create
    command carries it as [lockedCCCollateral]. *)
Lemma createLoanOffer_borrower_bid_example :
  let out := createLoanOffer Example.service Example.alice Example.borrowerBid None
               (Example.w_borrower_bid Example.escrow_reply) in
  fst out = Ok Example.created_offer
  /\ map req_body (sent (snd out))
     = [None;
        Some (stringify
                (VObj [("userId", VStr "administrator");
                       ("filter",
                        VObj [("filtersByParty",
                               VObj [(Example.alice,
                                      VObj [("cumulative",
                                             VArr [VObj [("identifierFilter",
                                                         VObj [("TemplateFilter",
                                                                VObj [("value",
                                                                       VObj [("templateId", VStr "splice:Splice.Amulet:Amulet");
                                                                             ("includeCreatedEventBlob", VBool false)])])]);
                                                        ("templateFilters", VArr [])]])])])]);
                       ("activeAtOffset", VNum 42%float)]));
        Some (stringify
                (VObj [("receiver_party_id", VStr Example.admin);
                       ("amount", VStr "16000");
                       ("description",
                        VStr "Loan collateral: 16000 CC locked until 2026-06-30T23:59:59.000Z");
                       ("expires_at", VNum 1782863999000000%float);
                       ("tracking_id", VStr "collateral-1767225600000-k3x9qa")]));
        Some (stringify
                (submitBody Example.service "rhein-1767225600000-p0q1r2"
                   [createCmd "pkg:LoanOfferHybrid:LoanOfferHybrid"
                      (offerArguments Example.service Example.alice Example.borrowerBid
                         (VStr "escrow1") VNull "2026-01-01")]
                   [Example.alice]))].
Proof.
  cbv zeta. split; vm_compute; reflexivity.
Qed.

(** C4, where the code departs from it.  Alice bids for a loan of 1000
    against 16000 of her 20000 coins.  The escrow wallet answers the
    request for the transfer offer with status 200 and an empty body, which
    [walletApiFetch] reads as [{}]; [lockAmulet] then returns [undefined]
    where it is declared to return the contract id of the offer, and,
    unlike [lockUSDC], does not check it.  [createLoanOffer] succeeds all
    the same: the create command it submits has [lockedUSDCPrincipal] null
    and no [lockedCCCollateral], so for this BorrowerBid neither lock field
    is populated. *)
Theorem C4_borrower_bid_without_lock :
  let w := Example.w_borrower_bid "" in
  let out := createLoanOffer Example.service Example.alice Example.borrowerBid None w in
  let args := offerArguments Example.service Example.alice Example.borrowerBid
                VUndef VNull "2026-01-01" in
  let text := stringify
                (submitBody Example.service "rhein-1767225600000-p0q1r2"
                   [createCmd "pkg:LoanOfferHybrid:LoanOfferHybrid" args] [Example.alice]) in
  fst (lockAmulet Example.service Example.alice 16000%float Example.admin
         "2026-06-30T23:59:59.000Z" None w)
  = Ok VUndef
  /\ fst out = Ok Example.created_offer
  /\ console (snd out) = []
  /\ map req_url (sent (snd out))
     = ["http://ledger:7575/v2/state/ledger-end";
        "http://ledger:7575/v2/state/active-contracts";
        "http://validator:5003/api/validator/v0/wallet/transfer-offers";
        "http://ledger:7575/v2/commands/submit-and-wait-for-transaction"]
  /\ List.last (map req_body (sent (snd out))) None = Some text
  /\ opt_get args "lockedCCCollateral" = VUndef
  /\ opt_get args "lockedUSDCPrincipal" = VNull
  /\ includes text "lockedUSDCPrincipal" = true
  /\ includes text "lockedCCCollateral" = false.
Proof.
  cbv zeta. repeat split; vm_compute; reflexivity.
Qed.

(** The example of C5: Alice claims the default of a loan that matures on
    2026-06-30.  On 2026-01-01 the claim is refused after the query of the
    loans and nothing else; as of 2026-07-01 the command is accepted and its
    result returned although the escrow refuses the acceptance of the offer,
    which is written to the console. *)
Lemma C5_default_after_maturity_witness :
  defaultLoan Example.service Example.alice "loan1" None None Example.w_default_early
  = (Throw (Error "Loan has not matured yet. Maturity date: 2026-06-30, claim date: 2026-01-01"),
     Example.w_default_early_queried)
  /\ defaultLoan Example.service Example.alice "loan1" (Some "2026-07-01") None
       Example.w_default_late
     = (Ok Example.default_result,
        add_console
          "[Amulet] Failed to claim CC collateral: Error: Wallet API error (404): offer not found"
          Example.w_default_late_refused).
Proof.
  split.
  - refine (proj1 (C5_default_after_maturity Example.service Example.alice "loan1" None None
                     Example.w_default_early Example.w_default_early
                     Example.w_default_early_queried "2026-01-01" [Example.loan1]
                     Example.loan1 _ _ _) _); vm_compute; reflexivity.
  - refine (proj2 (proj2 (proj1 (proj1 (proj2
              (C5_default_after_maturity Example.service Example.alice "loan1"
                 (Some "2026-07-01") None
                 Example.w_default_late Example.w_default_late
                 Example.w_default_late_queried "2026-01-01" [Example.loan1]
                 Example.loan1 _ _ _)) _)
              Example.default_result Example.w_default_late_claimed _))
              Example.escrow_error Example.w_default_late_refused _ _).
    + vm_compute. reflexivity.
    + vm_compute. reflexivity.
    + vm_compute. reflexivity.
    + vm_compute. reflexivity.
    + vm_compute. reflexivity.
    + vm_compute. intros H. discriminate H.
    + vm_compute. reflexivity.
Defined.

(** The example of C6: Bob repays his loan of 300; the escrow offer was
    withdrawn before and the withdrawal is refused.  The repayment returns
    the result of the ledger and the refusal is on the console. *)
Lemma C6_repay_unlock_best_effort_witness :
  repayLoan Example.service Example.bob "loan1" 300%float None Example.w_repay
  = (Ok Example.repay_result,
     add_console
       "[Amulet] Failed to unlock CC collateral: Error: Wallet API error (404): offer not found"
       Example.w_repay_refused).
Proof.
  refine (proj2 (proj2
            (C6_repay_unlock_best_effort Example.service Example.bob "loan1" 300%float None
               Example.w_repay Example.w_repay Example.w_repay_queried
               Example.w_repay_allocated Example.w_repay_repaid "2026-01-01"
               [Example.loan1] Example.loan1 (VStr "b1") Example.repay_result _ _ _ _ _))
            Example.escrow_error Example.w_repay_refused _ _).
  - vm_compute. reflexivity.
  - vm_compute. reflexivity.
  - vm_compute. reflexivity.
  - vm_compute. reflexivity.
  - vm_compute. reflexivity.
  - vm_compute. intros H. discriminate H.
  - vm_compute. reflexivity.
Defined.

(** Of a stream of 51 transactions the first 50 are returned. *)
Lemma getTransactionStream_window_example :
  getTransactionStream Example.service Example.alice None Example.w_stream51
  = (Ok (firstn 50 (map Example.tx (seq 1 51))), Example.w_stream51_read)
  /\ length (firstn 50 (map Example.tx (seq 1 51))) <= 50.
Proof.
  destruct (getTransactionStream_window Example.service Example.alice) as [S _].
  destruct (S None Example.w_stream51 Example.w_stream51 Example.w_stream51_read
              (VStr "ledger-token")
              {| ok := true; status := 200%float;
                 data := stringify (VArr (map Example.update (seq 1 51))) |}
              (map Example.tx (seq 1 51))) as [R [L _]].
  - vm_compute. reflexivity.
  - vm_compute. reflexivity.
  - reflexivity.
  - vm_compute. reflexivity.
  - split; [exact R | exact L].
Defined.

(** C9, evaluated where it fails: the ledger streams [tx1] to [tx51],
    oldest first.  The call returns [tx1] to [tx50]; the 50 most recent are
    [tx2] to [tx51], and [tx51], the most recent of all, is not returned,
    nor found by its id. *)
Lemma C9_most_recent_dropped :
  fst (getTransactionStream Example.service Example.alice None Example.w_stream51)
  = Ok (map Example.tx (seq 1 50))
  /\ mostRecent 50 (map Example.tx (seq 1 51)) = map Example.tx (seq 2 50)
  /\ map Example.tx (seq 1 50) <> mostRecent 50 (map Example.tx (seq 1 51))
  /\ fst (getTransactionById Example.service Example.alice "tx51" Example.w_stream51) = Ok None.
Proof.
  repeat apply conj.
  - vm_compute. reflexivity.
  - vm_compute. reflexivity.
  - vm_compute. intros H. discriminate H.
  - vm_compute. reflexivity.
Qed.

(** The example of C2, the scenario of the specification: Alice's holding
    of 500 is split at 200.  The ledger leaves the successors [h1a] of 200
    and [h1b] of 300; the service sends the Split of [h1] for 200, reads the
    ledger's answer and returns [h1a] with the amount 200. *)
Lemma C2_split_exact_witness :
  Ledger.exercise_Split (Example.held "h1" Example.alice "500") "200" "h1a" "h1b"
  = Some (Example.held "h1a" Example.alice "200", Example.held "h1b" Example.alice "300")
  /\ allocateExact Example.service true Example.alice 200%float Scenario.w_split
     = (Ok (Example.held "h1a" Example.alice "200"),
        snd (allocateExact Example.service true Example.alice 200%float Scenario.w_split))
  /\ List.last (map req_body (sent (snd (allocateExact Example.service true Example.alice
                                           200%float Scenario.w_split)))) None
     = Some (stringify
               (submitBody Example.service "rhein-1767225600000-"
                  [exerciseCmd "pkg:Holding:AssetHolding" (VStr "h1") "Split"
                     (VObj [("splitAmount", VStr "200")])]
                  [Example.alice])).
Proof.
  destruct (C2_split_exact Example.service true Ledger.AsRecord "upd-split" "h1a" "h1b"
              (Example.held "h1" Example.alice "500") 200%float
              (500 * Ledger.scale)%N (200 * Ledger.scale)%N)
    as [exact [remainder [r [E [_ [_ [_ [_ [_ [_ [_ [_ A]]]]]]]]]]]].
  - vm_compute. reflexivity.
  - vm_compute. reflexivity.
  - vm_compute. reflexivity.
  - vm_compute. reflexivity.
  - intros H. discriminate H.
  - assert (E' : Ledger.exercise_Split (Example.held "h1" Example.alice "500") "200" "h1a" "h1b"
                 = Some (Example.held "h1a" Example.alice "200",
                         Example.held "h1b" Example.alice "300"))
      by (vm_compute; reflexivity).
    assert (T : num_toString 200%float = "200") by (vm_compute; reflexivity).
    rewrite T in E. rewrite E' in E. inversion E. subst exact remainder. clear E.
    destruct (A Example.alice [Example.held "h1" Example.alice "500"] Scenario.w_split
                Scenario.w_split_queried
                (snd (allocateExact Example.service true Example.alice 200%float
                        Scenario.w_split)))
      as [held [R [I [_ Pl]]]].
    + vm_compute. reflexivity.
    + vm_compute. reflexivity.
    + vm_compute. reflexivity.
    + vm_compute. reflexivity.
    + split; [exact E' |]. split; [| vm_compute; reflexivity].
      rewrite R. f_equal. f_equal.
      destruct held as [hid hp]. cbn [contractId payload] in I, Pl.
      rewrite I, Pl. vm_compute. reflexivity.
Defined.

End Examples.

(* ====================================================================== *)
(** * Further properties of the service *)
(* ====================================================================== *)

(** ** Requests and their outcomes *)

Section Transport.
Context {N : JSNumber} {B : JSBuiltins}.
Variable this : Config.

(** [res.statusCode >= 200 && res.statusCode < 300] *)
Definition success_status (st : num) : bool :=
  num_ge st (num_of_Z 200) && num_lt st (num_of_Z 300).

Lemma try_catch_ok {A} (body : M A) (handler : exn -> M A) (w w' : World) (a : A) :
  body w = (Ok a, w') -> try_catch body handler w = (Ok a, w').
Proof. intros H. unfold try_catch. rewrite H. reflexivity. Qed.

Lemma try_catch_throw {A} (body : M A) (handler : exn -> M A) (w w' : World) (e : exn) :
  body w = (Throw e, w') -> try_catch body handler w = handler e w'.
Proof. intros H. unfold try_catch. rewrite H. reflexivity. Qed.

Lemma bind_throws {X Y} (m : M X) (k : X -> M Y) (w w'' : World) (e : exn) :
  bind m k w = (Throw e, w'') ->
  m w = (Throw e, w'') \/ exists a w', m w = (Ok a, w') /\ k a w' = (Throw e, w'').
Proof.
  unfold bind. destruct (m w) as [[a | e'] w'] eqn:E; intros H.
  - right. exists a, w'. split; [reflexivity | exact H].
  - left. inversion H. reflexivity.
Qed.

Lemma customFetch_responds (url : string) (options : FetchOptions) (w : World)
    (st : num) (body : string) (t : num) (rest : list NetEvent) :
  URL_ok url = true ->
  net w = Responds st body t :: rest ->
  customFetch url options w
  = (Ok {| ok := success_status st; status := st; data := body |},
     after_request (request_of url options) rest t w).
Proof. intros U Hnet. unfold customFetch. rewrite U, Hnet. reflexivity. Qed.

Lemma customFetch_fails (url : string) (options : FetchOptions) (w : World)
    (e : exn) (t : num) (rest : list NetEvent) :
  URL_ok url = true ->
  net w = Fails e t :: rest ->
  customFetch url options w = (Throw e, after_request (request_of url options) rest t w).
Proof. intros U Hnet. unfold customFetch. rewrite U, Hnet. reflexivity. Qed.

(** Whatever it does, [customFetch] leaves the token cache and the console
    alone. *)
Lemma customFetch_keeps (url : string) (options : FetchOptions) (w : World) :
  tokenCache (snd (customFetch url options w)) = tokenCache w
  /\ console (snd (customFetch url options w)) = console w.
Proof.
  unfold customFetch. destruct (negb (URL_ok url)); [split; reflexivity |].
  destruct (net w) as [| [st d t | e t] rest]; split; reflexivity.
Qed.

(** A call of [getAuth0Token] that throws has cached nothing: the token
    cache is as the call found it, so the next call tries the exchange
    again.  In particular (1) a reply with a status outside 200-299 throws
    "Auth0 token request failed" with the status and the body of the reply,
    (2) a failed connection throws its error and (3) so does a success reply
    whose body is not JSON. *)
Theorem getAuth0Token_failure_caches_nothing (audience : string) (w : World) :
  (forall e w', getAuth0Token this audience w = (Throw e, w') -> tokenCache w' = tokenCache w)
  /\ (forall st body t rest,
      still_valid (tokenCache w !! audience) (clock w) = None ->
      URL_ok (auth0TokenUrl this) = true ->
      net w = Responds st body t :: rest ->
      success_status st = false ->
      getAuth0Token this audience w
      = (Throw (Error ("Auth0 token request failed (" ++ num_toString st ++ "): " ++ body)),
         after_request (request_of (auth0TokenUrl this) (tokenRequest this audience)) rest t w))
  /\ (forall e t rest,
      still_valid (tokenCache w !! audience) (clock w) = None ->
      URL_ok (auth0TokenUrl this) = true ->
      net w = Fails e t :: rest ->
      getAuth0Token this audience w
      = (Throw e,
         after_request (request_of (auth0TokenUrl this) (tokenRequest this audience)) rest t w))
  /\ (forall st body t rest e,
      still_valid (tokenCache w !! audience) (clock w) = None ->
      URL_ok (auth0TokenUrl this) = true ->
      net w = Responds st body t :: rest ->
      success_status st = true ->
      JSON_parse body = Throw e ->
      getAuth0Token this audience w
      = (Throw e,
         after_request (request_of (auth0TokenUrl this) (tokenRequest this audience)) rest t w)).
Proof.
  repeat apply conj.
  - intros e w'. unfold getAuth0Token, bind, tokenCache_get, Date_now.
    destruct (still_valid (tokenCache w !! audience) (clock w)) as [c |];
      [unfold ret; intros H; discriminate H |].
    pose proof (customFetch_keeps (auth0TokenUrl this) (tokenRequest this audience) w) as [K _].
    destruct (customFetch (auth0TokenUrl this) (tokenRequest this audience) w)
      as [[response | e0] w0]; simpl in K.
    + destruct (negb (ok response)).
      * unfold text, ret, throw. intros H. inversion H. subst. exact K.
      * unfold json, lift.
        destruct (JSON_parse (data response)) as [d | e1];
          [| intros H; inversion H; subst; exact K].
        destruct (get d "access_token") as [tok | e1];
          [| intros H; inversion H; subst; exact K].
        destruct (get d "expires_in") as [ei | e1];
          [| intros H; inversion H; subst; exact K].
        unfold tokenCache_set, ret. intros H. discriminate H.
    + intros H. inversion H. subst. exact K.
  - intros st body t rest V U Hnet S.
    unfold getAuth0Token, bind, tokenCache_get, Date_now. rewrite V.
    rewrite (customFetch_responds _ _ _ _ _ _ _ U Hnet). simpl. rewrite S. reflexivity.
  - intros e t rest V U Hnet.
    unfold getAuth0Token, bind, tokenCache_get, Date_now. rewrite V.
    rewrite (customFetch_fails _ _ _ _ _ _ U Hnet). reflexivity.
  - intros st body t rest e V U Hnet S P.
    unfold getAuth0Token, bind, tokenCache_get, Date_now. rewrite V.
    rewrite (customFetch_responds _ _ _ _ _ _ _ U Hnet). simpl. rewrite S. simpl.
    unfold json, lift. simpl. rewrite P. reflexivity.
Qed.

(** The offset a query is made at.  With the ledger token at hand: (1) a
    reply with a status outside 200-299 is not an error, the offset is
    999999999; (2) a success reply gives its [offset], and 999999999 when
    that member is missing or falsy, as the offset 0 of an empty ledger is;
    (3) a failed connection is thrown, not replaced. *)
Theorem getLatestOffset_fallback (w w1 : World) (token : value) :
  getLedgerApiToken this w = (Ok token, w1) ->
  URL_ok (jsonApiUrl this ++ "/v2/state/ledger-end") = true ->
  let request :=
    request_of (jsonApiUrl this ++ "/v2/state/ledger-end")
      {| method := "GET"; headers := [("Authorization", bearer token)]; body := None |} in
  (forall st body t rest,
      net w1 = Responds st body t :: rest ->
      success_status st = false ->
      getLatestOffset this w = (Ok (VNum (num_of_Z 999999999)), after_request request rest t w1))
  /\ (forall st body t rest data,
      net w1 = Responds st body t :: rest ->
      success_status st = true ->
      JSON_parse body = Ok data ->
      nullish data = false ->
      getLatestOffset this w
      = (Ok (if truthy (opt_get data "offset") then opt_get data "offset"
             else VNum (num_of_Z 999999999)),
         after_request request rest t w1))
  /\ (forall e t rest,
      net w1 = Fails e t :: rest ->
      getLatestOffset this w = (Throw e, after_request request rest t w1)).
Proof.
  intros T U request. repeat apply conj.
  - intros st body t rest Hnet S.
    unfold getLatestOffset. rewrite (bind_ok _ _ _ _ _ T).
    rewrite (bind_ok _ _ _ _ _ (customFetch_responds _ _ _ _ _ _ _ U Hnet)).
    simpl. rewrite S. reflexivity.
  - intros st body t rest data Hnet S P D.
    unfold getLatestOffset. rewrite (bind_ok _ _ _ _ _ T).
    rewrite (bind_ok _ _ _ _ _ (customFetch_responds _ _ _ _ _ _ _ U Hnet)).
    simpl. rewrite S. simpl. unfold json, bind, lift. simpl. rewrite P.
    rewrite (get_not_nullish _ _ D). reflexivity.
  - intros e t rest Hnet.
    unfold getLatestOffset. rewrite (bind_ok _ _ _ _ _ T).
    rewrite (bind_throw _ _ _ _ _ (customFetch_fails _ _ _ _ _ _ U Hnet)). reflexivity.
Qed.

(** Tokens are cached by audience: whatever a call for one audience does,
    exchange or not, success or not, it leaves the entry of every other
    audience as it was. *)
Theorem token_cache_per_audience (audience other : string) (w : World) :
  audience <> other ->
  tokenCache (snd (getAuth0Token this audience w)) !! other = tokenCache w !! other.
Proof.
  intros NE. unfold getAuth0Token, bind, tokenCache_get, Date_now.
  destruct (still_valid (tokenCache w !! audience) (clock w)) as [c |]; [reflexivity |].
  pose proof (customFetch_keeps (auth0TokenUrl this) (tokenRequest this audience) w) as [K _].
  destruct (customFetch (auth0TokenUrl this) (tokenRequest this audience) w)
    as [[response | e0] w0]; cbn [snd] in K; [| cbn [snd]; rewrite K; reflexivity].
  destruct (negb (ok response)); [unfold text, ret, throw; cbn [snd]; rewrite K; reflexivity |].
  unfold json, lift.
  destruct (JSON_parse (data response)) as [d | e1]; [| cbn [snd]; rewrite K; reflexivity].
  destruct (get d "access_token") as [tok | e1]; [| cbn [snd]; rewrite K; reflexivity].
  destruct (get d "expires_in") as [ei | e1]; [| cbn [snd]; rewrite K; reflexivity].
  unfold tokenCache_set, ret. cbn [snd set_tokenCache tokenCache].
  rewrite lookup_insert_ne by exact NE. rewrite K. reflexivity.
Qed.

End Transport.

(** ** Queries and commands *)

Section LedgerAccess.
Context {N : JSNumber} {B : JSBuiltins}.
Variable this : Config.

(** The contract [queryContracts] makes of a created event. *)
Definition contract_of (event : value) : RawContract :=
  {| raw_contractId := opt_get event "contractId";
     raw_templateId := opt_get event "templateId";
     raw_payload := or_else (opt_get event "createArgument")
                      (or_else (opt_get event "createArguments") (opt_get event "payload")) |}.

Lemma truthy_member (v : value) (k : string) :
  truthy (opt_get v k) = true -> truthy v = true /\ nullish v = false.
Proof. destruct v; simpl; intros H; try discriminate H. split; reflexivity. Qed.

(** A created event with a contract id decodes to the same contract under
    each of the four envelopes the ledger may wrap it in: the two nestings
    under [contractEntry], the member [createdEvent], and no envelope at
    all (when the event itself has no such members). *)
Theorem decodeEntry_envelopes (event : value) :
  truthy (opt_get event "contractId") = true ->
  decodeEntry (VObj [("contractEntry",
                      VObj [("JsActiveContract", VObj [("createdEvent", event)])])])
  = Ok (Some (contract_of event))
  /\ decodeEntry (VObj [("contractEntry",
                         VObj [("activeContract", VObj [("createdEvent", event)])])])
     = Ok (Some (contract_of event))
  /\ decodeEntry (VObj [("createdEvent", event)]) = Ok (Some (contract_of event))
  /\ (opt_get event "contractEntry" = VUndef ->
      opt_get event "createdEvent" = VUndef ->
      decodeEntry event = Ok (Some (contract_of event))).
Proof.
  intros C. destruct (truthy_member _ _ C) as [T D].
  repeat apply conj.
  - unfold decodeEntry, or_else. cbn. rewrite T. cbn. rewrite C. reflexivity.
  - unfold decodeEntry, or_else. cbn. rewrite T. cbn. rewrite C. reflexivity.
  - unfold decodeEntry, or_else. cbn. rewrite T. cbn. rewrite C. reflexivity.
  - intros E1 E2. unfold decodeEntry. rewrite (get_not_nullish _ _ D).
    unfold or_else. cbn. rewrite E1, E2. cbn. rewrite C. reflexivity.
Qed.

Lemma decodeEntries_ids (entries : list value) (cs : list RawContract) :
  decodeEntries entries = Ok cs ->
  Forall (fun c => truthy (raw_contractId c) = true) cs /\ length cs <= length entries.
Proof.
  revert cs. induction entries as [| entry rest IH]; simpl; intros cs H.
  - inversion H. split; [constructor | reflexivity].
  - destruct (decodeEntry entry) as [c | e] eqn:D; [| discriminate H]. simpl in H.
    destruct (decodeEntries rest) as [cs' | e]; [| discriminate H]. simpl in H.
    destruct (IH cs' eq_refl) as [F L].
    destruct c as [c |]; inversion H; subst.
    + split; [| simpl; lia]. constructor; [| exact F].
      unfold decodeEntry in D.
      destruct (get entry "contractEntry") as [ce | e]; [| discriminate D]. simpl in D.
      match type of D with
      | (if truthy ?x then _ else _) = _ => destruct (truthy x) eqn:T
      end; [| discriminate D].
      inversion D. subst. exact T.
    + split; [exact F | simpl; lia].
Qed.

Lemma queryContracts_ids (templateIds actAs : list string) (w w' : World)
    (cs : list RawContract) :
  queryContracts this templateIds actAs w = (Ok cs, w') ->
  Forall (fun c => truthy (raw_contractId c) = true) cs.
Proof.
  unfold queryContracts. intros H.
  apply bind_returns in H. destruct H as [offset [w1 [_ H]]].
  apply bind_returns in H. destruct H as [token [w2 [_ H]]].
  apply bind_returns in H. destruct H as [response [w3 [_ H]]].
  destruct (negb (ok response)).
  - apply bind_returns in H. destruct H as [errorText [w4 [_ H]]].
    apply bind_returns in H. destruct H as [u [w5 [_ H]]]. discriminate H.
  - apply bind_returns in H. destruct H as [data [w4 [_ H]]].
    apply bind_returns in H. destruct H as [entries [w5 [_ H]]].
    apply lift_returns in H. destruct H as [H _].
    apply (decodeEntries_ids _ _ H).
Qed.

(** Every contract a query returns has a contract id that is not empty:
    entries without one are left out, whatever else the ledger sent; and
    decoding never makes more contracts than there are entries. *)
Theorem queryContracts_contract_ids (templateIds actAs : list string) (w w' : World)
    (cs : list RawContract) :
  queryContracts this templateIds actAs w = (Ok cs, w') ->
  Forall (fun c => truthy (raw_contractId c) = true) cs
  /\ forall entries cs', decodeEntries entries = Ok cs' -> length cs' <= length entries.
Proof.
  intros H. split.
  - apply (queryContracts_ids _ _ _ _ _ H).
  - intros entries cs' D. apply (decodeEntries_ids _ _ D).
Qed.

(** A query the ledger answers with a status outside 200-299 throws "DAML
    Query Error" with the status and the body of the reply, after writing
    the same to the error log. *)
Theorem queryContracts_refused (templateIds actAs : list string) (w w1 w2 : World)
    (offset token : value) (st : num) (body : string) (t : num) (rest : list NetEvent) :
  getLatestOffset this w = (Ok offset, w1) ->
  getLedgerApiToken this w1 = (Ok token, w2) ->
  URL_ok (jsonApiUrl this ++ "/v2/state/active-contracts") = true ->
  net w2 = Responds st body t :: rest ->
  success_status st = false ->
  fst (queryContracts this templateIds actAs w)
  = Throw (Error ("DAML Query Error (" ++ num_toString st ++ "): " ++ body))
  /\ console (snd (queryContracts this templateIds actAs w))
     = console w2 ++ [("[DAML Query Error] " ++ num_toString st ++ ": " ++ body)%string]
  /\ net (snd (queryContracts this templateIds actAs w)) = rest.
Proof.
  intros O T U Hnet S. unfold queryContracts.
  rewrite (bind_ok _ _ _ _ _ O). rewrite (bind_ok _ _ _ _ _ T).
  rewrite (bind_ok _ _ _ _ _ (customFetch_responds _ _ _ _ _ _ _ U Hnet)).
  cbn [ok negb]. rewrite S. repeat split.
Qed.

(** One submission.  With the command id made of the clock and the random
    suffix, and the ledger token at hand, one request is sent, carrying the
    commands and the acting parties; (1) a reply with a status outside
    200-299 is written to the error log and thrown as "DAML Command Error"
    with the status and the body of the reply; (2) a success reply is
    returned as the JSON value it writes, and thrown as a syntax error when
    it is not JSON. *)
Theorem submitCommand_outcomes (commands : list value) (actAs : list string)
    (w w0 w1 : World) (suffix : string) (token : value)
    (st : num) (body : string) (t : num) (rest : list NetEvent) :
  random_suffix w = (Ok suffix, w0) ->
  getLedgerApiToken this w0 = (Ok token, w1) ->
  URL_ok (jsonApiUrl this ++ "/v2/commands/submit-and-wait-for-transaction") = true ->
  net w1 = Responds st body t :: rest ->
  let commandId := ("rhein-" ++ num_toString (clock w) ++ "-" ++ suffix)%string in
  let request :=
    {| req_url := (jsonApiUrl this ++ "/v2/commands/submit-and-wait-for-transaction")%string;
       req_method := "POST";
       req_headers := [("Content-Type", "application/json"); ("Authorization", bearer token)];
       req_body :=
         (if String.eqb (JSON_stringify (submitBody this commandId commands actAs)) ""
          then None
          else Some (JSON_stringify (submitBody this commandId commands actAs))) |} in
  let w2 := after_request request rest t w1 in
  (success_status st = false ->
   submitCommand this commands actAs w
   = (Throw (Error ("DAML Command Error (" ++ num_toString st ++ "): " ++ body)),
      add_console ("[DAML Command Error] " ++ num_toString st ++ ": " ++ body) w2))
  /\ (success_status st = true ->
      submitCommand this commands actAs w = (JSON_parse body, w2))
  /\ opt_get (opt_get (submitBody this commandId commands actAs) "commands") "actAs"
     = VArr (map VStr actAs)
  /\ opt_get (opt_get (submitBody this commandId commands actAs) "commands") "commands"
     = VArr commands.
Proof.
  intros R T U Hnet commandId request w2.
  assert (F : customFetch (jsonApiUrl this ++ "/v2/commands/submit-and-wait-for-transaction")
                {| method := "POST";
                   headers := [("Content-Type", "application/json");
                               ("Authorization", bearer token)];
                   body := Some (JSON_stringify (submitBody this commandId commands actAs)) |} w1
              = (Ok {| ok := success_status st; status := st; data := body |}, w2))
    by (apply customFetch_responds; assumption).
  repeat apply conj.
  - intros S. unfold submitCommand. unfold bind at 1. unfold Date_now.
    rewrite (bind_ok _ _ _ _ _ R). rewrite (bind_ok _ _ _ _ _ T).
    fold commandId. rewrite (bind_ok _ _ _ _ _ F). cbn [ok negb]. rewrite S. reflexivity.
  - intros S. unfold submitCommand. unfold bind at 1. unfold Date_now.
    rewrite (bind_ok _ _ _ _ _ R). rewrite (bind_ok _ _ _ _ _ T).
    fold commandId. rewrite (bind_ok _ _ _ _ _ F). cbn [ok negb]. rewrite S. reflexivity.
  - reflexivity.
  - reflexivity.
Qed.

(** What an event carries as the result of a choice: [ExercisedEvent]
    first, then the unwrapped [exercised]. *)
Definition exerciseResult_of (event : value) : value :=
  if negb (is_undefined (opt_get (opt_get event "ExercisedEvent") "exerciseResult"))
  then opt_get (opt_get event "ExercisedEvent") "exerciseResult"
  else opt_get (opt_get event "exercised") "exerciseResult".

Lemma firstExerciseResult_find (events : list value) :
  Forall (fun e => nullish e = false) events ->
  firstExerciseResult events
  = Ok (match List.find (fun e => negb (is_undefined (exerciseResult_of e))) events with
        | Some e => exerciseResult_of e
        | None => VUndef
        end).
Proof.
  induction 1 as [| e rest D _ IH]; [reflexivity |].
  cbn [firstExerciseResult List.find]. rewrite (get_not_nullish _ _ D). cbn [res_bind].
  destruct (negb (is_undefined (opt_get (opt_get e "ExercisedEvent") "exerciseResult"))) eqn:E1.
  - assert (R : exerciseResult_of e = opt_get (opt_get e "ExercisedEvent") "exerciseResult")
      by (unfold exerciseResult_of; rewrite E1; reflexivity).
    rewrite R, E1. cbv beta iota. rewrite R. reflexivity.
  - assert (R : exerciseResult_of e = opt_get (opt_get e "exercised") "exerciseResult")
      by (unfold exerciseResult_of; rewrite E1; reflexivity).
    rewrite R.
    destruct (negb (is_undefined (opt_get (opt_get e "exercised") "exerciseResult"))) eqn:E2.
    + cbv beta iota. rewrite R. reflexivity.
    + exact IH.
Qed.

(** The result of a command is the result of the first event of its
    transaction that carries one, [null] included: only [undefined] is
    passed over.  A response without a transaction, or whose transaction has
    no such event, gives [undefined]. *)
Theorem getExerciseResult_first (result : value) :
  nullish result = false ->
  (forall events,
      opt_get (opt_get result "transaction") "events" = VArr events ->
      Forall (fun e => nullish e = false) events ->
      getExerciseResult result
      = Ok (match List.find (fun e => negb (is_undefined (exerciseResult_of e))) events with
            | Some e => exerciseResult_of e
            | None => VUndef
            end))
  /\ (truthy (opt_get (opt_get result "transaction") "events") = false ->
      getExerciseResult result = Ok VUndef).
Proof.
  intros D. split.
  - intros events E F. unfold getExerciseResult, transaction_events.
    rewrite (get_not_nullish _ _ D). cbn [res_bind]. unfold or_else. rewrite E.
    cbn [truthy iterate res_bind]. apply (firstExerciseResult_find _ F).
  - intros E. unfold getExerciseResult, transaction_events.
    rewrite (get_not_nullish _ _ D). cbn [res_bind]. unfold or_else. rewrite E. reflexivity.
Qed.

Lemma firstCreatedContractId_truthy (events : list value) (c : value) :
  firstCreatedContractId events = Ok c -> c = VUndef \/ truthy c = true.
Proof.
  induction events as [| e rest IH]; cbn [firstCreatedContractId]; intros H.
  - inversion H. left. reflexivity.
  - destruct (get e "CreatedEvent") as [e1 | x]; [| discriminate H]. cbn [res_bind] in H.
    destruct (truthy (opt_get e1 "contractId")) eqn:T1.
    + inversion H. subst. right. exact T1.
    + destruct (truthy (opt_get (opt_get e "created") "contractId")) eqn:T2.
      * inversion H. subst. right. exact T2.
      * apply IH. exact H.
Qed.

Lemma getCreatedContractId_cases (result c : value) :
  getCreatedContractId result = Ok c -> c = VUndef \/ truthy c = true.
Proof.
  unfold getCreatedContractId. intros H.
  destruct (transaction_events result) as [events | e]; [| discriminate H].
  apply (firstCreatedContractId_truthy events). exact H.
Qed.

(** The contract id read off a response is never an empty or null one: it
    is [undefined], when no event of the transaction created a contract
    with an id, or an id that is not empty; a response without a
    transaction gives [undefined]. *)
Theorem getCreatedContractId_undefined_or_id (result c : value) :
  getCreatedContractId result = Ok c ->
  (c = VUndef \/ truthy c = true)
  /\ (truthy (opt_get (opt_get result "transaction") "events") = false -> c = VUndef).
Proof.
  intros H. split.
  - unfold getCreatedContractId in H.
    destruct (transaction_events result) as [events | e]; [| discriminate H].
    apply (firstCreatedContractId_truthy events). exact H.
  - intros E. unfold getCreatedContractId, transaction_events in H.
    destruct (get result "transaction") as [tr | e] eqn:G; [| discriminate H].
    assert (tr = opt_get result "transaction") as ->
      by (destruct result; cbn [get] in G; try discriminate G; inversion G; reflexivity).
    cbn [res_bind] in H. unfold or_else in H. rewrite E in H.
    cbn [iterate res_bind firstCreatedContractId] in H. inversion H. reflexivity.
Qed.

End LedgerAccess.

(** ** The escrow wallet *)

Section Escrow.
Context {N : JSNumber} {B : JSBuiltins} {I : NodeInspect}.
Variable this : Config.

(** The request [walletApiFetch] sends under the token [token]. *)
Definition walletRequest (endpoint method : string) (body : value) (token : string) : Request :=
  request_of (validatorWalletUrl this ++ "/api/validator/v0/wallet/" ++ endpoint)
    {| method := method;
       headers := [("Authorization", ("Bearer " ++ token)%string);
                   ("Content-Type", "application/json")];
       body := if truthy body then Some (JSON_stringify body) else None |}.

Lemma walletApiFetch_responds (endpoint method : string) (body : value) (userToken : string)
    (w : World) (st : num) (reply : string) (t : num) (rest : list NetEvent) :
  userToken <> "" ->
  URL_ok (validatorWalletUrl this ++ "/api/validator/v0/wallet/" ++ endpoint) = true ->
  net w = Responds st reply t :: rest ->
  walletApiFetch this endpoint method body (Some userToken) w
  = (if success_status st then
       if trim_nonempty reply then JSON_parse reply else Ok (VObj [])
     else Throw (Error ("Wallet API error (" ++ num_toString st ++ "): " ++ reply)),
     after_request (walletRequest endpoint method body userToken) rest t w).
Proof.
  intros NE U Hnet. unfold walletApiFetch, userToken_or.
  destruct (String.eqb_spec userToken ""); [contradiction |].
  unfold bind at 1. unfold ret at 1.
  rewrite (bind_ok _ _ _ _ _ (customFetch_responds _ _ _ _ _ _ _ U Hnet)).
  cbn [ok negb status data]. unfold walletRequest, bearer. cbn [ToString].
  destruct (success_status st); cbn [negb].
  - unfold text, bind, ret. cbn [data]. destruct (trim_nonempty reply); reflexivity.
  - reflexivity.
Qed.

(** A wallet call made with the user's own token exchanges no service
    token: it sends one request, under [Bearer] and that token, and leaves
    the token cache alone.  (1) A reply with a status outside 200-299 throws
    "Wallet API error" with the status and the body; (2) a success reply
    with an empty or blank body is the empty object; (3) any other success
    reply is the JSON value it writes. *)
Theorem walletApiFetch_user_token (endpoint method : string) (body : value)
    (userToken : string) (w : World) (st : num) (reply : string) (t : num)
    (rest : list NetEvent) :
  userToken <> "" ->
  URL_ok (validatorWalletUrl this ++ "/api/validator/v0/wallet/" ++ endpoint) = true ->
  net w = Responds st reply t :: rest ->
  let w1 := snd (walletApiFetch this endpoint method body (Some userToken) w) in
  let r := fst (walletApiFetch this endpoint method body (Some userToken) w) in
  sent w1 = sent w ++ [walletRequest endpoint method body userToken]
  /\ tokenCache w1 = tokenCache w
  /\ (success_status st = false ->
      r = Throw (Error ("Wallet API error (" ++ num_toString st ++ "): " ++ reply)))
  /\ (success_status st = true -> trim_nonempty reply = false -> r = Ok (VObj []))
  /\ (success_status st = true -> trim_nonempty reply = true -> r = JSON_parse reply).
Proof.
  intros NE U Hnet w1 r. subst w1 r.
  rewrite (walletApiFetch_responds _ _ _ _ _ _ _ _ _ NE U Hnet). cbn [fst snd].
  repeat apply conj; try reflexivity.
  - intros S. rewrite S. reflexivity.
  - intros S T. rewrite S, T. reflexivity.
  - intros S T. rewrite S, T. reflexivity.
Qed.

(** The body of the escrow offer, lines 661-667. *)
Definition offerBody (amount : num) (lockHolder expiresAt : string) (now : num)
    (suffix : string) : value :=
  VObj [("receiver_party_id", VStr lockHolder);
        ("amount", VStr (num_toString amount));
        ("description", VStr ("Loan collateral: " ++ num_toString amount
                              ++ " CC locked until " ++ expiresAt));
        ("expires_at", VNum (num_mul (Date_getTime expiresAt) (num_of_Z 1000)));
        ("tracking_id", VStr ("collateral-" ++ num_toString now ++ "-" ++ suffix))].

(** No escrow offer without the coins.  Once the party's amulets are known:
    (1) with none the call throws and (2) with a total below the amount it
    throws "Insufficient CC balance", with the amount and the total to four
    decimals; in both cases nothing was asked of the wallet.  (3) Otherwise
    one offer is asked for, expiring at the given date in microseconds, and
    the call returns the [offer_contract_id] of the wallet's answer. *)
Theorem lockAmulet_balance_guard (partyId : string) (amount : num)
    (lockHolder expiresAt : string) (userToken : option string) (w w1 : World)
    (amulets : list (Contract Amulet.Payload)) :
  queryAmulets this partyId w = (Ok amulets, w1) ->
  let totalCC := sum_by (fun a => calculateAmuletAmount (Amulet.amount (payload a))) amulets in
  (amulets = [] ->
   lockAmulet this partyId amount lockHolder expiresAt userToken w
   = (Throw (Error ("No Canton Coin (Amulet) holdings found for party " ++ partyId)), w1))
  /\ (amulets <> [] ->
      num_lt totalCC amount = true ->
      lockAmulet this partyId amount lockHolder expiresAt userToken w
      = (Throw (Error ("Insufficient CC balance. Need " ++ num_toString amount
                       ++ ", have " ++ num_toFixed4 totalCC)), w1))
  /\ (amulets <> [] ->
      num_lt totalCC amount = false ->
      forall suffix w2 result w3,
        random_suffix w1 = (Ok suffix, w2) ->
        walletApiFetch this "transfer-offers" "POST"
          (offerBody amount lockHolder expiresAt (clock w1) suffix) userToken w2
        = (Ok result, w3) ->
        nullish result = false ->
        lockAmulet this partyId amount lockHolder expiresAt userToken w
        = (Ok (opt_get result "offer_contract_id"), w3)).
Proof.
  intros Q totalCC. repeat apply conj.
  - intros E. unfold lockAmulet. rewrite (bind_ok _ _ _ _ _ Q). subst amulets. reflexivity.
  - intros NE L. unfold lockAmulet. rewrite (bind_ok _ _ _ _ _ Q).
    rewrite (length_nonzero _ NE). fold totalCC. rewrite L. reflexivity.
  - intros NE L suffix w2 result w3 R F D.
    unfold lockAmulet. rewrite (bind_ok _ _ _ _ _ Q).
    rewrite (length_nonzero _ NE). fold totalCC. rewrite L.
    unfold bind at 1. unfold Date_now. rewrite (bind_ok _ _ _ _ _ R).
    unfold offerBody in F. rewrite (bind_ok _ _ _ _ _ F).
    unfold lift. rewrite (get_not_nullish _ _ D). reflexivity.
Qed.

(** A transfer of coins is guarded like a lock: (1) without amulets and
    (2) with a total below the amount the call throws and nothing is asked
    of the wallet.  (3) Otherwise one transfer instruction is asked for,
    expiring 24 hours after the call, in microseconds; the call returns the
    [contract_id] of the wallet's answer, the amount, the two parties and
    the time 24 hours after the answer. *)
Theorem transferCC_balance_guard (senderPartyId recipientPartyId : string) (amount : num)
    (userToken : option string) (w w1 : World) (amulets : list (Contract Amulet.Payload)) :
  queryAmulets this senderPartyId w = (Ok amulets, w1) ->
  let totalCC := sum_by (fun a => calculateAmuletAmount (Amulet.amount (payload a))) amulets in
  (amulets = [] ->
   transferCC this senderPartyId recipientPartyId amount userToken w
   = (Throw (Error ("No Canton Coin holdings found for party " ++ senderPartyId)), w1))
  /\ (amulets <> [] ->
      num_lt totalCC amount = true ->
      transferCC this senderPartyId recipientPartyId amount userToken w
      = (Throw (Error ("Insufficient CC balance. Need " ++ num_toString amount
                       ++ ", have " ++ num_toFixed4 totalCC)), w1))
  /\ (amulets <> [] ->
      num_lt totalCC amount = false ->
      forall suffix w2 result w3 expiresAt,
        random_suffix w1 = (Ok suffix, w2) ->
        walletApiFetch this "token-standard/transfers" "POST"
          (transferBody recipientPartyId amount
             (num_mul (num_add (clock w1) (num_of_Z 86400000)) (num_of_Z 1000))
             ("transfer-" ++ num_toString (clock w1) ++ "-" ++ suffix))
          userToken w2
        = (Ok result, w3) ->
        nullish result = false ->
        Date_toISOString (num_add (clock w3) (num_of_Z 86400000)) = Ok expiresAt ->
        transferCC this senderPartyId recipientPartyId amount userToken w
        = (Ok (VObj [("success", VBool true);
                     ("contractId", opt_get result "contract_id");
                     ("amount", VNum amount);
                     ("from", VStr senderPartyId);
                     ("to", VStr recipientPartyId);
                     ("expiresAt", VStr expiresAt)]), w3)).
Proof.
  intros Q totalCC. repeat apply conj.
  - intros E. unfold transferCC. rewrite (bind_ok _ _ _ _ _ Q). subst amulets. reflexivity.
  - intros NE L. unfold transferCC. rewrite (bind_ok _ _ _ _ _ Q).
    rewrite (length_nonzero _ NE). fold totalCC. rewrite L. reflexivity.
  - intros NE L suffix w2 result w3 expiresAt R F D X.
    unfold transferCC. rewrite (bind_ok _ _ _ _ _ Q).
    rewrite (length_nonzero _ NE). fold totalCC. rewrite L.
    unfold bind at 1. unfold Date_now at 1. unfold bind at 1. unfold Date_now at 1.
    rewrite (bind_ok _ _ _ _ _ R). unfold day_ms. rewrite (bind_ok _ _ _ _ _ F).
    unfold lift, bind, Date_now. rewrite (get_not_nullish _ _ D). rewrite X. reflexivity.
Qed.

(** Accepting and rejecting a transfer try the token-standard endpoint
    first.  (1) When it answers, its answer is returned and the legacy
    endpoint is not asked.  (2) When it throws, for whatever reason, the
    error is dropped and the outcome is that of the legacy endpoint
    ([accept] for an acceptance, [withdraw] for a rejection), asked in the
    world the first call left: when both fail the caller sees the second
    error only. *)
Theorem transfer_fallback (transferId : string) (userToken : option string) (w : World) :
  (forall r w1,
      walletApiFetch this ("token-standard/transfers/" ++ transferId ++ "/accept") "POST"
        (VObj []) userToken w = (Ok r, w1) ->
      acceptTransfer this transferId userToken w = (Ok r, w1))
  /\ (forall e w1,
      walletApiFetch this ("token-standard/transfers/" ++ transferId ++ "/accept") "POST"
        (VObj []) userToken w = (Throw e, w1) ->
      acceptTransfer this transferId userToken w
      = walletApiFetch this ("transfer-offers/" ++ transferId ++ "/accept") "POST"
          (VObj []) userToken w1)
  /\ (forall r w1,
      walletApiFetch this ("token-standard/transfers/" ++ transferId ++ "/reject") "POST"
        (VObj []) userToken w = (Ok r, w1) ->
      rejectTransfer this transferId userToken w = (Ok r, w1))
  /\ (forall e w1,
      walletApiFetch this ("token-standard/transfers/" ++ transferId ++ "/reject") "POST"
        (VObj []) userToken w = (Throw e, w1) ->
      rejectTransfer this transferId userToken w
      = walletApiFetch this ("transfer-offers/" ++ transferId ++ "/withdraw") "POST"
          (VObj []) userToken w1)
  /\ (forall token st1 body1 t1 st2 body2 t2 rest,
      userToken = Some token -> token <> "" ->
      URL_ok (validatorWalletUrl this ++ "/api/validator/v0/wallet/"
              ++ "token-standard/transfers/" ++ transferId ++ "/accept") = true ->
      URL_ok (validatorWalletUrl this ++ "/api/validator/v0/wallet/"
              ++ "transfer-offers/" ++ transferId ++ "/accept") = true ->
      net w = Responds st1 body1 t1 :: Responds st2 body2 t2 :: rest ->
      success_status st1 = false ->
      success_status st2 = false ->
      fst (acceptTransfer this transferId userToken w)
      = Throw (Error ("Wallet API error (" ++ num_toString st2 ++ "): " ++ body2))
      /\ sent (snd (acceptTransfer this transferId userToken w))
         = sent w
           ++ [walletRequest ("token-standard/transfers/" ++ transferId ++ "/accept") "POST"
                 (VObj []) token;
               walletRequest ("transfer-offers/" ++ transferId ++ "/accept") "POST"
                 (VObj []) token]).
Proof.
  repeat apply conj.
  - intros r w1 H. unfold acceptTransfer. apply try_catch_ok. exact H.
  - intros e w1 H. unfold acceptTransfer. rewrite (try_catch_throw _ _ _ _ _ H). reflexivity.
  - intros r w1 H. unfold rejectTransfer. apply try_catch_ok. exact H.
  - intros e w1 H. unfold rejectTransfer. rewrite (try_catch_throw _ _ _ _ _ H). reflexivity.
  - intros token st1 body1 t1 st2 body2 t2 rest E NE U1 U2 Hnet S1 S2. subst userToken.
    pose proof (walletApiFetch_responds
                  ("token-standard/transfers/" ++ transferId ++ "/accept") "POST" (VObj [])
                  token w st1 body1 t1 (Responds st2 body2 t2 :: rest) NE U1 Hnet) as F1.
    rewrite S1 in F1.
    unfold acceptTransfer. rewrite (try_catch_throw _ _ _ _ _ F1).
    match goal with
    | |- context [walletApiFetch this ?ep ?m ?b (Some token) ?w'] =>
        rewrite (walletApiFetch_responds ep m b token w' st2 body2 t2 rest NE U2 eq_refl)
    end.
    rewrite S2. cbn [fst snd after_request sent]. split; [reflexivity |].
    rewrite <- app_assoc. reflexivity.
Qed.

End Escrow.

(** ** Onboarding and the faucet *)

Section Onboarding.
Context {N : JSNumber} {B : JSBuiltins} {I : NodeInspect}.
Variable this : Config.

(** Whatever happens to the rights request, [grantAdminActAs] returns. *)
Lemma grantAdminActAs_returns (partyId : value) (w : World) :
  fst (grantAdminActAs this partyId w) = Ok tt.
Proof.
  unfold grantAdminActAs, try_catch.
  match goal with
  | |- context [match ?body w with _ => _ end] => destruct (body w) as [[[] | e] w1]
  end; reflexivity.
Qed.

(** Registration with the validator, under the token it is made with.
    (1) A reply with a status outside 200-299 throws "Validator register
    failed" with the status and the body.  (2) A success reply without a
    [party_id] throws, and no rights request is sent.  (3) A success reply
    with a [party_id] returns it whatever happens to the rights request
    that follows: a refusal or a failure of that request is only logged.
    (4) The first argument is not used: the request carries the token and
    the body [{}] only. *)
Theorem registerWithValidator_outcomes (auth0IdOrToken : string) (userToken : option string)
    (w w1 : World) (token : value) (st : num) (reply : string) (t : num)
    (rest : list NetEvent) :
  userToken_or userToken (getValidatorToken this) w = (Ok token, w1) ->
  URL_ok (validatorWalletUrl this ++ "/api/validator/v0/register") = true ->
  net w1 = Responds st reply t :: rest ->
  let w2 :=
    after_request
      (request_of (validatorWalletUrl this ++ "/api/validator/v0/register")
         (registerRequest token)) rest t w1 in
  (success_status st = false ->
   registerWithValidator this auth0IdOrToken userToken w
   = (Throw (Error ("Validator register failed (" ++ num_toString st ++ "): " ++ reply)), w2))
  /\ (forall result,
      success_status st = true ->
      JSON_parse reply = Ok result ->
      nullish result = false ->
      truthy (opt_get result "party_id") = false ->
      registerWithValidator this auth0IdOrToken userToken w
      = (Throw (Error "Validator register did not return a party_id"), w2))
  /\ (forall result,
      success_status st = true ->
      JSON_parse reply = Ok result ->
      truthy (opt_get result "party_id") = true ->
      registerWithValidator this auth0IdOrToken userToken w
      = (Ok (opt_get result "party_id"),
         snd (grantAdminActAs this (opt_get result "party_id") w2)))
  /\ (forall other,
      registerWithValidator this other userToken w
      = registerWithValidator this auth0IdOrToken userToken w)
  /\ body (registerRequest token) = Some "{}".
Proof.
  intros T U Hnet w2.
  assert (F : customFetch (validatorWalletUrl this ++ "/api/validator/v0/register")
                (registerRequest token) w1
              = (Ok {| ok := success_status st; status := st; data := reply |}, w2))
    by (apply customFetch_responds; assumption).
  repeat apply conj.
  - intros S. unfold registerWithValidator.
    rewrite (bind_ok _ _ _ _ _ T). rewrite (bind_ok _ _ _ _ _ F).
    cbn [ok negb]. rewrite S. reflexivity.
  - intros result S P D Tr. unfold registerWithValidator.
    rewrite (bind_ok _ _ _ _ _ T). rewrite (bind_ok _ _ _ _ _ F).
    cbn [ok negb]. rewrite S. cbn [negb]. unfold json, lift, bind. cbn [data]. rewrite P.
    rewrite (get_not_nullish _ _ D). rewrite Tr. reflexivity.
  - intros result S P Tr. destruct (truthy_member _ _ Tr) as [_ D].
    unfold registerWithValidator.
    rewrite (bind_ok _ _ _ _ _ T). rewrite (bind_ok _ _ _ _ _ F).
    cbn [ok negb]. rewrite S. cbn [negb]. unfold json, lift. unfold bind at 1. cbn [data].
    rewrite P. unfold bind at 1. rewrite (get_not_nullish _ _ D). rewrite Tr. cbn [negb].
    unfold bind, ret.
    pose proof (grantAdminActAs_returns (opt_get result "party_id") w2) as G.
    destruct (grantAdminActAs this (opt_get result "party_id") w2) as [[[] | e] w3];
      [reflexivity | discriminate G].
  - reflexivity.
  - reflexivity.
Qed.

(** The issuer contract the faucet works with.  (1) An issuer the query
    finds is used, the first one, and nothing is created.  (2) When the
    query finds none, and (3) when the query throws, for whatever reason, a
    new issuer is created and the id read off the response is returned.
    (4) What is returned is the id of a contract, not empty, or
    [undefined] when the response to the creation shows no created
    contract. *)
Theorem initializeAssetIssuers_reuses (w : World) :
  (forall first others w1,
      queryContracts this [templateId this "Holding:AssetIssuer"] [adminPartyId this] w
      = (Ok (first :: others), w1) ->
      initializeAssetIssuers this w = (Ok (raw_contractId first), w1))
  /\ (forall w1,
      queryContracts this [templateId this "Holding:AssetIssuer"] [adminPartyId this] w
      = (Ok [], w1) ->
      initializeAssetIssuers this w
      = bind (submitCommand this [issuerCmd this] [adminPartyId this])
          (fun result => lift (getCreatedContractId result)) w1)
  /\ (forall e w1,
      queryContracts this [templateId this "Holding:AssetIssuer"] [adminPartyId this] w
      = (Throw e, w1) ->
      initializeAssetIssuers this w
      = bind (submitCommand this [issuerCmd this] [adminPartyId this])
          (fun result => lift (getCreatedContractId result)) w1)
  /\ (forall c w',
      initializeAssetIssuers this w = (Ok c, w') -> c = VUndef \/ truthy c = true).
Proof.
  repeat apply conj.
  - intros first others w1 Q. unfold initializeAssetIssuers, existingIssuer.
    unfold bind at 1. unfold try_catch. rewrite (bind_ok _ _ _ _ _ Q). reflexivity.
  - intros w1 Q. unfold initializeAssetIssuers, existingIssuer.
    unfold bind at 1. unfold try_catch. rewrite (bind_ok _ _ _ _ _ Q). reflexivity.
  - intros e w1 Q. unfold initializeAssetIssuers, existingIssuer.
    unfold bind at 1. unfold try_catch. rewrite (bind_throw _ _ _ _ _ Q). reflexivity.
  - intros c w'. unfold initializeAssetIssuers, existingIssuer.
    unfold bind at 1. unfold try_catch.
    destruct (queryContracts this [templateId this "Holding:AssetIssuer"] [adminPartyId this] w)
      as [[issuers | e] w1] eqn:Q.
    + rewrite (bind_ok _ _ _ _ _ Q). unfold ret at 1.
      destruct issuers as [| first others].
      * intros H. apply bind_returns in H. destruct H as [result [w2 [_ H]]].
        apply lift_returns in H. destruct H as [H _].
        apply (getCreatedContractId_cases _ _ H).
      * unfold ret. intros H. inversion H. subst. right.
        pose proof (queryContracts_ids _ _ _ _ _ _ Q) as F. inversion F. assumption.
    + rewrite (bind_throw _ _ _ _ _ Q). unfold ret at 1.
      intros H. apply bind_returns in H. destruct H as [result [w2 [_ H]]].
      apply lift_returns in H. destruct H as [H _].
      apply (getCreatedContractId_cases _ _ H).
Qed.

(** The faucet never throws: whatever fails on the way, it answers
    [success: false] with the message of the error and writes the error to
    the log; only (3) when the issuer is at hand and the ledger accepts the
    command it answers [success: true].  (4) The amount issued is 100000
    when none is given and when the one given is falsy, as 0 is. *)
Theorem issueTokensToParty_reports (partyId : string) (amount : option num) (w : World) :
  (exists r w', issueTokensToParty this partyId amount w = (Ok r, w'))
  /\ (forall e w1,
      initializeAssetIssuers this w = (Throw e, w1) ->
      issueTokensToParty this partyId amount w
      = (Ok {| IssueResult.success := false; IssueResult.message := exn_message e |},
         add_console ("Error issuing USDC: " ++ inspect e) w1))
  /\ (forall cid w1 e w2,
      initializeAssetIssuers this w = (Ok cid, w1) ->
      submitCommand this [issueCmd this cid partyId (usdcAmount_of amount)]
        [adminPartyId this; partyId] w1 = (Throw e, w2) ->
      issueTokensToParty this partyId amount w
      = (Ok {| IssueResult.success := false; IssueResult.message := exn_message e |},
         add_console ("Error issuing USDC: " ++ inspect e) w2))
  /\ (forall cid w1 r w2,
      initializeAssetIssuers this w = (Ok cid, w1) ->
      submitCommand this [issueCmd this cid partyId (usdcAmount_of amount)]
        [adminPartyId this; partyId] w1 = (Ok r, w2) ->
      issueTokensToParty this partyId amount w
      = (Ok {| IssueResult.success := true;
               IssueResult.message :=
                 "Successfully issued " ++ num_toString (usdcAmount_of amount)
                 ++ " USDC (CC comes from real Canton Coins)" |}, w2))
  /\ usdcAmount_of None = num_of_Z 100000
  /\ (forall a, num_truthy a = false -> usdcAmount_of (Some a) = num_of_Z 100000)
  /\ (forall a, num_truthy a = true -> usdcAmount_of (Some a) = a).
Proof.
  repeat apply conj.
  - unfold issueTokensToParty, try_catch.
    match goal with
    | |- context [match ?body w with _ => _ end] => destruct (body w) as [[r | e] w1]
    end.
    + exists r, w1. reflexivity.
    + eexists. eexists. reflexivity.
  - intros e w1 H. unfold issueTokensToParty.
    rewrite (try_catch_throw _ _ _ _ _ (bind_throw _ _ _ _ _ H)). reflexivity.
  - intros cid w1 e w2 H S. unfold issueTokensToParty.
    erewrite try_catch_throw; [reflexivity |].
    rewrite (bind_ok _ _ _ _ _ H). rewrite (bind_throw _ _ _ _ _ S). reflexivity.
  - intros cid w1 r w2 H S. unfold issueTokensToParty.
    erewrite try_catch_ok; [reflexivity |].
    rewrite (bind_ok _ _ _ _ _ H). rewrite (bind_ok _ _ _ _ _ S). reflexivity.
  - reflexivity.
  - intros a F. unfold usdcAmount_of. rewrite F. reflexivity.
  - intros a T. unfold usdcAmount_of. rewrite T. reflexivity.
Qed.

End Onboarding.

(** ** Offers, loans and transfers *)

Section Lending.
Context {N : JSNumber} {B : JSBuiltins} {I : NodeInspect}.
Variable this : Config.

(** Accepting an offer locks the acceptor's side and submits one
    AcceptHybrid command for the initiator, the acceptor and the admin.
    (1) For a BorrowerBid the acceptor's USDC is locked for the loan amount,
    in favour of the initiator: the command carries the reference of that
    lock, which is not empty, as [acceptorUSDCCid], and [null] as
    [acceptorCCReference].  (2) For any other offer type the acceptor's
    coins are put in escrow for the collateral amount until the end of the
    maturity date, and the command carries what the escrow returned as
    [acceptorCCReference], and [null] as [acceptorUSDCCid].  In both cases a
    lock that throws ends the call: no command is submitted. *)
Theorem acceptLoanOffer_locks (partyId offerContractId : string)
    (offer : Contract LoanOfferHybrid.Payload) (userToken : option string) (w : World) :
  let p := payload offer in
  let actAs := [LoanOfferHybrid.initiator p; partyId; adminPartyId this] in
  (LoanOfferHybrid.offerType p = "BorrowerBid" ->
   (forall lockRef w1,
       lockUSDC this partyId (parseFloat (LoanOfferHybrid.loanAmount p))
         ("Accepting offer " ++ offerContractId) (LoanOfferHybrid.initiator p) w
       = (Ok lockRef, w1) ->
       truthy lockRef = true
       /\ acceptLoanOffer this partyId offerContractId offer userToken w
          = submitCommand this [acceptCmd this partyId offerContractId lockRef VNull] actAs w1)
   /\ (forall e w1,
       lockUSDC this partyId (parseFloat (LoanOfferHybrid.loanAmount p))
         ("Accepting offer " ++ offerContractId) (LoanOfferHybrid.initiator p) w
       = (Throw e, w1) ->
       acceptLoanOffer this partyId offerContractId offer userToken w = (Throw e, w1)))
  /\ (LoanOfferHybrid.offerType p <> "BorrowerBid" ->
      forall expiresAt,
        Date_toISOString (Date_getTime (LoanOfferHybrid.maturityDate p ++ "T23:59:59Z"))
        = Ok expiresAt ->
        (forall lockRef w1,
            lockAmulet this partyId (parseFloat (LoanOfferHybrid.collateralAmount p))
              (adminPartyId this) expiresAt userToken w = (Ok lockRef, w1) ->
            acceptLoanOffer this partyId offerContractId offer userToken w
            = submitCommand this [acceptCmd this partyId offerContractId VNull lockRef] actAs w1)
        /\ (forall e w1,
            lockAmulet this partyId (parseFloat (LoanOfferHybrid.collateralAmount p))
              (adminPartyId this) expiresAt userToken w = (Throw e, w1) ->
            acceptLoanOffer this partyId offerContractId offer userToken w = (Throw e, w1))).
Proof.
  intros p actAs. split.
  - intros T. split.
    + intros lockRef w1 L. split; [apply (lockUSDC_returns _ _ _ _ _ _ _ _ L) |].
      unfold acceptLoanOffer, acceptLocks. fold p. rewrite T. cbn [String.eqb Ascii.eqb Bool.eqb].
      unfold bind at 1. unfold bind at 1. fold p in L. rewrite L. reflexivity.
    + intros e w1 L.
      unfold acceptLoanOffer, acceptLocks. fold p. rewrite T. cbn [String.eqb Ascii.eqb Bool.eqb].
      unfold bind at 1. unfold bind at 1. rewrite L. reflexivity.
  - intros T expiresAt D.
    assert (E : String.eqb (LoanOfferHybrid.offerType p) "BorrowerBid" = false)
      by (destruct (String.eqb_spec (LoanOfferHybrid.offerType p) "BorrowerBid");
          [contradiction | reflexivity]).
    split.
    + intros lockRef w1 L.
      unfold acceptLoanOffer, acceptLocks. fold p. rewrite E.
      unfold bind at 1. unfold bind at 1. unfold lift. rewrite D.
      unfold bind at 1. rewrite L. reflexivity.
    + intros e w1 L.
      unfold acceptLoanOffer, acceptLocks. fold p. rewrite E.
      unfold bind at 1. unfold bind at 1. unfold lift. rewrite D.
      unfold bind at 1. rewrite L. reflexivity.
Qed.

Lemma find_none {A} (p : A -> bool) (l : list A) :
  Forall (fun y => p y = false) l -> List.find p l = None.
Proof.
  induction 1 as [| y l Hy _ IH]; [reflexivity |]. cbn [List.find]. rewrite Hy. exact IH.
Qed.

(** A loan that is not among the party's active loans can neither be repaid
    nor claimed: both calls throw "Loan ... not found" once the loans are
    known, and submit nothing. *)
Theorem unknown_loan_rejected (partyId loanContractId : string) (w w0 w1 : World)
    (today : string) (loans : list (Contract ActiveLoanHybrid.Payload)) :
  today_iso w = (Ok today, w0) ->
  queryActiveLoans this partyId w0 = (Ok loans, w1) ->
  Forall (fun l => is_str (contractId l) loanContractId = false) loans ->
  (forall repaymentAmount userToken,
      repayLoan this partyId loanContractId repaymentAmount userToken w
      = (Throw (Error ("Loan " ++ loanContractId ++ " not found")), w1))
  /\ (forall overrideClaimDate userToken,
      defaultLoan this partyId loanContractId overrideClaimDate userToken w
      = (Throw (Error ("Loan " ++ loanContractId ++ " not found")), w1)).
Proof.
  intros T Q F. split.
  - intros repaymentAmount userToken. unfold repayLoan.
    rewrite (bind_ok _ _ _ _ _ T). rewrite (bind_ok _ _ _ _ _ Q).
    unfold find_loan. rewrite (find_none _ _ F). reflexivity.
  - intros overrideClaimDate userToken. unfold defaultLoan.
    rewrite (bind_ok _ _ _ _ _ T). rewrite (bind_ok _ _ _ _ _ Q).
    unfold find_loan. rewrite (find_none _ _ F). reflexivity.
Qed.

(** The Transfer command of [transferUSDC]. *)
Definition transferCmd (holding : Contract AssetHolding.Payload) (recipientPartyId : string)
    : value :=
  exerciseCmd (templateId this "Holding:AssetHolding") (contractId holding) "Transfer"
    (VObj [("newOwner", VStr recipientPartyId)]).

Lemma allocateExact_worth (log : bool) (partyId : string) (amount : num) (w w1 : World)
    (h : Contract AssetHolding.Payload) :
  allocateExact this log partyId amount w = (Ok h, w1) ->
  num_eq (holding_amount h) amount = true
  \/ AssetHolding.amount (payload h) = num_toString amount.
Proof.
  unfold allocateExact. intros H.
  apply bind_returns in H. destruct H as [holdings [w0 [_ H]]].
  destruct (length (List.filter (is_usdc_of partyId) holdings) =? 0)%nat; [discriminate H |].
  destruct (List.find (fun h => num_eq (holding_amount h) amount)
              (List.filter (is_usdc_of partyId) holdings)) as [exactMatch |] eqn:E.
  - apply ret_returns in H. destruct H as [H _]. subst exactMatch.
    left. apply find_some in E. apply E.
  - destruct (List.find (fun h => num_ge (holding_amount h) amount)
                (List.filter (is_usdc_of partyId) holdings)) as [largeEnough |];
      [| discriminate H].
    apply bind_returns in H. destruct H as [splitResult [w2 [_ H]]].
    apply splitSuccessor_returns in H. destruct H as [P _].
    right. rewrite P. reflexivity.
Qed.

(** A transfer of USDC hands over the holding the allocation returned, as a
    whole, with the sender and the recipient acting; that holding is worth
    the amount asked for: its amount equals it, or is the amount printed,
    for the successor of a split.  (1) When the allocation throws, nothing
    is transferred; (2) when the ledger refuses the Transfer, its error is
    thrown; (3) otherwise the call reports the amount asked for, the two
    parties and the transaction id of the response. *)
Theorem transferUSDC_hands_over_allocation (senderPartyId recipientPartyId : string)
    (amount : num) (w : World) :
  (forall h w1,
      allocateExact this false senderPartyId amount w = (Ok h, w1) ->
      num_eq (holding_amount h) amount = true
      \/ AssetHolding.amount (payload h) = num_toString amount)
  /\ (forall e w1,
      allocateExact this false senderPartyId amount w = (Throw e, w1) ->
      transferUSDC this senderPartyId recipientPartyId amount w = (Throw e, w1))
  /\ (forall h w1 e w2,
      allocateExact this false senderPartyId amount w = (Ok h, w1) ->
      submitCommand this [transferCmd h recipientPartyId] [senderPartyId; recipientPartyId] w1
      = (Throw e, w2) ->
      transferUSDC this senderPartyId recipientPartyId amount w = (Throw e, w2))
  /\ (forall h w1 r w2,
      allocateExact this false senderPartyId amount w = (Ok h, w1) ->
      submitCommand this [transferCmd h recipientPartyId] [senderPartyId; recipientPartyId] w1
      = (Ok r, w2) ->
      nullish r = false ->
      transferUSDC this senderPartyId recipientPartyId amount w
      = (Ok (VObj [("success", VBool true);
                   ("amount", VNum amount);
                   ("from", VStr senderPartyId);
                   ("to", VStr recipientPartyId);
                   ("transactionId", opt_get (opt_get r "transaction") "transactionId")]),
         w2)).
Proof.
  repeat apply conj.
  - intros h w1 A. apply (allocateExact_worth _ _ _ _ _ _ A).
  - intros e w1 A. unfold transferUSDC. rewrite (bind_throw _ _ _ _ _ A). reflexivity.
  - intros h w1 e w2 A S. unfold transferUSDC. rewrite (bind_ok _ _ _ _ _ A).
    unfold transferCmd in S. rewrite (bind_throw _ _ _ _ _ S). reflexivity.
  - intros h w1 r w2 A S D. unfold transferUSDC. rewrite (bind_ok _ _ _ _ _ A).
    unfold transferCmd in S. rewrite (bind_ok _ _ _ _ _ S).
    unfold bind, lift, ret. rewrite (get_not_nullish _ _ D). reflexivity.
Qed.

(** A LenderAsk cannot be offered without the principal.  Once the party's
    holdings are known: (1) with no USDC holding of the party's own the
    call throws "No USDC holdings found"; (2) when no single holding equals
    or covers the loan amount it throws "Insufficient USDC balance", with
    the amount and the sum of the holdings.  In both cases nothing is
    locked and no offer is created: the world is the one the query left. *)
Theorem createLoanOffer_needs_principal (partyId : string) (offer : OfferSpec.t)
    (userToken : option string) (w w0 w1 : World) (today : string)
    (holdings : list (Contract AssetHolding.Payload)) :
  OfferSpec.offerType offer = LenderAsk ->
  today_iso w = (Ok today, w0) ->
  queryAssetHoldings this partyId w0 = (Ok holdings, w1) ->
  let usdcHoldings := List.filter (is_usdc_of partyId) holdings in
  let amount := parseFloat (OfferSpec.loanAmount offer) in
  (usdcHoldings = [] ->
   createLoanOffer this partyId offer userToken w
   = (Throw (Error ("No USDC holdings found for party " ++ partyId)), w1))
  /\ (usdcHoldings <> [] ->
      Forall (fun h => num_eq (holding_amount h) amount = false) usdcHoldings ->
      Forall (fun h => num_ge (holding_amount h) amount = false) usdcHoldings ->
      createLoanOffer this partyId offer userToken w
      = (Throw (Error ("Insufficient USDC balance. Need " ++ num_toString amount
                       ++ ", have " ++ num_toString (sum_by holding_amount usdcHoldings))),
         w1)).
Proof.
  intros T D Q usdcHoldings amount. split.
  - intros E. unfold createLoanOffer. rewrite (bind_ok _ _ _ _ _ D).
    unfold offerLocks. rewrite T. unfold lockUSDC.
    unfold bind at 1. unfold bind at 1. unfold bind at 1.
    rewrite (allocateExact_after_query _ _ _ _ _ _ _ Q).
    fold usdcHoldings. rewrite E. reflexivity.
  - intros NE F1 F2. unfold createLoanOffer. rewrite (bind_ok _ _ _ _ _ D).
    unfold offerLocks. rewrite T. unfold lockUSDC.
    unfold bind at 1. unfold bind at 1. unfold bind at 1.
    rewrite (allocateExact_after_query _ _ _ _ _ _ _ Q).
    fold usdcHoldings. fold amount. cbv zeta.
    rewrite (length_nonzero _ NE).
    rewrite (find_none _ _ F1). rewrite (find_none _ _ F2). reflexivity.
Qed.

(** The Lock command of [lockUSDC]. *)
Definition lockCmd (holding : Contract AssetHolding.Payload) (lockReason releaseTo : string)
    : value :=
  exerciseCmd (templateId this "Holding:AssetHolding") (contractId holding) "Lock"
    (VObj [("lockReason", VStr lockReason); ("releaseTo", VStr releaseTo)]).

(** The reference of a lock.  Once the holding is allocated and the ledger
    has accepted the Lock: (1) a result of the choice that is a string and
    not empty is the reference; (2) otherwise the reference is the id of
    the first contract the transaction created; (3) when there is none, the
    response is written to the error log, cut at 2000 characters, and the
    call throws "Lock did not return expected contract ID", the holding
    being locked on the ledger all the same. *)
Theorem lockUSDC_reference (partyId : string) (amount : num) (lockReason releaseTo : string)
    (w w1 w2 : World) (h : Contract AssetHolding.Payload) (lockResult er : value) :
  allocateExact this true partyId amount w = (Ok h, w1) ->
  submitCommand this [lockCmd h lockReason releaseTo] [partyId] w1 = (Ok lockResult, w2) ->
  getExerciseResult lockResult = Ok er ->
  (truthy er && is_string er = true ->
   lockUSDC this partyId amount lockReason releaseTo w = (Ok er, w2))
  /\ (truthy er && is_string er = false ->
      forall c,
        getCreatedContractId lockResult = Ok c ->
        (truthy c = true ->
         lockUSDC this partyId amount lockReason releaseTo w = (Ok c, w2))
        /\ (truthy c = false ->
            lockUSDC this partyId amount lockReason releaseTo w
            = (Throw (Error "Lock did not return expected contract ID"),
               add_console ("Lock result structure: "
                            ++ String.substring 0 2000 (JSON_stringify_pretty lockResult))
                 w2))).
Proof.
  intros A S X. split.
  - intros T. apply andb_true_iff in T. destruct T as [T1 T2].
    unfold lockUSDC. rewrite (bind_ok _ _ _ _ _ A).
    unfold lockCmd in S. rewrite (bind_ok _ _ _ _ _ S).
    unfold bind at 1. unfold lift at 1. rewrite X. rewrite T1, T2. cbn [negb orb].
    unfold bind, ret. rewrite T1. reflexivity.
  - intros T c C.
    assert (T' : negb (truthy er) || negb (is_string er) = true).
    { destruct (truthy er); destruct (is_string er); try reflexivity. discriminate T. }
    split; intros Tc.
    + unfold lockUSDC. rewrite (bind_ok _ _ _ _ _ A).
      unfold lockCmd in S. rewrite (bind_ok _ _ _ _ _ S).
      unfold bind at 1. unfold lift at 1. rewrite X. rewrite T'.
      unfold bind, lift, ret. rewrite C. rewrite Tc. reflexivity.
    + unfold lockUSDC. rewrite (bind_ok _ _ _ _ _ A).
      unfold lockCmd in S. rewrite (bind_ok _ _ _ _ _ S).
      unfold bind at 1. unfold lift at 1. rewrite X. rewrite T'.
      unfold bind, lift. rewrite C. rewrite Tc. reflexivity.
Qed.

Definition foreign_holding (partyId : string) (h : Contract AssetHolding.Payload) : Prop :=
  AssetHolding.assetType (payload h) <> "USDC" \/ AssetHolding.owner (payload h) <> partyId.

Definition foreign_locked_holding (partyId : string)
    (h : Contract LockedAssetHolding.Payload) : Prop :=
  LockedAssetHolding.assetType (payload h) <> "USDC"
  \/ LockedAssetHolding.owner (payload h) <> partyId.

Lemma foreign_holding_filtered (partyId : string) (l : list (Contract AssetHolding.Payload)) :
  Forall (foreign_holding partyId) l -> List.filter (is_usdc_of partyId) l = [].
Proof.
  intros F. apply filter_none. apply (List.Forall_impl _ (P := foreign_holding partyId)); [| exact F].
  intros h [T | O]; unfold is_usdc_of; apply andb_false_iff; [left | right];
    apply String.eqb_neq; assumption.
Qed.

Lemma foreign_locked_holding_filtered (partyId : string)
    (l : list (Contract LockedAssetHolding.Payload)) :
  Forall (foreign_locked_holding partyId) l -> List.filter (is_locked_usdc_of partyId) l = [].
Proof.
  intros F. apply filter_none.
  apply (List.Forall_impl _ (P := foreign_locked_holding partyId)); [| exact F].
  intros h [T | O]; unfold is_locked_usdc_of; apply andb_false_iff; [left | right];
    apply String.eqb_neq; assumption.
Qed.

(** A balance counts the party's own USDC only.  Take two calls of
    [getTokenBalances] for the same party whose five queries return the
    same contracts, but that in the first the ledger returns, among the
    free holdings and among the locked ones, further holdings of another
    asset type or of another owner, wherever they stand.  Then both calls
    return, and they return the same snapshot: the further holdings change
    no figure.  In it [available] is the sum of the amounts of the free
    holdings without them, and [locked] that of the locked ones. *)
Theorem getTokenBalances_counts_own_usdc (partyId : string)
    (before foreign after : list (Contract AssetHolding.Payload))
    (lockedBefore lockedForeign lockedAfter : list (Contract LockedAssetHolding.Payload))
    (activeLoans : list (Contract ActiveLoanHybrid.Payload))
    (amulets : list (Contract Amulet.Payload))
    (lockedAmulets : list (Contract LockedAmulet.Payload))
    (w w1 w2 w3 w4 w5 v v1 v2 v3 v4 v5 : World) :
  Forall (foreign_holding partyId) foreign ->
  Forall (foreign_locked_holding partyId) lockedForeign ->
  queryAssetHoldings this partyId w = (Ok (before ++ foreign ++ after), w1) ->
  queryLockedAssetHoldings this partyId w1
  = (Ok (lockedBefore ++ lockedForeign ++ lockedAfter), w2) ->
  queryActiveLoans this partyId w2 = (Ok activeLoans, w3) ->
  queryAmulets this partyId w3 = (Ok amulets, w4) ->
  queryLockedAmulets this partyId w4 = (Ok lockedAmulets, w5) ->
  queryAssetHoldings this partyId v = (Ok (before ++ after), v1) ->
  queryLockedAssetHoldings this partyId v1 = (Ok (lockedBefore ++ lockedAfter), v2) ->
  queryActiveLoans this partyId v2 = (Ok activeLoans, v3) ->
  queryAmulets this partyId v3 = (Ok amulets, v4) ->
  queryLockedAmulets this partyId v4 = (Ok lockedAmulets, v5) ->
  exists usdc cc,
    getTokenBalances this partyId w = (Ok (usdc, cc), w5)
    /\ getTokenBalances this partyId v = (Ok (usdc, cc), v5)
    /\ TokenBalance.available usdc
       = sum_by holding_amount (List.filter (is_usdc_of partyId) (before ++ after))
    /\ TokenBalance.locked usdc
       = sum_by (fun h => parseFloat (LockedAssetHolding.amount (payload h)))
           (List.filter (is_locked_usdc_of partyId) (lockedBefore ++ lockedAfter))
    /\ TokenBalance.total usdc
       = num_add (TokenBalance.available usdc) (TokenBalance.locked usdc).
Proof.
  intros F LF Q1 Q2 Q3 Q4 Q5 R1 R2 R3 R4 R5.
  exists (fst (snapshot partyId (before ++ after) (lockedBefore ++ lockedAfter) activeLoans
                 amulets lockedAmulets)),
    (snd (snapshot partyId (before ++ after) (lockedBefore ++ lockedAfter) activeLoans
            amulets lockedAmulets)).
  split; [| split; [| repeat split]].
  - apply getTokenBalances_returns.
    exists (before ++ foreign ++ after), w1, (lockedBefore ++ lockedForeign ++ lockedAfter), w2,
      activeLoans, w3, amulets, w4, lockedAmulets.
    repeat (split; [assumption |]).
    unfold snapshot. rewrite !List.filter_app.
    rewrite (foreign_holding_filtered _ _ F), (foreign_locked_holding_filtered _ _ LF).
    reflexivity.
  - apply getTokenBalances_returns.
    exists (before ++ after), v1, (lockedBefore ++ lockedAfter), v2,
      activeLoans, v3, amulets, v4, lockedAmulets.
    repeat (split; [assumption |]). reflexivity.
Qed.

End Lending.

(** ** The explorer: what it returns *)

Section ExplorerResults.
Context {N : JSNumber} {B : JSBuiltins}.
Variable this : Config.

Lemma is_str_eq (v : value) (lit : string) : is_str v lit = true -> v = VStr lit.
Proof.
  destruct v; cbn [is_str]; intros H; try discriminate H.
  apply String.eqb_eq in H. subst. reflexivity.
Qed.

Lemma normalizeItem_id (obj : value) (tx : Transaction.t) :
  normalizeItem obj = Ok (Some tx) -> truthy (Transaction.transactionId tx) = true.
Proof.
  unfold normalizeItem. destruct (unwrapTransaction obj) as [t | e]; [| intros H; discriminate H].
  cbn [res_bind].
  destruct (truthy (opt_get t "updateId")) eqn:U; cbn [negb andb].
  - destruct (as_array (or_else (opt_get t "events") (VArr []))) as [es | e];
      [| intros H; discriminate H]. cbn [res_bind].
    destruct (normalizeEvents es) as [evs | e]; [| intros H; discriminate H]. cbn [res_bind].
    intros H. inversion H. subst. cbn [Transaction.transactionId].
    unfold or_else. rewrite U. exact U.
  - destruct (truthy (opt_get t "transactionId")) eqn:T; cbn [negb].
    + destruct (as_array (or_else (opt_get t "events") (VArr []))) as [es | e];
        [| intros H; discriminate H]. cbn [res_bind].
      destruct (normalizeEvents es) as [evs | e]; [| intros H; discriminate H]. cbn [res_bind].
      intros H. inversion H. subst. cbn [Transaction.transactionId].
      unfold or_else. rewrite U. exact T.
    + intros H. discriminate H.
Qed.

Lemma normalizeItems_ids (items : list value) (txs : list Transaction.t) :
  normalizeItems items = Ok txs ->
  Forall (fun tx => truthy (Transaction.transactionId tx) = true) txs
  /\ length txs <= length items.
Proof.
  revert txs. induction items as [| obj rest IH]; cbn [normalizeItems]; intros txs H.
  - inversion H. split; [constructor | reflexivity].
  - destruct (normalizeItem obj) as [t | e] eqn:E; [| discriminate H]. cbn [res_bind] in H.
    destruct (normalizeItems rest) as [ts | e]; [| discriminate H]. cbn [res_bind] in H.
    destruct (IH ts eq_refl) as [F L].
    destruct t as [t |]; inversion H; subst.
    + split; [| cbn [length]; lia]. constructor; [| exact F]. apply (normalizeItem_id _ _ E).
    + split; [exact F | cbn [length]; lia].
Qed.

Lemma Forall_firstn {A} (P : A -> Prop) (n : nat) (l : list A) :
  Forall P l -> Forall P (firstn n l).
Proof.
  intros F. revert n. induction F as [| x l Hx _ IH]; intros [| n]; cbn [firstn];
    constructor; [exact Hx | apply IH].
Qed.

Lemma getTransactionStream_inv (partyId : string) (fromOffset : option string)
    (w w' : World) (txs : list Transaction.t) :
  getTransactionStream this partyId fromOffset w = (Ok txs, w') ->
  Forall (fun tx => truthy (Transaction.transactionId tx) = true) txs.
Proof.
  unfold getTransactionStream. intros H.
  apply bind_returns in H. destruct H as [token [w1 [_ H]]].
  apply bind_returns in H. destruct H as [response [w2 [_ H]]].
  destruct (negb (ok response)).
  - apply bind_returns in H. destruct H as [errorText [w3 [_ H]]]. discriminate H.
  - apply bind_returns in H. destruct H as [txt [w3 [_ H]]].
    apply bind_returns in H. destruct H as [transactions [w4 [L H]]].
    apply lift_returns in L. destruct L as [L _].
    apply ret_returns in H. destruct H as [H _]. subst txs.
    apply Forall_firstn. apply (normalizeItems_ids _ _ L).
Qed.

(** Every transaction of the stream carries an id that is not empty: items
    without [updateId] and [transactionId] are passed over, so there are
    never more transactions than items.  A stream request the ledger
    answers with a status outside 200-299 throws "Failed to fetch
    transactions" with the status and the body. *)
Theorem getTransactionStream_transaction_ids (partyId : string) (fromOffset : option string)
    (w : World) :
  (forall txs w',
      getTransactionStream this partyId fromOffset w = (Ok txs, w') ->
      Forall (fun tx => truthy (Transaction.transactionId tx) = true) txs)
  /\ (forall items txs,
      normalizeItems items = Ok txs -> length txs <= length items)
  /\ (forall obj tx,
      normalizeItem obj = Ok (Some tx) -> truthy (Transaction.transactionId tx) = true)
  /\ (forall token w1 st reply t rest,
      getLedgerApiToken this w = (Ok token, w1) ->
      URL_ok (jsonApiUrl this ++ "/v2/updates/flats") = true ->
      net w1 = Responds st reply t :: rest ->
      success_status st = false ->
      getTransactionStream this partyId fromOffset w
      = (Throw (Error ("Failed to fetch transactions: " ++ num_toString st ++ " - " ++ reply)),
         after_request
           (request_of (jsonApiUrl this ++ "/v2/updates/flats")
              (streamRequest partyId fromOffset token)) rest t w1)).
Proof.
  repeat apply conj.
  - intros txs w' H. apply (getTransactionStream_inv _ _ _ _ _ H).
  - intros items txs H. apply (normalizeItems_ids _ _ H).
  - apply normalizeItem_id.
  - intros token w1 st reply t rest T U Hnet S. unfold getTransactionStream.
    rewrite (bind_ok _ _ _ _ _ T).
    rewrite (bind_ok _ _ _ _ _ (customFetch_responds _ _ _ _ _ _ _ U Hnet)).
    cbn [ok negb]. rewrite S. reflexivity.
Qed.

Lemma getTransactionById_found (partyId transactionId : string) (w w' : World)
    (tx : Transaction.t) :
  getTransactionById this partyId transactionId w = (Ok (Some tx), w') ->
  Transaction.transactionId tx = VStr transactionId.
Proof.
  unfold getTransactionById. intros H.
  apply bind_returns in H. destruct H as [txs [w1 [_ H]]].
  apply ret_returns in H. destruct H as [H _].
  apply find_some in H. destruct H as [_ H]. apply (is_str_eq _ _ H).
Qed.

(** The two lookups return only what was asked for.  (1) A transaction
    found by id has that id, as a string.  (2) Every transaction of the
    history of a contract has an event on that contract, and (3) the history
    is part of the stream read from the start: at most 50 transactions. *)
Theorem explorer_lookups_are_exact (partyId : string) (w : World) :
  (forall transactionId tx w',
      getTransactionById this partyId transactionId w = (Ok (Some tx), w') ->
      Transaction.transactionId tx = VStr transactionId)
  /\ (forall contractId txs w',
      getContractHistory this partyId contractId w = (Ok txs, w') ->
      Forall (fun tx => exists e, In e (Transaction.events tx)
                                  /\ TransactionEvent.contractId e = VStr contractId) txs)
  /\ (forall contractId txs w',
      getContractHistory this partyId contractId w = (Ok txs, w') ->
      exists stream,
        getTransactionStream this partyId None w = (Ok stream, w')
        /\ (forall tx, In tx txs -> In tx stream)
        /\ length txs <= 50).
Proof.
  repeat apply conj.
  - intros transactionId tx w' H. apply (getTransactionById_found _ _ _ _ _ H).
  - intros contractId txs w'. unfold getContractHistory. intros H.
    apply bind_returns in H. destruct H as [stream [w1 [_ H]]].
    apply ret_returns in H. destruct H as [H _]. subst txs.
    apply List.Forall_forall. intros tx Hin. apply filter_In in Hin. destruct Hin as [_ Hin].
    apply existsb_exists in Hin. destruct Hin as [e [He Hc]].
    exists e. split; [exact He | apply (is_str_eq _ _ Hc)].
  - intros contractId txs w'. unfold getContractHistory. intros H.
    apply bind_returns in H. destruct H as [stream [w1 [S H]]].
    apply ret_returns in H. destruct H as [H E]. subst txs w1.
    exists stream. split; [exact S |]. split.
    + intros tx Hin. apply filter_In in Hin. apply Hin.
    + etransitivity; [apply List.filter_length_le |].
      unfold getTransactionStream in S.
      apply bind_returns in S. destruct S as [token [w1 [_ S]]].
      apply bind_returns in S. destruct S as [response [w2 [_ S]]].
      destruct (negb (ok response)).
      * apply bind_returns in S. destruct S as [errorText [w3 [_ S]]]. discriminate S.
      * apply bind_returns in S. destruct S as [txt [w3 [_ S]]].
        apply bind_returns in S. destruct S as [transactions [w4 [_ S]]].
        apply ret_returns in S. destruct S as [S _]. subst stream.
        apply firstn_le_length.
Qed.

End ExplorerResults.

(** ** The callers: what they let through *)

Section Callers.
Context {N : JSNumber} {B : JSBuiltins} {I : NodeInspect}.
Variable damlService : Config.

Lemma prefix_app (t s : string) :
  String.prefix t s = true <-> exists b, s = (t ++ b)%string.
Proof.
  revert s. induction t as [| c t IH]; intros s.
  - split; [intros _; exists s; reflexivity | intros _; destruct s; reflexivity].
  - destruct s as [| d s]; cbn [String.prefix].
    + split; [intros H; discriminate H | intros [b H]; discriminate H].
    + destruct (Ascii.ascii_dec c d) as [E | NE].
      * subst d. rewrite IH. split.
        -- intros [b H]. exists b. subst s. reflexivity.
        -- intros [b H]. exists b. inversion H. reflexivity.
      * split; [intros H; discriminate H |].
        intros [b H]. inversion H. congruence.
Qed.

Lemma append_associative (a b c : string) : ((a ++ b) ++ c = a ++ b ++ c)%string.
Proof.
  induction a as [| x a IH]; [reflexivity |].
  change (String x ((a ++ b) ++ c) = String x (a ++ b ++ c))%string. rewrite IH. reflexivity.
Qed.

Lemma includes_app (s t : string) :
  includes s t = true <-> exists a b, s = (a ++ t ++ b)%string.
Proof.
  induction s as [| c s IH].
  - cbn [includes]. rewrite orb_false_r. rewrite prefix_app. split.
    + intros [b H]. exists "", b. exact H.
    + intros [a [b H]]. destruct a as [| x a]; [exists b; exact H | discriminate H].
  - cbn [includes]. rewrite orb_true_iff, prefix_app, IH. split.
    + intros [[b H] | [a [b H]]].
      * exists "", b. exact H.
      * exists (String c a), b. rewrite H. reflexivity.
    + intros [a [b H]]. destruct a as [| x a].
      * left. exists b. exact H.
      * right. exists a, b. inversion H. reflexivity.
Qed.

(** The party id check of the services accepts exactly the strings that
    contain [::] and contain [1220], anywhere and in any order.  So every id
    of the documented form [name::1220...] passes, and so does a string
    such as [1220::] that names no party. *)
Theorem validatePartyId_accepts (partyId : string) :
  (validatePartyId partyId = true
   <-> (exists a b, partyId = (a ++ "::" ++ b)%string)
       /\ (exists a b, partyId = (a ++ "1220" ++ b)%string))
  /\ (forall name rest, validatePartyId (name ++ "::1220" ++ rest) = true)
  /\ validatePartyId "1220::" = true.
Proof.
  split; [| split].
  - unfold validatePartyId. rewrite andb_true_iff, !includes_app. reflexivity.
  - intros name rest. unfold validatePartyId. apply andb_true_iff. rewrite !includes_app. split.
    + exists name, ("1220" ++ rest)%string. reflexivity.
    + exists (name ++ "::")%string, rest. rewrite append_associative. reflexivity.
  - reflexivity.
Qed.

Lemma ensureValidPartyId_rejects {X} (partyId : string) (k : M X) (w : World) :
  validatePartyId partyId = false ->
  bind (ensureValidPartyId partyId) (fun _ => k) w
  = (Throw (BadRequestException "Invalid party ID format. Expected format: partyName::1220..."),
     w).
Proof. intros V. unfold bind, ensureValidPartyId. rewrite V. reflexivity. Qed.

Lemma ensureValidPartyId_passes {X} (partyId : string) (k : M X) (w : World) :
  validatePartyId partyId = true ->
  bind (ensureValidPartyId partyId) (fun _ => k) w = k w.
Proof. intros V. unfold bind, ensureValidPartyId. rewrite V. reflexivity. Qed.

(** The loans service asks nothing of the ledger for a party id that fails
    the check: each of its operations on a party throws a bad request and
    leaves the world as it was, no request sent, nothing logged.  For an id
    that passes, the operation is the one of the ledger service, with the
    party and the contract in the order that service takes them. *)
Theorem LoansService_party_guard (partyId : string) (w : World) :
  let refused {X} : Res X * World :=
    (Throw (BadRequestException "Invalid party ID format. Expected format: partyName::1220..."),
     w) in
  (validatePartyId partyId = false ->
   LoansService.getOffers damlService partyId w = refused
   /\ LoansService.getActiveLoans damlService partyId w = refused
   /\ LoansService.getBalances damlService partyId w = refused
   /\ LoansService.issueTokens damlService partyId w = refused
   /\ (forall data userToken,
       LoansService.partyId data = partyId ->
       LoansService.createOffer damlService data userToken w = refused)
   /\ (forall contractId offer userToken,
       LoansService.acceptOffer damlService contractId partyId offer userToken w = refused)
   /\ (forall contractId repaymentAmount userToken,
       LoansService.repayLoan damlService contractId partyId repaymentAmount userToken w
       = refused)
   /\ (forall contractId claimDate userToken,
       LoansService.defaultLoan damlService contractId partyId claimDate userToken w
       = refused))
  /\ (validatePartyId partyId = true ->
      LoansService.getOffers damlService partyId w = queryLoanOffers damlService partyId w
      /\ LoansService.getActiveLoans damlService partyId w
         = queryActiveLoans damlService partyId w
      /\ LoansService.getBalances damlService partyId w = getTokenBalances damlService partyId w
      /\ LoansService.issueTokens damlService partyId w
         = issueTokensToParty damlService partyId None w
      /\ (forall contractId offer userToken,
          LoansService.acceptOffer damlService contractId partyId offer userToken w
          = acceptLoanOffer damlService partyId contractId offer userToken w)
      /\ (forall contractId repaymentAmount userToken,
          LoansService.repayLoan damlService contractId partyId repaymentAmount userToken w
          = repayLoan damlService partyId contractId repaymentAmount userToken w)
      /\ (forall contractId claimDate userToken,
          LoansService.defaultLoan damlService contractId partyId claimDate userToken w
          = defaultLoan damlService partyId contractId claimDate userToken w)
      /\ (forall data userToken,
          LoansService.partyId data = partyId ->
          LoansService.createOffer damlService data userToken w
          = createLoanOffer damlService partyId
              {| OfferSpec.offerType := LoansService.offerType data;
                 OfferSpec.loanAmount := LoansService.loanAmount data;
                 OfferSpec.collateralAmount := LoansService.collateralAmount data;
                 OfferSpec.interestRate := LoansService.interestRate data;
                 OfferSpec.maturityDate := LoansService.maturityDate data |}
              userToken w)).
Proof.
  intros refused. split; intros V.
  - repeat apply conj; intros;
      try (apply ensureValidPartyId_rejects; exact V).
    unfold LoansService.createOffer. apply ensureValidPartyId_rejects. congruence.
  - repeat apply conj; intros; try (apply ensureValidPartyId_passes; exact V).
    subst partyId. unfold LoansService.createOffer. apply ensureValidPartyId_passes. exact V.
Qed.

(** The explorer service.  (1) For a party id that fails the check each
    operation throws a bad request and sends nothing.  (2) A transaction
    the ledger service does not find in its window is a "Transaction not
    found", thrown, where the ledger service returned [null].  (3) A
    transaction the explorer returns has the id asked for, and the party id
    passed the check. *)
Theorem ExplorerService_lookup (partyId txId : string) (w : World) :
  (validatePartyId partyId = false ->
   let refused {X} : Res X * World :=
     (Throw (BadRequestException
               "Invalid party ID format. Expected format: partyName::1220..."), w) in
   (forall offset, ExplorerService.getTransactions damlService partyId offset w = refused)
   /\ ExplorerService.getTransactionById damlService partyId txId w = refused
   /\ (forall contractId,
       ExplorerService.getContractHistory damlService partyId contractId w = refused))
  /\ (validatePartyId partyId = true ->
      forall w',
        getTransactionById damlService partyId txId w = (Ok None, w') ->
        ExplorerService.getTransactionById damlService partyId txId w
        = (Throw (NotFoundException "Transaction not found"), w'))
  /\ (forall tx w',
      ExplorerService.getTransactionById damlService partyId txId w = (Ok tx, w') ->
      validatePartyId partyId = true /\ Transaction.transactionId tx = VStr txId).
Proof.
  repeat apply conj.
  - intros V refused. repeat apply conj; intros; apply ensureValidPartyId_rejects; exact V.
  - intros V w' H. unfold ExplorerService.getTransactionById.
    rewrite (ensureValidPartyId_passes _ _ _ V). rewrite (bind_ok _ _ _ _ _ H). reflexivity.
  - intros tx w'. unfold ExplorerService.getTransactionById.
    destruct (validatePartyId partyId) eqn:V.
    + rewrite (ensureValidPartyId_passes _ _ _ V). intros H.
      apply bind_returns in H. destruct H as [found [w1 [F H]]].
      destruct found as [tx' |]; [| discriminate H].
      apply ret_returns in H. destruct H as [E _]. subst tx'.
      split; [reflexivity | apply (getTransactionById_found _ _ _ _ _ _ F)].
    + rewrite (ensureValidPartyId_rejects _ _ _ V). intros H. discriminate H.
Qed.

(** The wallet service.  (1) Without a linked party, [null] or empty, each
    operation throws "Wallet not linked" and sends nothing.  (2) A transfer
    to oneself, of USDC or of coins, throws "Cannot transfer to yourself"
    and sends nothing.  (3) Otherwise the operation is the one of the
    ledger service for the linked party. *)
Theorem WalletService_guards (w : World) :
  let unlinked {X} : Res X * World :=
    (Throw (BadRequestException "Wallet not linked. Please complete onboarding first."), w) in
  (forall partyId,
      partyId = None \/ partyId = Some "" ->
      WalletService.getBalance damlService partyId w = unlinked
      /\ (forall recipient amount,
          WalletService.transferUSDC damlService partyId recipient amount w = unlinked)
      /\ (forall recipient amount userToken,
          WalletService.transferCC damlService partyId recipient amount userToken w = unlinked)
      /\ (forall transferId userToken,
          WalletService.acceptTransfer damlService partyId transferId userToken w = unlinked)
      /\ (forall transferId userToken,
          WalletService.rejectTransfer damlService partyId transferId userToken w = unlinked))
  /\ (forall party amount userToken,
      party <> "" ->
      WalletService.transferUSDC damlService (Some party) party amount w
      = (Throw (BadRequestException "Cannot transfer to yourself"), w)
      /\ WalletService.transferCC damlService (Some party) party amount userToken w
         = (Throw (BadRequestException "Cannot transfer to yourself"), w))
  /\ (forall party recipient amount userToken,
      party <> "" ->
      party <> recipient ->
      WalletService.transferUSDC damlService (Some party) recipient amount w
      = transferUSDC damlService party recipient amount w
      /\ WalletService.transferCC damlService (Some party) recipient amount userToken w
         = transferCC damlService party recipient amount userToken w
      /\ WalletService.getBalance damlService (Some party) w
         = getTokenBalances damlService party w).
Proof.
  intros unlinked. repeat apply conj.
  - intros partyId [E | E]; subst partyId; repeat apply conj; intros; reflexivity.
  - intros party amount userToken NE.
    unfold WalletService.transferUSDC, WalletService.transferCC, WalletService.ensureOnboarded.
    destruct (String.eqb_spec party ""); [contradiction |].
    unfold bind, ret. rewrite String.eqb_refl. split; reflexivity.
  - intros party recipient amount userToken NE D.
    unfold WalletService.transferUSDC, WalletService.transferCC, WalletService.getBalance,
      WalletService.ensureOnboarded.
    destruct (String.eqb_spec party ""); [contradiction |].
    unfold bind at 1 2 3. unfold ret.
    destruct (String.eqb_spec party recipient); [contradiction |].
    repeat split.
Qed.

End Callers.

(* ====================================================================== *)
(** * Further examples *)
(* ====================================================================== *)

Section MoreExamples.
Import Binary64.
Import Scenario.

(** A refused exchange: the call throws and the cache stays empty. *)
Lemma getAuth0Token_failure_caches_nothing_witness :
  fst (getAuth0Token Example.service Example.ledgerAudience w_token_refused)
  = Throw (Error "Auth0 token request failed (503): unavailable")
  /\ tokenCache (snd (getAuth0Token Example.service Example.ledgerAudience w_token_refused)) = ∅.
Proof.
  pose proof (getAuth0Token_failure_caches_nothing Example.service Example.ledgerAudience
                w_token_refused) as [K [R _]].
  assert (E : getAuth0Token Example.service Example.ledgerAudience w_token_refused
              = (Throw (Error "Auth0 token request failed (503): unavailable"),
                 snd (getAuth0Token Example.service Example.ledgerAudience w_token_refused))).
  { rewrite (R 503%float "unavailable" Example.t0 []); [reflexivity | | | |];
      vm_compute; reflexivity. }
  split; [rewrite E; reflexivity |]. apply (K _ _ E).
Defined.

(** The offset of a query when the ledger refuses to tell its end, and on
    an empty ledger. *)
Lemma getLatestOffset_fallback_witness :
  fst (getLatestOffset Example.service w_ledger_end_refused) = Ok (VNum 999999999%float)
  /\ fst (getLatestOffset Example.service w_ledger_empty) = Ok (VNum 999999999%float).
Proof.
  split.
  - assert (T : getLedgerApiToken Example.service w_ledger_end_refused
                = (Ok (VStr "ledger-token"), w_ledger_end_refused)) by (vm_compute; reflexivity).
    assert (U : URL_ok (jsonApiUrl Example.service ++ "/v2/state/ledger-end") = true)
      by (vm_compute; reflexivity).
    pose proof (getLatestOffset_fallback Example.service _ _ _ T U) as P. cbv zeta in P.
    destruct P as [P _].
    rewrite (P 500%float "down" Example.t0 []); [reflexivity | |]; vm_compute; reflexivity.
  - assert (T : getLedgerApiToken Example.service w_ledger_empty
                = (Ok (VStr "ledger-token"), w_ledger_empty)) by (vm_compute; reflexivity).
    assert (U : URL_ok (jsonApiUrl Example.service ++ "/v2/state/ledger-end") = true)
      by (vm_compute; reflexivity).
    pose proof (getLatestOffset_fallback Example.service _ _ _ T U) as P. cbv zeta in P.
    destruct P as [_ [P _]].
    rewrite (P 200%float (stringify (VObj [("offset", VNum 0%float)])) Example.t0 []
               (VObj [("offset", VNum 0%float)]));
      [vm_compute; reflexivity | | | |]; vm_compute; reflexivity.
Defined.

(** One created event under the four envelopes. *)
Lemma decodeEntry_envelopes_witness :
  decodeEntry (VObj [("createdEvent", created_event)]) = Ok (Some (contract_of created_event))
  /\ decodeEntry created_event = Ok (Some (contract_of created_event)).
Proof.
  assert (C : truthy (opt_get created_event "contractId") = true) by (vm_compute; reflexivity).
  destruct (decodeEntry_envelopes created_event C) as [_ [_ [E3 E4]]].
  split; [exact E3 | apply E4; reflexivity].
Defined.

(** Of two entries, one without a contract id, one contract is returned. *)
Lemma queryContracts_contract_ids_witness :
  Forall (fun c => truthy (raw_contractId c) = true)
    [{| raw_contractId := VStr "h1";
        raw_templateId := VStr "pkg:Holding:AssetHolding";
        raw_payload := VObj [("issuer", VStr Example.admin); ("owner", VStr Example.alice);
                             ("custodian", VStr Example.admin); ("assetType", VStr "USDC");
                             ("amount", VStr "1000")] |}].
Proof.
  refine (proj1 (queryContracts_contract_ids Example.service ["pkg:Holding:AssetHolding"]
                   [Example.alice] w_one_of_two
                   (snd (queryContracts Example.service ["pkg:Holding:AssetHolding"]
                           [Example.alice] w_one_of_two)) _ _)).
  vm_compute. reflexivity.
Defined.

(** A refused query. *)
Lemma queryContracts_refused_witness :
  fst (queryContracts Example.service ["pkg:Holding:AssetHolding"] [Example.alice]
         w_query_refused)
  = Throw (Error "DAML Query Error (400): bad filter")
  /\ console (snd (queryContracts Example.service ["pkg:Holding:AssetHolding"] [Example.alice]
                     w_query_refused))
     = ["[DAML Query Error] 400: bad filter"].
Proof.
  assert (O : getLatestOffset Example.service w_query_refused
              = (Ok (VNum 42%float), snd (getLatestOffset Example.service w_query_refused)))
    by (vm_compute; reflexivity).
  assert (T : getLedgerApiToken Example.service (snd (getLatestOffset Example.service w_query_refused))
              = (Ok (VStr "ledger-token"), snd (getLatestOffset Example.service w_query_refused)))
    by (vm_compute; reflexivity).
  destruct (queryContracts_refused Example.service ["pkg:Holding:AssetHolding"] [Example.alice]
              _ _ _ _ _ 400%float "bad filter" Example.t0 [] O T) as [R [L _]];
    try (vm_compute; reflexivity).
  split; [exact R | exact L].
Defined.

(** A refused submission, under the command id of the clock and the random
    suffix. *)
Lemma submitCommand_outcomes_witness :
  fst (submitCommand Example.service [defaultCmd Example.service "loan1" "2026-07-01"]
         [Example.alice; Example.bob] w_duplicate)
  = Throw (Error "DAML Command Error (409): DUPLICATE_COMMAND")
  /\ console (snd (submitCommand Example.service [defaultCmd Example.service "loan1" "2026-07-01"]
                     [Example.alice; Example.bob] w_duplicate))
     = ["[DAML Command Error] 409: DUPLICATE_COMMAND"].
Proof.
  assert (R : random_suffix w_duplicate = (Ok "k3x9qa", set_random [] w_duplicate))
    by reflexivity.
  assert (T : getLedgerApiToken Example.service (set_random [] w_duplicate)
              = (Ok (VStr "ledger-token"), set_random [] w_duplicate))
    by (vm_compute; reflexivity).
  assert (U : URL_ok (jsonApiUrl Example.service
                      ++ "/v2/commands/submit-and-wait-for-transaction") = true)
    by (vm_compute; reflexivity).
  assert (Hnet : net (set_random [] w_duplicate)
                 = [Responds 409%float "DUPLICATE_COMMAND" Example.t0]) by reflexivity.
  pose proof (submitCommand_outcomes Example.service
                [defaultCmd Example.service "loan1" "2026-07-01"] [Example.alice; Example.bob]
                _ _ _ _ _ _ _ _ _ R T U Hnet) as P.
  cbv zeta in P. destruct P as [P _].
  rewrite P by (vm_compute; reflexivity). split; reflexivity.
Defined.

(** The result [null] of the first exercised event is the result. *)
Lemma getExerciseResult_first_witness :
  getExerciseResult null_then_id = Ok VNull.
Proof.
  assert (D : nullish null_then_id = false) by reflexivity.
  destruct (getExerciseResult_first null_then_id D) as [P _].
  rewrite (P [VObj [("CreatedEvent", VObj [("contractId", VStr "c9")])];
              VObj [("ExercisedEvent", VObj [("exerciseResult", VNull)])];
              VObj [("ExercisedEvent", VObj [("exerciseResult", VStr "later")])]]).
  - vm_compute. reflexivity.
  - reflexivity.
  - repeat constructor.
Defined.

(** The id of the contract the response created. *)
Lemma getCreatedContractId_undefined_or_id_witness :
  getCreatedContractId null_then_id = Ok (VStr "c9")
  /\ ((VStr "c9" : value) = VUndef \/ truthy (VStr "c9" : value) = true).
Proof.
  assert (E : getCreatedContractId null_then_id = Ok (VStr "c9")) by (vm_compute; reflexivity).
  split; [exact E |].
  apply (proj1 (getCreatedContractId_undefined_or_id null_then_id (VStr "c9") E)).
Defined.

(** A wallet call under the user's token: one request, no exchange, and
    the blank answer, a no-break space among its blanks, is the empty
    object. *)
Lemma walletApiFetch_user_token_witness :
  fst (walletApiFetch Example.service "transfer-offers/offer1/withdraw" "POST" (VObj [])
         (Some "user-jwt") w_blank)
  = Ok (VObj [])
  /\ sent (snd (walletApiFetch Example.service "transfer-offers/offer1/withdraw" "POST"
                  (VObj []) (Some "user-jwt") w_blank))
     = [{| req_url :=
             "http://validator:5003/api/validator/v0/wallet/transfer-offers/offer1/withdraw";
           req_method := "POST";
           req_headers := [("Authorization", "Bearer user-jwt");
                           ("Content-Type", "application/json")];
           req_body := Some "{}" |}]
  /\ tokenCache (snd (walletApiFetch Example.service "transfer-offers/offer1/withdraw" "POST"
                        (VObj []) (Some "user-jwt") w_blank)) = ∅.
Proof.
  assert (NE : "user-jwt" <> "") by (intros H; discriminate H).
  assert (U : URL_ok (validatorWalletUrl Example.service ++ "/api/validator/v0/wallet/"
                      ++ "transfer-offers/offer1/withdraw") = true) by (vm_compute; reflexivity).
  assert (Hnet : net w_blank = [Responds 200%float blank Example.t0]) by reflexivity.
  pose proof (walletApiFetch_user_token Example.service "transfer-offers/offer1/withdraw"
                "POST" (VObj []) "user-jwt" w_blank _ _ _ _ NE U Hnet) as P.
  cbv zeta in P. destruct P as [S [C [_ [B _]]]].
  split; [apply B; vm_compute; reflexivity |].
  split; [rewrite S; vm_compute; reflexivity | exact C].
Defined.

(** With 100 coins Alice cannot put 500 in escrow: nothing is asked of the
    wallet. *)
Lemma lockAmulet_balance_guard_witness :
  lockAmulet Example.service Example.alice 500%float Example.admin "2026-06-30T23:59:59.000Z"
    None w_hundred_coins
  = (Throw (Error "Insufficient CC balance. Need 500, have 100.0000"),
     snd (queryAmulets Example.service Example.alice w_hundred_coins)).
Proof.
  assert (Q : queryAmulets Example.service Example.alice w_hundred_coins
              = (Ok [owned "a1" Example.alice "100"],
                 snd (queryAmulets Example.service Example.alice w_hundred_coins)))
    by (vm_compute; reflexivity).
  pose proof (lockAmulet_balance_guard Example.service Example.alice 500%float Example.admin
                "2026-06-30T23:59:59.000Z" None _ _ _ Q) as P.
  cbv zeta in P. destruct P as [_ [P _]].
  rewrite P; [reflexivity | intros H; discriminate H | vm_compute; reflexivity].
Defined.

(** Alice sends 500 of her 2000.5 coins to Bob: the instruction [ti1]
    expires a day later. *)
Lemma transferCC_balance_guard_witness :
  fst (transferCC Example.service Example.alice Example.bob 500%float None w_send_coins)
  = Ok (VObj [("success", VBool true);
              ("contractId", VStr "ti1");
              ("amount", VNum 500%float);
              ("from", VStr Example.alice);
              ("to", VStr Example.bob);
              ("expiresAt", VStr "2026-01-02T00:00:00.000Z")]).
Proof.
  assert (Q : queryAmulets Example.service Example.alice w_send_coins
              = (Ok [owned "a1" Example.alice "2000.5"],
                 snd (queryAmulets Example.service Example.alice w_send_coins)))
    by (vm_compute; reflexivity).
  pose proof (transferCC_balance_guard Example.service Example.alice Example.bob 500%float
                None _ _ _ Q) as P.
  cbv zeta in P. destruct P as [_ [_ P]].
  rewrite (P ltac:(intros H; discriminate H) ltac:(vm_compute; reflexivity)
             "" (snd (queryAmulets Example.service Example.alice w_send_coins))
             (VObj [("contract_id", VStr "ti1")])
             (snd (transferCC Example.service Example.alice Example.bob 500%float None
                     w_send_coins))
             "2026-01-02T00:00:00.000Z");
    [reflexivity | | | |]; vm_compute; reflexivity.
Defined.

(** Both endpoints refuse: the caller sees the second refusal, after two
    requests. *)
Lemma transfer_fallback_witness :
  fst (acceptTransfer Example.service "ti1" (Some "user-jwt") w_both_refuse)
  = Throw (Error "Wallet API error (409): already accepted")
  /\ map req_url (sent (snd (acceptTransfer Example.service "ti1" (Some "user-jwt")
                               w_both_refuse)))
     = ["http://validator:5003/api/validator/v0/wallet/token-standard/transfers/ti1/accept";
        "http://validator:5003/api/validator/v0/wallet/transfer-offers/ti1/accept"].
Proof.
  destruct (transfer_fallback Example.service "ti1" (Some "user-jwt") w_both_refuse)
    as [_ [_ [_ [_ P]]]].
  destruct (P "user-jwt" 404%float "no such transfer" Example.t0 409%float "already accepted"
              Example.t0 [] eq_refl) as [R S];
    try (vm_compute; reflexivity).
  - intros H. discriminate H.
  - split; [exact R | rewrite S; vm_compute; reflexivity].
Defined.

(** Carol is registered although the grant of rights is refused; the
    refusal is in the log. *)
Lemma registerWithValidator_outcomes_witness :
  fst (registerWithValidator Example.service "rhein-carol-x1y2" None w_register)
  = Ok (VStr carol)
  /\ console (snd (registerWithValidator Example.service "rhein-carol-x1y2" None w_register))
     = ["[DAML] Failed to grant actAs for carol::1220cc: forbidden"].
Proof.
  assert (T : userToken_or None (getValidatorToken Example.service) w_register
              = (Ok (VStr "wallet-token"), w_register)) by (vm_compute; reflexivity).
  assert (U : URL_ok (validatorWalletUrl Example.service ++ "/api/validator/v0/register") = true)
    by (vm_compute; reflexivity).
  assert (Hnet : net w_register
                 = [Responds 200%float (stringify (VObj [("party_id", VStr carol)])) Example.t0;
                    Responds 403%float "forbidden" Example.t0]) by reflexivity.
  pose proof (registerWithValidator_outcomes Example.service "rhein-carol-x1y2" None
                _ _ _ _ _ _ _ T U Hnet) as P.
  cbv zeta in P. destruct P as [_ [_ [P _]]].
  rewrite (P (VObj [("party_id", VStr carol)])) by (vm_compute; reflexivity).
  split; [reflexivity | vm_compute; reflexivity].
Defined.

(** The query for the issuer fails and a new issuer is created. *)
Lemma initializeAssetIssuers_reuses_witness :
  fst (initializeAssetIssuers Example.service w_issuer_query_fails) = Ok (VStr "issuer2")
  /\ ((VStr "issuer2" : value) = VUndef \/ truthy (VStr "issuer2" : value) = true).
Proof.
  destruct (initializeAssetIssuers_reuses Example.service w_issuer_query_fails)
    as [_ [_ [P I]]].
  assert (E : initializeAssetIssuers Example.service w_issuer_query_fails
              = (Ok (VStr "issuer2"),
                 snd (initializeAssetIssuers Example.service w_issuer_query_fails))).
  { rewrite (P (Error "DAML Query Error (500): down")
               (snd (queryContracts Example.service [templateId Example.service "Holding:AssetIssuer"]
                       [adminPartyId Example.service] w_issuer_query_fails)));
      vm_compute; reflexivity. }
  split; [rewrite E; reflexivity | apply (I _ _ E)].
Defined.

(** The faucet asked for 0 issues 100000. *)
Lemma issueTokensToParty_reports_witness :
  fst (issueTokensToParty Example.service Example.alice (Some 0%float) w_faucet)
  = Ok {| IssueResult.success := true;
          IssueResult.message :=
            "Successfully issued 100000 USDC (CC comes from real Canton Coins)" |}.
Proof.
  destruct (issueTokensToParty_reports Example.service Example.alice (Some 0%float) w_faucet)
    as [_ [_ [_ [P _]]]].
  rewrite (P (VStr "issuer1") (snd (initializeAssetIssuers Example.service w_faucet))
             Scenario.issued
             (snd (issueTokensToParty Example.service Example.alice (Some 0%float) w_faucet)));
    vm_compute; reflexivity.
Defined.

(** Alice accepts Bob's bid: her holding of 1000 is locked as [locked1] and
    the command carries it, with no collateral reference. *)
Lemma acceptLoanOffer_locks_witness :
  acceptLoanOffer Example.service Example.alice "offer7" bobs_bid None w_accept
  = submitCommand Example.service
      [acceptCmd Example.service Example.alice "offer7" (VStr "locked1") VNull]
      [Example.bob; Example.alice; Example.admin]
      (snd (lockUSDC Example.service Example.alice 1000%float "Accepting offer offer7"
              Example.bob w_accept))
  /\ fst (acceptLoanOffer Example.service Example.alice "offer7" bobs_bid None w_accept)
     = Ok accepted.
Proof.
  destruct (acceptLoanOffer_locks Example.service Example.alice "offer7" bobs_bid None w_accept)
    as [P _].
  destruct (P eq_refl) as [P1 _].
  destruct (P1 (VStr "locked1")
              (snd (lockUSDC Example.service Example.alice 1000%float "Accepting offer offer7"
                      Example.bob w_accept))) as [_ E].
  - vm_compute. reflexivity.
  - split; [exact E | rewrite E; vm_compute; reflexivity].
Defined.

(** Alice tries to claim and Bob to repay a loan that is not theirs. *)
Lemma unknown_loan_rejected_witness :
  defaultLoan Example.service Example.alice "loan9" None None Example.w_default_early
  = (Throw (Error "Loan loan9 not found"), Example.w_default_early_queried)
  /\ repayLoan Example.service Example.alice "loan9" 300%float None Example.w_default_early
     = (Throw (Error "Loan loan9 not found"), Example.w_default_early_queried).
Proof.
  assert (T : today_iso Example.w_default_early = (Ok "2026-01-01", Example.w_default_early))
    by (vm_compute; reflexivity).
  assert (Q : queryActiveLoans Example.service Example.alice Example.w_default_early
              = (Ok [Example.loan1], Example.w_default_early_queried))
    by (vm_compute; reflexivity).
  assert (F : Forall (fun l => is_str (contractId l) "loan9" = false) [Example.loan1])
    by (repeat constructor).
  destruct (unknown_loan_rejected Example.service Example.alice "loan9" _ _ _ _ _ T Q F)
    as [R D].
  split; [apply D | apply R].
Defined.

(** Alice sends Bob 500: her holding of 500 is handed over as it is. *)
Lemma transferUSDC_hands_over_allocation_witness :
  fst (transferUSDC Example.service Example.alice Example.bob 500%float w_send_usdc)
  = Ok (VObj [("success", VBool true);
              ("amount", VNum 500%float);
              ("from", VStr Example.alice);
              ("to", VStr Example.bob);
              ("transactionId", VStr "t-500")]).
Proof.
  destruct (transferUSDC_hands_over_allocation Example.service Example.alice Example.bob
              500%float w_send_usdc) as [_ [_ [_ P]]].
  rewrite (P (Example.held "h2" Example.alice "500")
             (snd (allocateExact Example.service false Example.alice 500%float w_send_usdc))
             transferred
             (snd (transferUSDC Example.service Example.alice Example.bob 500%float
                     w_send_usdc)));
    vm_compute; reflexivity.
Defined.

(** Alice asks to lend 1000 and holds nothing. *)
Lemma createLoanOffer_needs_principal_witness :
  createLoanOffer Example.service Example.alice Example.lenderAsk None w_no_principal
  = (Throw (Error "No USDC holdings found for party alice::1220aa"),
     snd (queryAssetHoldings Example.service Example.alice w_no_principal)).
Proof.
  assert (T : today_iso w_no_principal = (Ok "2026-01-01", w_no_principal))
    by (vm_compute; reflexivity).
  assert (Q : queryAssetHoldings Example.service Example.alice w_no_principal
              = (Ok [Example.held "h3" Example.bob "200"],
                 snd (queryAssetHoldings Example.service Example.alice w_no_principal)))
    by (vm_compute; reflexivity).
  pose proof (createLoanOffer_needs_principal Example.service Example.alice Example.lenderAsk
                None _ _ _ _ _ eq_refl T Q) as P.
  cbv zeta in P. destruct P as [P _].
  rewrite P; [reflexivity | vm_compute; reflexivity].
Defined.

(** A refused stream, and the ids of a stream of two lines. *)
Lemma getTransactionStream_transaction_ids_witness :
  fst (getTransactionStream Example.service Example.alice None w_stream_refused)
  = Throw (Error "Failed to fetch transactions: 500 - boom")
  /\ Forall (fun tx => truthy (Transaction.transactionId tx) = true)
       [Example.tx 1; Example.tx 2].
Proof.
  split.
  - destruct (getTransactionStream_transaction_ids Example.service Example.alice None
                w_stream_refused) as [_ [_ [_ P]]].
    rewrite (P (VStr "ledger-token") w_stream_refused 500%float "boom" Example.t0 []);
      [reflexivity | | | |]; vm_compute; reflexivity.
  - destruct (getTransactionStream_transaction_ids Example.service Example.alice None
                Example.w_stream_lines) as [P _].
    apply (P [Example.tx 1; Example.tx 2]
             (snd (getTransactionStream Example.service Example.alice None
                     Example.w_stream_lines))).
    vm_compute. reflexivity.
Defined.

(** The seventh transaction of the stream, found by its id. *)
Lemma explorer_lookups_are_exact_witness :
  getTransactionById Example.service Example.alice "tx7" Example.w_stream51
  = (Ok (Some (Example.tx 7)), Example.w_stream51_read)
  /\ Transaction.transactionId (Example.tx 7) = VStr "tx7".
Proof.
  assert (E : getTransactionById Example.service Example.alice "tx7" Example.w_stream51
              = (Ok (Some (Example.tx 7)), Example.w_stream51_read))
    by (vm_compute; reflexivity).
  split; [exact E |].
  destruct (explorer_lookups_are_exact Example.service Example.alice Example.w_stream51)
    as [P _].
  apply (P "tx7" (Example.tx 7) Example.w_stream51_read E).
Defined.

(** A party id without [::] asks nothing of the ledger. *)
Lemma LoansService_party_guard_witness :
  LoansService.getBalances Example.service "alice" Example.w_balances
  = (Throw (BadRequestException "Invalid party ID format. Expected format: partyName::1220..."),
     Example.w_balances)
  /\ LoansService.repayLoan Example.service "loan1" Example.bob 300%float None Example.w_repay
     = repayLoan Example.service Example.bob "loan1" 300%float None Example.w_repay.
Proof.
  split.
  - pose proof (LoansService_party_guard Example.service "alice" Example.w_balances) as P.
    cbv zeta in P. destruct P as [P _]. destruct (P eq_refl) as [_ [_ [G _]]]. exact G.
  - pose proof (LoansService_party_guard Example.service Example.bob Example.w_repay) as P.
    cbv zeta in P. destruct P as [_ P].
    destruct (P eq_refl) as [_ [_ [_ [_ [_ [R _]]]]]]. apply R.
Defined.

(** The latest transaction of the stream is not found. *)
Lemma ExplorerService_lookup_witness :
  ExplorerService.getTransactionById Example.service Example.alice "tx51" Example.w_stream51
  = (Throw (NotFoundException "Transaction not found"), Example.w_stream51_read).
Proof.
  destruct (ExplorerService_lookup Example.service Example.alice "tx51" Example.w_stream51)
    as [_ [P _]].
  apply (P eq_refl). vm_compute. reflexivity.
Defined.

(** Without a linked party, and to oneself. *)
Lemma WalletService_guards_witness :
  WalletService.getBalance Example.service None Example.w_balances
  = (Throw (BadRequestException "Wallet not linked. Please complete onboarding first."),
     Example.w_balances)
  /\ WalletService.transferUSDC Example.service (Some Example.alice) Example.alice 500%float
       w_send_usdc
     = (Throw (BadRequestException "Cannot transfer to yourself"), w_send_usdc).
Proof.
  pose proof (WalletService_guards Example.service Example.w_balances) as P.
  pose proof (WalletService_guards Example.service w_send_usdc) as P'.
  cbv zeta in P, P'. destruct P as [P _]. destruct P' as [_ [P' _]].
  split.
  - destruct (P None (or_introl eq_refl)) as [G _]. exact G.
  - destruct (P' Example.alice 500%float None) as [G _]; [intros H; discriminate H | exact G].
Defined.

(** The exchange for the ledger leaves the validator without a token. *)
Lemma token_cache_per_audience_witness :
  tokenCache (snd (getAuth0Token Example.service Example.ledgerAudience Example.w_fresh))
  !! "https://validator.rhein.finance"
  = None.
Proof.
  rewrite (token_cache_per_audience Example.service Example.ledgerAudience
             "https://validator.rhein.finance" Example.w_fresh).
  - reflexivity.
  - intros H. discriminate H.
Defined.

(** The Lock returns no string: the reference is the locked holding the
    transaction created. *)
Lemma lockUSDC_reference_witness :
  lockUSDC Example.service Example.alice 1000%float "loan" Example.bob w_lock_created
  = (Ok (VStr "lh1"),
     snd (lockUSDC Example.service Example.alice 1000%float "loan" Example.bob w_lock_created)).
Proof.
  assert (A : allocateExact Example.service true Example.alice 1000%float w_lock_created
              = (Ok (Example.held "h1" Example.alice "1000"),
                 snd (allocateExact Example.service true Example.alice 1000%float
                        w_lock_created))) by (vm_compute; reflexivity).
  assert (S : submitCommand Example.service
                [lockCmd Example.service (Example.held "h1" Example.alice "1000") "loan"
                   Example.bob] [Example.alice]
                (snd (allocateExact Example.service true Example.alice 1000%float
                        w_lock_created))
              = (Ok locked_created,
                 snd (lockUSDC Example.service Example.alice 1000%float "loan" Example.bob
                        w_lock_created))) by (vm_compute; reflexivity).
  assert (X : getExerciseResult locked_created = Ok (VObj [])) by (vm_compute; reflexivity).
  destruct (lockUSDC_reference Example.service Example.alice 1000%float "loan" Example.bob
              _ _ _ _ _ _ A S X) as [_ P].
  destruct (P eq_refl (VStr "lh1")) as [P1 _]; [vm_compute; reflexivity |].
  apply P1. reflexivity.
Defined.

(** Bob's holdings among Alice's change nothing in her snapshot: with his
    free holding of 200 and his locked holding of 75 among the results, and
    without them, she has 1500 available and 250 locked. *)
Lemma getTokenBalances_counts_own_usdc_witness :
  fst (getTokenBalances Example.service Example.alice Scenario.w_with_bobs)
  = Ok (Example.balance "USDC" 1500%float 250%float 300%float 1750%float,
        Example.balance "CC" 2000.5%float 100%float 0%float 2100.5%float)
  /\ fst (getTokenBalances Example.service Example.alice Scenario.w_without_bobs)
     = fst (getTokenBalances Example.service Example.alice Scenario.w_with_bobs).
Proof.
  pose (w1 := snd (queryAssetHoldings Example.service Example.alice Scenario.w_with_bobs)).
  pose (w2 := snd (queryLockedAssetHoldings Example.service Example.alice w1)).
  pose (w3 := snd (queryActiveLoans Example.service Example.alice w2)).
  pose (w4 := snd (queryAmulets Example.service Example.alice w3)).
  pose (w5 := snd (queryLockedAmulets Example.service Example.alice w4)).
  pose (v1 := snd (queryAssetHoldings Example.service Example.alice Scenario.w_without_bobs)).
  pose (v2 := snd (queryLockedAssetHoldings Example.service Example.alice v1)).
  pose (v3 := snd (queryActiveLoans Example.service Example.alice v2)).
  pose (v4 := snd (queryAmulets Example.service Example.alice v3)).
  pose (v5 := snd (queryLockedAmulets Example.service Example.alice v4)).
  destruct (getTokenBalances_counts_own_usdc Example.service Example.alice
              [Example.held "h1" Example.alice "1000"]
              [Example.held "h3" Example.bob "200"]
              [Example.held "h2" Example.alice "500"]
              [] [Scenario.lockedHeld "l2" Example.bob "75"]
              [Scenario.lockedHeld "l1" Example.alice "250"]
              [Example.lent "loan1" Example.alice Example.bob "300" "2026-06-30" "offer1";
               Example.lent "loan2" Example.bob Example.alice "700" "2026-03-31" "offer2"]
              [Scenario.owned "a1" Example.alice "2000.5"]
              [Scenario.lockedOwned "la1" Example.alice "100"]
              Scenario.w_with_bobs w1 w2 w3 w4 w5 Scenario.w_without_bobs v1 v2 v3 v4 v5)
    as [usdc [cc [A [B _]]]].
  - constructor; [right; vm_compute; intros E; discriminate E | constructor].
  - constructor; [right; vm_compute; intros E; discriminate E | constructor].
  - vm_compute. reflexivity.
  - vm_compute. reflexivity.
  - vm_compute. reflexivity.
  - vm_compute. reflexivity.
  - vm_compute. reflexivity.
  - vm_compute. reflexivity.
  - vm_compute. reflexivity.
  - vm_compute. reflexivity.
  - vm_compute. reflexivity.
  - vm_compute. reflexivity.
  - assert (E : fst (getTokenBalances Example.service Example.alice Scenario.w_with_bobs)
                = Ok (Example.balance "USDC" 1500%float 250%float 300%float 1750%float,
                      Example.balance "CC" 2000.5%float 100%float 0%float 2100.5%float))
      by (vm_compute; reflexivity).
    split; [exact E |]. rewrite A, B. reflexivity.
Defined.

End MoreExamples.
